(** * WanderStay: the demand-aware price recommendation pipeline

    A shallow embedding of the places of the repository that carry
    logic:

    - the [predict-price] edge function ([getPriceInsightFromGemini] and
      the [serve] handler): cache lookup, binary demand multiplier,
      adjusted price range, the call to the AI provider, its validation,
      the deterministic fallback and the error responses;
    - [src/lib/demand.ts] with the date helpers of [lib/utils]: the
      weighted demand score, its label and its price range;
    - the client: the handler of the price panel, the booking form, the
      lists of the dashboard, the query of the search page and [shuffle].

    Conventions.  A JavaScript number is a rational ([Q]), the exact
    value of the double; a number that may be [NaN] is an [option] whose
    [None] is [NaN].  Where the source multiplies or adds numbers whose
    exact result need not be a double (the weighted score, its price
    multiplier, the share of the price of the hotel that stands in for a
    missing statistic), the result is rounded to the nearest double, as
    the platform does, and so is each decimal literal that takes part.
    Strings are byte strings holding UTF-8, so the en-dash of the event
    format is the three bytes E2 80 93.  What the source leaves to the
    platform (JSON.parse, Date, the coercions) is the interface [Runtime];
    theorems hold for every runtime, and [utc_runtime] is one that runs. *)

From Stdlib Require Import ZArith QArith Qround Qpower String Ascii List Bool Lia Lqa.
From Stdlib Require Import Permutation.
From Stdlib Require DecimalString.
Import ListNotations.

Set Warnings "-register-all".

Close Scope Q_scope.
Open Scope Z_scope.

(** ** JavaScript strings *)

Module JsString.

Open Scope string_scope.

Definition code (c : ascii) : N := N_of_ascii c.

Definition is_code (n : N) (c : ascii) : bool := N.eqb (code c) n.

(** [strip_bytes p s]: [s] without its prefix [p] (given as byte codes). *)
Fixpoint strip_bytes (p : list N) (s : string) : option string :=
  match p with
  | [] => Some s
  | n :: p' =>
      match s with
      | String c r => if is_code n c then strip_bytes p' r else None
      | EmptyString => None
      end
  end.

(** Byte length of the line terminator (LF, CR, U+2028, U+2029) at the
    front of [s]; 0 when there is none. *)
Definition lt_len (s : string) : nat :=
  match s with
  | String c r =>
      if is_code 10 c || is_code 13 c then 1%nat
      else match strip_bytes [226; 128; 168]%N s, strip_bytes [226; 128; 169]%N s with
           | None, None => 0%nat
           | _, _ => 3%nat
           end
  | EmptyString => 0%nat
  end.

(** [strip_ws1 s]: [s] without one leading white-space code point (the
    WhiteSpace and LineTerminator productions of ECMAScript, which [\s]
    and [trim] share). *)
Definition strip_ws1 (s : string) : option string :=
  match s with
  | EmptyString => None
  | String c r =>
      let n := code c in
      if (N.leb 9 n && N.leb n 13) || N.eqb n 32 then Some r
      else if N.eqb n 194 then strip_bytes [160]%N r
      else if N.eqb n 225 then strip_bytes [154; 128]%N r
      else if N.eqb n 227 then strip_bytes [128; 128]%N r
      else if N.eqb n 239 then strip_bytes [187; 191]%N r
      else if N.eqb n 226 then
        match r with
        | String c1 (String c2 r2) =>
            let n1 := code c1 in
            let n2 := code c2 in
            if N.eqb n1 128
               && ((N.leb 128 n2 && N.leb n2 138) || N.eqb n2 168
                   || N.eqb n2 169 || N.eqb n2 175)
            then Some r2
            else if N.eqb n1 129 && N.eqb n2 159 then Some r2
            else None
        | _ => None
        end
      else None
  end.

Fixpoint skip_ws_fuel (fuel : nat) (s : string) : string :=
  match fuel with
  | O => s
  | S f => match strip_ws1 s with
           | Some r => skip_ws_fuel f r
           | None => s
           end
  end.

(** [\s*] at the front of [s], and String.prototype.trimStart. *)
Definition trimStart (s : string) : string := skip_ws_fuel (String.length s) s.

Definition all_ws (s : string) : bool :=
  match trimStart s with
  | EmptyString => true
  | _ => false
  end.

Fixpoint trimEnd (s : string) : string :=
  match s with
  | EmptyString => EmptyString
  | String c r => if all_ws s then EmptyString else String c (trimEnd r)
  end.

Definition trim (s : string) : string := trimEnd (trimStart s).

(** String.prototype.split with a one-character separator. *)
Fixpoint split (sep : ascii) (s : string) : list string :=
  match s with
  | EmptyString => [EmptyString]
  | String c r =>
      if Ascii.eqb c sep then EmptyString :: split sep r
      else match split sep r with
           | p :: ps => String c p :: ps
           | [] => [String c EmptyString]
           end
  end.

Definition startsWith (s p : string) : bool := String.prefix p s.

(** String.prototype.includes. *)
Fixpoint includes (s needle : string) : bool :=
  String.prefix needle s
  || match s with
     | EmptyString => false
     | String _ r => includes r needle
     end.

(** String.prototype.replace with a string pattern: the first occurrence. *)
Fixpoint replace (s pat by_ : string) : string :=
  match strip_bytes (map code (list_ascii_of_string pat)) s with
  | Some r => by_ ++ r
  | None => match s with
            | EmptyString => EmptyString
            | String c r => String c (replace r pat by_)
            end
  end.

(** String.prototype.toLowerCase, as far as it can produce or destroy an
    ASCII letter: A-Z, the Kelvin sign (U+212A, lower case k) and the
    dotted capital I (U+0130, lower case i followed by U+0307). *)
Fixpoint toLowerCase (s : string) : string :=
  match s with
  | EmptyString => EmptyString
  | String c r =>
      let n := code c in
      if N.leb 65 n && N.leb n 90 then String (ascii_of_N (n + 32)) (toLowerCase r)
      else
        match r with
        | String c1 r1 =>
            if N.eqb n 196 && is_code 176 c1
            then String "i" (String (ascii_of_N 204) (String (ascii_of_N 135)
                   (toLowerCase r1)))
            else match r1 with
                 | String c2 r2 =>
                     if N.eqb n 226 && is_code 132 c1 && is_code 170 c2
                     then String "k" (toLowerCase r2)
                     else String c (toLowerCase r)
                 | EmptyString => String c (toLowerCase r)
                 end
        | EmptyString => String c EmptyString
        end
  end.

Definition is_digit (c : ascii) : bool := N.leb 48 (code c) && N.leb (code c) 57.

Definition digit_val (c : ascii) : Z := Z.of_N (code c) - 48.

End JsString.

(** ** JavaScript values born from JSON, and the platform interface *)

Module Js.

Import JsString.
Open Scope string_scope.

(** A JavaScript number: the exact value of the double.  The sums and
    products of the weighted score and of the stand-in prices are rounded
    to the nearest double ([plus] and [times] below); the binary
    multiplier and the products rounded by [Math_round] in the handler are
    kept exact. *)
Definition number := Q.

(** Math.round: the nearest integer, a tie going up. *)
Definition Math_round (x : number) : Z := Qfloor (x + (1 # 2))%Q.

(** Math.ceil. *)
Definition Math_ceil (x : number) : Z := Qceiling x.

(** Math.min of two numbers. *)
Definition Math_min (x y : number) : number := if Qle_bool x y then x else y.

Definition Qlt_bool (x y : Q) : bool := negb (Qle_bool y x).

Inductive json : Type :=
| JNull
| JBool (b : bool)
| JNum (q : number)
| JStr (s : string)
| JArr (items : list json)
| JObj (props : list (string * json)).

(** Property access [o.k] on a non-null value: [None] is [undefined]. *)
Fixpoint assoc (k : string) (l : list (string * json)) : option json :=
  match l with
  | [] => None
  | (k', v) :: r => if String.eqb k k' then Some v else assoc k r
  end.

Definition get (v : json) (k : string) : option json :=
  match v with
  | JObj l => assoc k l
  | _ => None
  end.

(** Writing property [k] of an object literal: an existing key keeps its
    place and takes the new value, a new key goes last. *)
Fixpoint set (k : string) (v : json) (l : list (string * json)) : list (string * json) :=
  match l with
  | [] => [(k, v)]
  | (k', v') :: r => if String.eqb k k' then (k, v) :: r else (k', v') :: set k v r
  end.

(** Own enumerable properties copied by the spread [{...v}] of a value
    that is an object or a primitive without own properties. *)
Definition spread (v : json) : list (string * json) :=
  match v with
  | JObj l => l
  | _ => []
  end.

(** ToBoolean. *)
Definition truthy (v : json) : bool :=
  match v with
  | JNull => false
  | JBool b => b
  | JNum q => negb (Qeq_bool q 0)
  | JStr s => negb (String.eqb s "")
  | JArr _ | JObj _ => true
  end.

(** [a || b] where [a] may be [undefined]. *)
Definition or_else (a : option json) (b : json) : json :=
  match a with
  | Some v => if truthy v then v else b
  | None => b
  end.

(** [typeof x === 'number']. *)
Definition is_number (x : option json) : bool :=
  match x with
  | Some (JNum _) => true
  | _ => false
  end.

(** A number that may not be finite, as JSON.stringify writes it. *)
Definition of_number (x : option number) : json :=
  match x with
  | Some q => JNum q
  | None => JNull
  end.

(** What the source leaves to the platform.
    - [JSON_parse]: JSON.parse of a text, [None] when it throws;
    - [ToNumber]: the coercion of a value in arithmetic, [None] when the
      result is NaN;
    - [ToString]: the coercion of a value to a string;
    - [Date_parse]: the time value of [new Date(s)] in milliseconds,
      [None] for an invalid date;
    - [Date_getMonth]: the month (0 to 11) of a time value in the local
      time zone;
    - [Date_toISOString]: the ISO-8601 text of a time value;
    - [to_double]: the double nearest to a real number (to nearest, ties
      to even), which is what an arithmetic operation returns for its
      exact result and what a decimal literal denotes. *)
Class Runtime : Type := {
  JSON_parse : string -> option json;
  ToNumber : json -> option number;
  ToString : json -> string;
  Date_parse : string -> option Z;
  Date_getMonth : Z -> Z;
  Date_toISOString : Z -> string;
  to_double : Q -> number
}.

(** *** Arithmetic in double precision *)

(** A decimal literal of the source. *)
Definition literal `{Runtime} (q : Q) : number := to_double q.

(** [x + y] and [x * y]. *)
Definition plus `{Runtime} (x y : number) : number := to_double (x + y)%Q.

Definition times `{Runtime} (x y : number) : number := to_double (x * y)%Q.

(** What rounding to the nearest double obeys, as far as the finite
    range goes: it respects equality of rationals, it is monotone, a
    double is rounded to itself, and so is every number with a mantissa
    of at most 53 bits. *)
Record DoubleLaws `{Runtime} : Prop := {
  double_comp : forall x y : Q, (x == y)%Q -> (to_double x == to_double y)%Q;
  double_monotone : forall x y : Q, (x <= y)%Q -> (to_double x <= to_double y)%Q;
  double_idempotent : forall x : Q, (to_double (to_double x) == to_double x)%Q;
  double_dyadic :
    forall m e : Z,
      Z.abs m < 2 ^ 53 ->
      (to_double (inject_Z m * 2 ^ e) == inject_Z m * 2 ^ e)%Q
}.

(** *** parseInt *)

Definition hex_val (c : ascii) : option Z :=
  let n := code c in
  if is_digit c then Some (digit_val c)
  else if N.leb 97 n && N.leb n 102 then Some (Z.of_N n - 87)
  else if N.leb 65 n && N.leb n 70 then Some (Z.of_N n - 55)
  else None.

Definition dec_val (c : ascii) : option Z :=
  if is_digit c then Some (digit_val c) else None.

(** The longest prefix of digits of [s] in the given radix, read as a
    number; [None] when [s] does not start with a digit. *)
Fixpoint digits_prefix (val : ascii -> option Z) (radix : Z) (acc : option Z) (s : string)
  : option Z :=
  match s with
  | EmptyString => acc
  | String c r =>
      match val c with
      | Some d =>
          digits_prefix val radix
            (Some (match acc with Some a => a * radix + d | None => d end)) r
      | None => acc
      end
  end.

(** [parseInt(s)] without a radix argument; [None] is NaN. *)
Definition parseInt (s : string) : option Z :=
  let s0 := trimStart s in
  let '(sign, s1) :=
    match s0 with
    | String "-" r => ((-1)%Z, r)
    | String "+" r => (1%Z, r)
    | _ => (1%Z, s0)
    end in
  let mag :=
    match s1 with
    | String "0" (String "x" r) | String "0" (String "X" r) =>
        digits_prefix hex_val 16 None r
    | _ => digits_prefix dec_val 10 None s1
    end in
  option_map (Z.mul sign) mag.

(** Array.prototype.includes on numbers (SameValueZero: NaN is found). *)
Definition includes_num (l : list (option Z)) (x : option Z) : bool :=
  existsb (fun y => match x, y with
                    | Some a, Some b => Z.eqb a b
                    | None, None => true
                    | _, _ => false
                    end) l.

(** *** The two regular expressions of the source *)

(** [\d{4}-\d{2}-\d{2}] at the front of [s]: the ten characters and the
    rest. *)
Definition date10 (s : string) : option (string * string) :=
  match s with
  | String y1 (String y2 (String y3 (String y4 (String "-"
      (String m1 (String m2 (String "-" (String d1 (String d2 r))))))))) =>
      if forallb is_digit [y1; y2; y3; y4; m1; m2; d1; d2]
      then Some (String.substring 0 10 s, r)
      else None
  | _ => None
  end.

(** [\s*\((\d{4}-\d{2}-\d{2})–(\d{4}-\d{2}-\d{2})\)] at the front of
    [s]: the two dates. *)
Definition event_tail (s : string) : option (string * string) :=
  match trimStart s with
  | String "(" r1 =>
      match date10 r1 with
      | Some (start, r2) =>
          match strip_bytes [226; 128; 147]%N r2 with
          | Some r3 =>
              match date10 r3 with
              | Some (end_, String ")" _) => Some (start, end_)
              | _ => None
              end
          | None => None
          end
      | None => None
      end
  | _ => None
  end.

(** The lazy group [(.+?)] once its first character is consumed: [acc]
    holds the characters taken so far, in reverse. *)
Fixpoint event_name_from (acc : list ascii) (s : string)
  : option (string * string * string) :=
  match event_tail s with
  | Some (start, end_) => Some (string_of_list_ascii (rev acc), start, end_)
  | None =>
      match s with
      | EmptyString => None
      | String c r =>
          match lt_len s with
          | O => event_name_from (c :: acc) r
          | _ => None
          end
      end
  end.

(** [s.match(/(.+?)\s*\((\d{4}-\d{2}-\d{2})–(\d{4}-\d{2}-\d{2})\)/)]: the
    groups [name], [start], [end] of the leftmost match.  A match cannot
    start on a line terminator: the search goes on after it. *)
Fixpoint match_event (s : string) : option (string * string * string) :=
  match s with
  | EmptyString => None
  | String c r =>
      match lt_len s with
      | O =>
          match event_name_from [c] r with
          | Some m => Some m
          | None => match_event r
          end
      | S O => match_event r
      | _ =>
          match r with
          | String _ (String _ r2) => match_event r2
          | _ => None
          end
      end
  end.

(** The part of [s] up to and including its last [c]. *)
Fixpoint upto_last (c : ascii) (s : string) : option string :=
  match s with
  | EmptyString => None
  | String a r =>
      match upto_last c r with
      | Some t => Some (String a t)
      | None => if Ascii.eqb a c then Some (String a EmptyString) else None
      end
  end.

(** [s.match(/\{[\s\S]*\}/)]: group 0 of the leftmost match, which the
    greedy star extends to the last closing brace. *)
Fixpoint match_braces (s : string) : option string :=
  match s with
  | EmptyString => None
  | String a r =>
      if Ascii.eqb a "{" then
        match upto_last "}" r with
        | Some t => Some (String a t)
        | None => None
        end
      else match_braces r
  end.

End Js.

(** ** Exceptions *)

Module Exn.

Import JsString Js.
Open Scope string_scope.

(** What the platform, not the source, throws. *)
Inductive fault : Type :=
| InvalidRequestBody            (* req.json() rejects *)
| CreateClientFailed            (* createClient refuses an empty URL or key *)
| FetchFailed                   (* fetch rejects: no response at all *)
| JsonSyntaxError               (* response.json() or JSON.parse throws *)
| ReadOfNull (property : string) (* a property of null is read *)
| NotAFunction (property : string).

Inductive exn : Type :=
| Error (message : string)      (* [throw new Error(message)] of the source *)
| Fault (f : fault).

Inductive result (A : Type) : Type :=
| Ok (a : A)
| Throw (e : exn).

Arguments Ok {A} a.
Arguments Throw {A} e.

Definition bind {A B : Type} (m : result A) (k : A -> result B) : result B :=
  match m with
  | Ok a => k a
  | Throw e => Throw e
  end.

(** [try { body } catch { handler }]. *)
Definition try_catch {A : Type} (body : result A) (handler : exn -> A) : A :=
  match body with
  | Ok a => a
  | Throw e => handler e
  end.

(** The text the platform gives each of its exceptions. *)
Class Messages : Type := fault_message : fault -> string.

Definition message `{Messages} (e : exn) : string :=
  match e with
  | Error m => m
  | Fault f => fault_message f
  end.

End Exn.

Declare Scope result_scope.
Delimit Scope result_scope with result.
Notation "x <- e ;; k" := (Exn.bind e (fun x => k))
  (at level 61, e at next level, right associativity) : result_scope.

(** ** The price prediction edge function *)

Module PredictPrice.

Import JsString Js Exn.
Open Scope string_scope.

Definition GEMINI_MODEL : string := "gemini-2.5-flash".
Definition CACHE_DURATION_HOURS : Z := 24.

(** *** Rows of the data store *)

Record Hotel : Type := {
  id : Z;
  hotel_name : string;
  hotel_city : string;
  rating : option number;
  number_of_reviews : option number;
  price_per_night : number
}.

Record CityPriceStats : Type := {
  stats_city : string;
  min_price : number;
  avg_price : number;
  max_price : number
}.

Record CityDemand : Type := {
  demand_city : string;
  peak_months : option string;
  events : option string
}.

Record PricePrediction : Type := {
  hotel_id : option Z;
  city : string;
  check_in : string;
  check_out : string;
  nights : option Z;
  calculated_min : option number;
  calculated_max : option number;
  gemini_response : json;
  created_at : Z
}.

(** *** The payload sent to the provider *)

Record PriceInsightPayload : Type := {
  p_hotel_name : string;
  p_city : string;
  p_rating : number;
  p_reviews : number;
  base_min_price : number;
  base_avg_price : number;
  base_max_price : number;
  hotel_base_price : number;
  stay_check_in : string;
  stay_check_out : string;
  stay_nights : option Z;
  stay_guests : json;
  is_peak_month : bool;
  p_peak_months : string;
  event_active : bool;
  event_name : option string;
  user_budget_min : json;
  user_budget_max : json;
  calculated_range_min : number;
  calculated_range_max : number
}.

Inductive Fairness : Type := cheap | fair | expensive.

Definition fairness_string (f : Fairness) : string :=
  match f with
  | cheap => "cheap"
  | fair => "fair"
  | expensive => "expensive"
  end.

(** *** The provider *)

(** The outcome of one [fetch]: no response, or a status and a body. *)
Inductive FetchResult : Type :=
| Rejected
| Response (status : Z) (body : string).

(** [response.ok]. *)
Definition ok (status : Z) : bool := Z.leb 200 status && Z.leb status 299.

Definition string_of_Z (z : Z) : string :=
  DecimalString.NilZero.string_of_int (Z.to_int z).

(** [v?.[0]]. *)
Definition index0 (v : option json) : option json :=
  match v with
  | Some (JArr (x :: _)) => Some x
  | Some (JObj l) => assoc "0" l
  | Some (JStr (String c _)) => Some (JStr (String c EmptyString))
  | _ => None
  end.

(** [v?.k]. *)
Definition chain (v : option json) (k : string) : option json :=
  match v with
  | Some x => get x k
  | None => None
  end.

(** [data.candidates?.[0]?.content?.parts?.[0]?.text]; reading
    [candidates] of null throws. *)
Definition content_of (data : json) : result (option json) :=
  match data with
  | JNull => Throw (Fault (ReadOfNull "candidates"))
  | _ => Ok (chain (index0 (chain (chain (index0 (get data "candidates")) "content")
                                  "parts")) "text")
  end.

(** [['cheap', 'fair', 'expensive'].includes(x)]. *)
Definition is_fairness_label (x : option json) : bool :=
  match x with
  | Some (JStr s) =>
      String.eqb s "cheap" || String.eqb s "fair" || String.eqb s "expensive"
  | _ => false
  end.

(** [x < c] and [x > c] for a property that may be anything; used once
    [typeof x] is known to be number. *)
Definition prop_lt (x : option json) (c : number) : bool :=
  match x with
  | Some (JNum q) => Qlt_bool q c
  | _ => false
  end.

Definition prop_gt (x : option json) (c : number) : bool :=
  match x with
  | Some (JNum q) => Qlt_bool c q
  | _ => false
  end.

Definition falsy (x : option json) : bool :=
  match x with
  | Some v => negb (truthy v)
  | None => true
  end.

(** The condition of the validation [if]: true when the response is
    thrown away. *)
Definition invalid_structure (aiResponse : json) : bool :=
  negb (is_number (get aiResponse "recommended_min_price"))
  || negb (is_number (get aiResponse "recommended_max_price"))
  || negb (is_fairness_label (get aiResponse "fairness_label"))
  || negb (is_number (get aiResponse "confidence_score"))
  || prop_lt (get aiResponse "confidence_score") 0%Q
  || prop_gt (get aiResponse "confidence_score") 1%Q
  || falsy (get aiResponse "explanation").

(** The two attempts at reading [content] as JSON. *)
Definition parse_content `{Runtime} (content : json) : result json :=
  match content with
  | JStr text =>
      match JSON_parse text with
      | Some v => Ok v
      | None =>
          match match_braces text with
          | None => Throw (Error "No JSON found in response")
          | Some jsonMatch =>
              match JSON_parse jsonMatch with
              | Some v => Ok v
              | None => Throw (Fault JsonSyntaxError)
              end
          end
      end
  | _ =>
      match JSON_parse (ToString content) with
      | Some v => Ok v
      | None => Throw (Fault (NotAFunction "match"))
      end
  end.

(** The body of the [try] block. *)
Definition parse_and_validate `{Runtime} (data : json) : result json :=
  (content <- content_of data ;;
   match content with
   | None => Throw (Error "No content in Gemini response")
   | Some c =>
       if negb (truthy c) then Throw (Error "No content in Gemini response")
       else
         aiResponse <- parse_content c ;;
         match aiResponse with
         | JNull => Throw (Fault (ReadOfNull "recommended_min_price"))
         | _ =>
             if invalid_structure aiResponse
             then Throw (Error "Invalid response structure")
             else Ok aiResponse
         end
   end)%result.

(** The fairness label of the [catch] block. *)
Definition fallback_fairness (payload : PriceInsightPayload) : Fairness :=
  let avgRecommended :=
    ((calculated_range_min payload + calculated_range_max payload) / 2)%Q in
  let cityAvg := base_avg_price payload in
  if Qlt_bool avgRecommended (cityAvg * 0.8)%Q then cheap
  else if Qlt_bool (cityAvg * 1.3)%Q avgRecommended then expensive
  else fair.

Definition fallback_explanation (payload : PriceInsightPayload) : string :=
  "Price recommendation based on demand analysis. "
  ++ (if is_peak_month payload then "Peak season pricing applies. " else "")
  ++ (if event_active payload
      then match event_name payload with Some n => n | None => "null" end
           ++ " is happening during your dates. "
      else "")
  ++ "This is a calculated estimate.".

(** The object the [catch] block returns. *)
Definition fallback (payload : PriceInsightPayload) : json :=
  JObj [ ("recommended_min_price",
           JNum (inject_Z (Math_round (calculated_range_min payload))));
         ("recommended_max_price",
           JNum (inject_Z (Math_round (calculated_range_max payload))));
         ("fairness_label", JStr (fairness_string (fallback_fairness payload)));
         ("confidence_score", JNum 0.6%Q);
         ("explanation", JStr (fallback_explanation payload)) ].

Definition RATE_LIMIT_MESSAGE : string :=
  "RATE_LIMIT: Our AI service is currently busy. Please wait a minute and try again.".

(** [getPriceInsightFromGemini(payload, apiKey)].  [gemini n] is what the
    [n]-th [fetch] sent to the provider comes back with, and [calls] counts
    the fetches made so far; the function returns the new count. *)
Definition getPriceInsightFromGemini `{Runtime}
    (payload : PriceInsightPayload) (apiKey : string)
    (gemini : nat -> FetchResult) (calls : nat) : result json * nat :=
  (match gemini calls with
   | Rejected => Throw (Fault FetchFailed)
   | Response status body =>
       if negb (ok status) then
         if Z.eqb status 429 then Throw (Error RATE_LIMIT_MESSAGE)
         else Throw (Error ("Gemini API returned " ++ string_of_Z status ++ ": "
                            ++ String.substring 0 200 body))
       else
         match JSON_parse body with
         | None => Throw (Fault JsonSyntaxError)
         | Some data =>
             Ok (try_catch (parse_and_validate data) (fun _ => fallback payload))
         end
   end, S calls).


(** *** The request handler *)

Record PriceRequest : Type := {
  req_hotel_id : Z;
  req_city : string;
  req_check_in : string;
  req_check_out : string;
  guests : json;
  budget_min : option json;
  budget_max : option json
}.

(** The outcome of [req.json()]. *)
Inductive RequestBody : Type :=
| BadBody
| Body (fields : PriceRequest).

Record Request : Type := {
  method : string;
  body : RequestBody
}.

(** What a request finds around it: three readings of clocks (the
    function's at the cache check and in the [catch] block, the store's at
    the insert), the environment variables, the provider, the three
    read-only tables, and whether the store takes the row it is asked to
    insert. *)
Record Env : Type := {
  now : Z;
  db_now : Z;
  error_now : Z;
  SUPABASE_URL : option string;
  SUPABASE_ANON_KEY : option string;
  GEMINI_API_KEY : option string;
  gemini : nat -> FetchResult;
  hotels_india : list Hotel;
  city_price_stats : list CityPriceStats;
  city_demand : list CityDemand;
  store_accepts : PricePrediction -> bool
}.

(** What a request changes: the append-only table, and the count of
    fetches sent to the provider. *)
Record State : Type := {
  price_predictions : list PricePrediction;
  gemini_calls : nat
}.

Record HttpResponse : Type := {
  http_status : Z;
  http_body : option json
}.

(** [.single()] and [.maybeSingle()]: the row when there is exactly one. *)
Definition single {A : Type} (rows : list A) : option A :=
  match rows with
  | [x] => Some x
  | _ => None
  end.

Definition opt_Z_eqb (a : option Z) (b : Z) : bool :=
  match a with
  | Some x => Z.eqb x b
  | None => false
  end.

(** The filters of the cache query. *)
Definition cache_match (r : PriceRequest) (cacheExpiryTime : Z) (p : PricePrediction)
  : bool :=
  opt_Z_eqb (hotel_id p) (req_hotel_id r)
  && String.eqb (city p) (req_city r)
  && String.eqb (check_in p) (req_check_in r)
  && String.eqb (check_out p) (req_check_out r)
  && Z.leb cacheExpiryTime (created_at p).

(** [.order('created_at', { ascending: false }).limit(1)]: a row of the
    greatest [created_at]; among equals, the one stored first. *)
Fixpoint latest (rows : list PricePrediction) : option PricePrediction :=
  match rows with
  | [] => None
  | p :: rest =>
      match latest rest with
      | Some q => if Z.ltb (created_at p) (created_at q) then Some q else Some p
      | None => Some p
      end
  end.

(** [setHours(getHours() - CACHE_DURATION_HOURS)] on the current time:
    that many hours earlier (the function runs in UTC, where every hour
    has 3600000 milliseconds). *)
Definition cacheExpiryTime (env : Env) : Z :=
  now env - CACHE_DURATION_HOURS * 3600000.

Definition cachedPrediction (env : Env) (r : PriceRequest) (st : State)
  : option PricePrediction :=
  latest (filter (cache_match r (cacheExpiryTime env)) (price_predictions st)).

(** A nullable numeric column in arithmetic: null counts as 0. *)
Definition column (c : option number) : number :=
  match c with
  | Some q => q
  | None => 0%Q
  end.

(** [Math.round(x / d)] where [d] is any value: [None] when the result is
    not finite. *)
Definition round_div `{Runtime} (x : number) (d : json) : option number :=
  match ToNumber d with
  | Some q => if Qeq_bool q 0 then None else Some (inject_Z (Math_round (x / q)%Q))
  | None => None
  end.

(** The response built from a cached row. *)
Definition cached_response `{Runtime} (c : PricePrediction) : json :=
  let demandMultiplier := or_else (get (gemini_response c) "demand_multiplier") (JNum 1%Q) in
  let lo := column (calculated_min c) in
  let hi := column (calculated_max c) in
  JObj [ ("cached", JBool true);
         ("base_city_prices",
           JObj [ ("min", of_number (round_div lo demandMultiplier));
                  ("avg", of_number (round_div ((lo + hi) / 2)%Q demandMultiplier));
                  ("max", of_number (round_div hi demandMultiplier)) ]);
         ("adjusted_prices",
           JObj [ ("min", of_number (calculated_min c));
                  ("avg", JNum (inject_Z (Math_round ((lo + hi) / 2)%Q)));
                  ("max", of_number (calculated_max c));
                  ("multiplier", demandMultiplier) ]);
         ("ai_recommendation", gemini_response c);
         ("demand_context",
           JObj [ ("is_peak_month",
                    or_else (get (gemini_response c) "is_peak_month") (JBool false));
                  ("event_active",
                    or_else (get (gemini_response c) "event_active") (JBool false));
                  ("event_name", or_else (get (gemini_response c) "event_name") JNull);
                  ("demand_multiplier", demandMultiplier) ]) ].

(** Comparison of two [Date]s: false as soon as one is invalid. *)
Definition date_le (a b : option Z) : bool :=
  match a, b with
  | Some x, Some y => Z.leb x y
  | _, _ => false
  end.

(** [Math.ceil((checkOut - checkIn) / (1000 * 60 * 60 * 24))]. *)
Definition nights_between (checkInDate checkOutDate : option Z) : option Z :=
  match checkInDate, checkOutDate with
  | Some a, Some b => Some (Math_ceil (inject_Z (b - a) / inject_Z (1000 * 60 * 60 * 24))%Q)
  | _, _ => None
  end.

(** [peak_months.split(',').map(m => parseInt(m.trim()))]. *)
Definition parse_peak_months (s : string) : list (option Z) :=
  map (fun m => parseInt (trim m)) (split "," s).

Definition peakMonths (cityDemand : option CityDemand) : list (option Z) :=
  match cityDemand with
  | Some cd =>
      match peak_months cd with
      | Some s => parse_peak_months s
      | None => []
      end
  | None => []
  end.

(** The [for] loop over the event strings: it stops at the first event
    whose dates hold the check-in date. *)
Fixpoint scan_events `{Runtime} (checkInDate : option Z) (eventParts : list string)
  : bool * option string :=
  match eventParts with
  | [] => (false, None)
  | eventStr :: rest =>
      match match_event eventStr with
      | Some (name, start, end_) =>
          if date_le (Date_parse start) checkInDate
             && date_le checkInDate (Date_parse end_)
          then (true, Some (trim name))
          else scan_events checkInDate rest
      | None => scan_events checkInDate rest
      end
  end.

Definition active_event `{Runtime} (cityDemand : option CityDemand)
    (checkInDate : option Z) : bool * option string :=
  match cityDemand with
  | Some cd =>
      match events cd with
      | Some s =>
          if String.eqb s "" then (false, None)
          else scan_events checkInDate (split ";" s)
      | None => (false, None)
      end
  | None => (false, None)
  end.

(** The demand adjustment formula. *)
Definition demand_multiplier (isPeakMonth eventActive : bool) : number :=
  let m := 1%Q in
  let m := if isPeakMonth then (m + 0.20)%Q else m in
  let m := if eventActive then (m + 0.30)%Q else m in
  m.

Definition read_hotel (hotel : option Hotel) (property : string) : result Hotel :=
  match hotel with
  | Some h => Ok h
  | None => Throw (Fault (ReadOfNull property))
  end.

(** [stat || alt], where [alt] is evaluated only when [stat] is falsy. *)
Definition stat_or (stat : option number) (alt : result number) : result number :=
  match stat with
  | Some q => if Qeq_bool q 0 then alt else Ok q
  | None => alt
  end.

Definition number_or_zero (x : option number) : number :=
  match x with
  | Some q => q
  | None => 0%Q
  end.

Definition of_string_opt (s : option string) : json :=
  match s with
  | Some x => JStr x
  | None => JNull
  end.

Definition of_Z (z : Z) : json := JNum (inject_Z z).

(** The demand context of a stay, as the handler derives it. *)
Record Demand : Type := {
  isPeakMonth : bool;
  eventActive : bool;
  eventName : option string;
  demandMultiplier : number
}.

Definition demand_of `{Runtime} (cityDemand : option CityDemand) (checkIn : string)
  : Demand :=
  let checkInDate := Date_parse checkIn in
  let checkInMonth := option_map (fun t => Date_getMonth t + 1) checkInDate in
  let peak := includes_num (peakMonths cityDemand) checkInMonth in
  let '(active, name) := active_event cityDemand checkInDate in
  {| isPeakMonth := peak;
     eventActive := active;
     eventName := name;
     demandMultiplier := demand_multiplier peak active |}.

(** The adjusted price: the base price times the multiplier, rounded. *)
Definition adjusted (base multiplier : number) : Z := Math_round (base * multiplier)%Q.

Arguments adjusted (base multiplier)%_Q_scope.

(** The three reads of the store on the path without a cached row. *)
Definition hotel_row (env : Env) (r : PriceRequest) : option Hotel :=
  single (filter (fun h => Z.eqb (id h) (req_hotel_id r)) (hotels_india env)).

Definition city_stats_row (env : Env) (r : PriceRequest) : option CityPriceStats :=
  single (filter (fun s => String.eqb (stats_city s) (req_city r)) (city_price_stats env)).

Definition city_demand_row (env : Env) (r : PriceRequest) : option CityDemand :=
  single (filter (fun d => String.eqb (demand_city d) (req_city r)) (city_demand env)).

Definition stay_length `{Runtime} (r : PriceRequest) : option Z :=
  nights_between (Date_parse (req_check_in r)) (Date_parse (req_check_out r)).

(** What the handler holds when it is about to call the provider. *)
Record Prepared : Type := {
  payload : PriceInsightPayload;
  baseCityMin : number;
  baseCityAvg : number;
  baseCityMax : number;
  adjustedMin : Z;
  adjustedAvg : Z;
  adjustedMax : Z;
  geminiApiKey : string
}.

(** From the reads of the store to the check of the API key: the base
    and adjusted prices and the payload.  A hotel that is not found is
    null, and the first read of one of its properties throws. *)
Definition prepare `{Runtime} (env : Env) (r : PriceRequest) : result Prepared :=
  let hotel := hotel_row env r in
  let cityStats := city_stats_row env r in
  let cityDemand := city_demand_row env r in
  let d := demand_of cityDemand (req_check_in r) in
  (baseCityMin <- stat_or (option_map min_price cityStats)
                    (h <- read_hotel hotel "price_per_night" ;;
                     Ok (times (price_per_night h) (literal 0.8%Q))) ;;
   baseCityAvg <- stat_or (option_map avg_price cityStats)
                    (h <- read_hotel hotel "price_per_night" ;;
                     Ok (price_per_night h)) ;;
   baseCityMax <- stat_or (option_map max_price cityStats)
                    (h <- read_hotel hotel "price_per_night" ;;
                     Ok (times (price_per_night h) (literal 1.5%Q))) ;;
   let adjustedMin := adjusted baseCityMin (demandMultiplier d) in
   let adjustedAvg := adjusted baseCityAvg (demandMultiplier d) in
   let adjustedMax := adjusted baseCityMax (demandMultiplier d) in
   h <- read_hotel hotel "hotel_name" ;;
   let payload :=
     {| p_hotel_name := hotel_name h;
        p_city := hotel_city h;
        p_rating := number_or_zero (rating h);
        p_reviews := number_or_zero (number_of_reviews h);
        base_min_price := baseCityMin;
        base_avg_price := baseCityAvg;
        base_max_price := baseCityMax;
        hotel_base_price := price_per_night h;
        stay_check_in := req_check_in r;
        stay_check_out := req_check_out r;
        stay_nights := stay_length r;
        stay_guests := guests r;
        is_peak_month := isPeakMonth d;
        p_peak_months :=
          match cityDemand with
          | Some cd => match peak_months cd with Some s => s | None => "" end
          | None => ""
          end;
        event_active := eventActive d;
        event_name := eventName d;
        user_budget_min := or_else (budget_min r) JNull;
        user_budget_max := or_else (budget_max r) JNull;
        calculated_range_min := inject_Z adjustedMin;
        calculated_range_max := inject_Z adjustedMax |} in
   match GEMINI_API_KEY env with
   | None => Throw (Error "Gemini API key not configured")
   | Some key =>
       if String.eqb key "" then Throw (Error "Gemini API key not configured")
       else Ok {| payload := payload;
                  baseCityMin := baseCityMin;
                  baseCityAvg := baseCityAvg;
                  baseCityMax := baseCityMax;
                  adjustedMin := adjustedMin;
                  adjustedAvg := adjustedAvg;
                  adjustedMax := adjustedMax;
                  geminiApiKey := key |}
   end)%result.

(** The row stored after a fresh computation. *)
Definition stored_row `{Runtime} (env : Env) (r : PriceRequest) (p : Prepared)
    (d : Demand) (aiRecommendation : json) : PricePrediction :=
  {| hotel_id := Some (req_hotel_id r);
     city := req_city r;
     check_in := req_check_in r;
     check_out := req_check_out r;
     nights := stay_length r;
     calculated_min := Some (inject_Z (adjustedMin p));
     calculated_max := Some (inject_Z (adjustedMax p));
     gemini_response :=
       JObj (set "demand_multiplier" (JNum (demandMultiplier d))
              (set "event_name" (of_string_opt (eventName d))
                (set "event_active" (JBool (eventActive d))
                  (set "is_peak_month" (JBool (isPeakMonth d))
                    (spread aiRecommendation)))));
     created_at := db_now env |}.

(** The response of a fresh computation. *)
Definition fresh_response (p : Prepared) (d : Demand) (aiRecommendation : json) : json :=
  JObj [ ("cached", JBool false);
         ("base_city_prices",
           JObj [ ("min", JNum (baseCityMin p));
                  ("avg", JNum (baseCityAvg p));
                  ("max", JNum (baseCityMax p)) ]);
         ("adjusted_prices",
           JObj [ ("min", of_Z (adjustedMin p));
                  ("avg", of_Z (adjustedAvg p));
                  ("max", of_Z (adjustedMax p));
                  ("multiplier", JNum (demandMultiplier d)) ]);
         ("ai_recommendation", aiRecommendation);
         ("demand_context",
           JObj [ ("is_peak_month", JBool (isPeakMonth d));
                  ("event_active", JBool (eventActive d));
                  ("event_name", of_string_opt (eventName d));
                  ("demand_multiplier", JNum (demandMultiplier d)) ]) ].

(** The path taken when the cache has no row: the rest of the [try]
    block.  The result of the insertion is not looked at: when the store
    refuses the row ([store_accepts] is false) the response is the same
    and no row is left. *)
Definition fresh `{Runtime} (env : Env) (r : PriceRequest) (st : State)
  : result json * State :=
  let d := demand_of (city_demand_row env r) (req_check_in r) in
  match prepare env r with
  | Throw e => (Throw e, st)
  | Ok p =>
      let '(answer, calls) :=
        getPriceInsightFromGemini (payload p) (geminiApiKey p) (gemini env)
                                  (gemini_calls st) in
      match answer with
      | Throw e => (Throw e, {| price_predictions := price_predictions st;
                                gemini_calls := calls |})
      | Ok aiRecommendation =>
          let row := stored_row env r p d aiRecommendation in
          (Ok (fresh_response p d aiRecommendation),
           {| price_predictions :=
                if store_accepts env row
                then price_predictions st ++ [row]
                else price_predictions st;
              gemini_calls := calls |})
      end
  end.

(** [Deno.env.get(name) ?? ''] is not the empty string. *)
Definition is_set (variable : option string) : bool :=
  match variable with
  | Some x => negb (String.eqb x "")
  | None => false
  end.

(** [createClient] returns a client: it has a URL and a key. *)
Definition client_created (env : Env) : bool :=
  is_set (SUPABASE_URL env) && is_set (SUPABASE_ANON_KEY env).

(** The body of the handler's [try] block. *)
Definition handle `{Runtime} (env : Env) (req : Request) (st : State)
  : result json * State :=
  match body req with
  | BadBody => (Throw (Fault InvalidRequestBody), st)
  | Body r =>
      if negb (client_created env) then (Throw (Fault CreateClientFailed), st)
      else
        match cachedPrediction env r st with
        | Some c => (Ok (cached_response c), st)
        | None => fresh env r st
        end
  end.

(** The handler's [catch] block. *)
Definition error_response `{Runtime} `{Messages} (env : Env) (error : exn) : HttpResponse :=
  let errorMessage := message error in
  let '(errorMessage, statusCode) :=
    if startsWith (message error) "RATE_LIMIT:"
    then (replace (message error) "RATE_LIMIT: " "", 429)
    else (errorMessage, 500) in
  {| http_status := statusCode;
     http_body := Some (JObj [ ("error", JStr errorMessage);
                               ("code", of_Z statusCode);
                               ("timestamp", JStr (Date_toISOString (error_now env))) ]) |}.

(** The function given to [serve]. *)
Definition serve `{Runtime} `{Messages} (env : Env) (req : Request) (st : State)
  : HttpResponse * State :=
  if String.eqb (method req) "OPTIONS"
  then ({| http_status := 200; http_body := None |}, st)
  else
    let '(outcome, st') := handle env req st in
    (match outcome with
     | Ok answer => {| http_status := 200; http_body := Some answer |}
     | Throw e => error_response env e
     end, st').

End PredictPrice.

(** ** The date helpers of [lib/utils] *)

Module Utils.

Import Js.

Definition calculateNights `{Runtime} (checkIn checkOut : string) : option Z :=
  match Date_parse checkIn, Date_parse checkOut with
  | Some start, Some end_ =>
      Some (Math_ceil (inject_Z (end_ - start) / inject_Z (1000 * 60 * 60 * 24))%Q)
  | _, _ => None
  end.

Definition getMonthNumber `{Runtime} (date : string) : option Z :=
  option_map (fun t => Date_getMonth t + 1) (Date_parse date).

Definition isDateInRange `{Runtime} (date start end_ : string) : bool :=
  match Date_parse date, Date_parse start, Date_parse end_ with
  | Some d, Some s, Some e => Z.leb s d && Z.leb d e
  | _, _, _ => false
  end.

End Utils.

(** ** The weighted demand score of [src/lib/demand.ts] *)

Module DemandLib.

Import JsString Js Utils.
Open Scope string_scope.

Inductive Impact : Type := low | medium | high | very_high.

Record EventInfo : Type := {
  name : string;
  start : string;
  end_ : string;
  impact : Impact
}.

Record DemandContext : Type := {
  is_peak_month : bool;
  peak_months : option string;
  events : list EventInfo;
  demand_score : number
}.

Definition getEventImpact (eventName : string) : Impact :=
  let name := toLowerCase eventName in
  if includes name "kumbh" || includes name "diwali" || includes name "new year"
  then very_high
  else if includes name "wedding" || includes name "durga puja"
          || includes name "navratri"
  then high
  else if includes name "festival" || includes name "jayanti" || includes name "puja"
  then medium
  else low.

(** The loop of [parseEvents] over the trimmed parts. *)
Fixpoint parse_parts (eventParts : list string) : list EventInfo :=
  match eventParts with
  | [] => []
  | eventStr :: rest =>
      match match_event eventStr with
      | Some (n, s, e) =>
          {| name := trim n; start := s; end_ := e; impact := getEventImpact (trim n) |}
          :: parse_parts rest
      | None => parse_parts rest
      end
  end.

Definition parseEvents (eventsStr : option string) : list EventInfo :=
  match eventsStr with
  | None => []
  | Some s =>
      if String.eqb s "" then []
      else parse_parts (map trim (split ";" s))
  end.

Definition impactScore `{Runtime} (i : Impact) : number :=
  match i with
  | low => literal 0.1%Q
  | medium => literal 0.2%Q
  | high => literal 0.3%Q
  | very_high => literal 0.4%Q
  end.

(** The predicate of the [filter] that keeps the overlapping events. *)
Definition overlaps `{Runtime} (checkIn checkOut : string) (event : EventInfo) : bool :=
  isDateInRange checkIn (start event) (end_ event)
  || isDateInRange checkOut (start event) (end_ event)
  || (PredictPrice.date_le (Date_parse checkIn) (Date_parse (start event))
      && PredictPrice.date_le (Date_parse (end_ event)) (Date_parse checkOut)).

(** The [for] loop that adds the weight of each overlapping event, one
    rounded sum after the other. *)
Definition add_impacts `{Runtime} (demandScore : number)
    (overlappingEvents : list EventInfo) : number :=
  fold_left (fun score event => plus score (impactScore (impact event)))
            overlappingEvents demandScore.

Definition nonempty (s : option string) : option string :=
  match s with
  | Some x => if String.eqb x "" then None else Some x
  | None => None
  end.

Definition calculateDemandContext `{Runtime}
    (cityDemand : option PredictPrice.CityDemand) (checkIn checkOut : string)
  : DemandContext :=
  let checkInMonth := getMonthNumber checkIn in
  let peakMonths :=
    match nonempty (match cityDemand with
                    | Some cd => PredictPrice.peak_months cd
                    | None => None
                    end) with
    | Some s => map (fun m => parseInt (trim m)) (split "," s)
    | None => []
    end in
  let isPeakMonth := includes_num peakMonths checkInMonth in
  let allEvents :=
    parseEvents (nonempty (match cityDemand with
                           | Some cd => PredictPrice.events cd
                           | None => None
                           end)) in
  let overlappingEvents := filter (overlaps checkIn checkOut) allEvents in
  let demandScore := 0%Q in
  let demandScore :=
    if isPeakMonth then plus demandScore (literal 0.3%Q) else demandScore in
  let demandScore := add_impacts demandScore overlappingEvents in
  let demandScore := Math_min demandScore 1%Q in
  {| is_peak_month := isPeakMonth;
     peak_months := nonempty (match cityDemand with
                              | Some cd => PredictPrice.peak_months cd
                              | None => None
                              end);
     events := overlappingEvents;
     demand_score := demandScore |}.

Definition calculatePriceRange `{Runtime} (baseMin baseMax demandScore : number)
  : Z * Z :=
  let multiplier := plus 1%Q (times demandScore (literal 0.5%Q)) in
  (Math_round (times baseMin multiplier), Math_round (times baseMax multiplier)).

End DemandLib.

(** ** A runtime that computes *)

Module Reference.

Import JsString Js Exn.
Open Scope string_scope.

(** *** JSON text (ECMA-404) *)

Definition is_jws (c : ascii) : bool :=
  let n := code c in
  N.eqb n 32 || N.eqb n 9 || N.eqb n 10 || N.eqb n 13.

Fixpoint skip_jws (s : string) : string :=
  match s with
  | String c r => if is_jws c then skip_jws r else s
  | EmptyString => s
  end.

(** The digits at the front of [s]: their value after [acc], how many
    they are, and the rest. *)
Fixpoint span_digits (acc : Z) (count : nat) (s : string) : Z * nat * string :=
  match s with
  | String c r =>
      if is_digit c then span_digits (acc * 10 + digit_val c) (S count) r
      else (acc, count, s)
  | EmptyString => (acc, count, s)
  end.

(** [m * 10 ^ e] as a reduced fraction. *)
Definition scale10 (m e : Z) : Q :=
  if Z.leb 0 e then inject_Z (m * 10 ^ e)
  else Qred (Qmake m (Z.to_pos (10 ^ (- e)))).

Definition fraction_part (s : string) : option (Z * nat * string) :=
  match s with
  | String "." r =>
      match span_digits 0 0 r with
      | (_, O, _) => None
      | found => Some found
      end
  | _ => Some (0, O, s)
  end.

Definition exponent_part (s : string) : option (Z * string) :=
  match s with
  | String "e" r | String "E" r =>
      let '(sign, r1) :=
        match r with
        | String "-" r' => (-1, r')
        | String "+" r' => (1, r')
        | _ => (1, r)
        end in
      match span_digits 0 0 r1 with
      | (_, O, _) => None
      | (e, _, r2) => Some (sign * e, r2)
      end
  | _ => Some (0, s)
  end.

(** The number at the front of [s]: [-? int frac? exp?]. *)
Definition parse_number (s : string) : option (Q * string) :=
  let '(sign, s1) :=
    match s with
    | String "-" r => (-1, r)
    | _ => (1, s)
    end in
  let int_part :=
    match s1 with
    | String "0" r => Some (0, r)
    | _ => match span_digits 0 0 s1 with
           | (_, O, _) => None
           | (i, _, r) => Some (i, r)
           end
    end in
  match int_part with
  | None => None
  | Some (i, s2) =>
      match fraction_part s2 with
      | None => None
      | Some (f, k, s3) =>
          match exponent_part s3 with
          | None => None
          | Some (e, s4) =>
              Some (scale10 (sign * (i * 10 ^ Z.of_nat k + f)) (e - Z.of_nat k), s4)
          end
      end
  end.

Fixpoint hex_digits (n : nat) (acc : Z) (s : string) : option (Z * string) :=
  match n with
  | O => Some (acc, s)
  | S n' =>
      match s with
      | String c r =>
          match hex_val c with
          | Some d => hex_digits n' (acc * 16 + d) r
          | None => None
          end
      | EmptyString => None
      end
  end.

Definition byte (z : Z) : ascii := ascii_of_N (Z.to_N z).

(** The UTF-8 bytes of a code point (a lone surrogate is written like any
    other three-byte code point). *)
Definition utf8 (cp : Z) : list ascii :=
  if Z.ltb cp 128 then [byte cp]
  else if Z.ltb cp 2048 then [byte (192 + cp / 64); byte (128 + cp mod 64)]
  else if Z.ltb cp 65536 then
    [byte (224 + cp / 4096); byte (128 + (cp / 64) mod 64); byte (128 + cp mod 64)]
  else
    [byte (240 + cp / 262144); byte (128 + (cp / 4096) mod 64);
     byte (128 + (cp / 64) mod 64); byte (128 + cp mod 64)].

(** A [\uXXXX] escape whose [\u] is consumed: the code point (a
    surrogate pair is joined) and the rest. *)
Definition unicode_escape (s : string) : option (Z * string) :=
  match hex_digits 4 0 s with
  | None => None
  | Some (hi, r) =>
      if Z.leb 55296 hi && Z.leb hi 56319 then
        match r with
        | String b (String "u" r1) =>
            if is_code 92 b then
              match hex_digits 4 0 r1 with
              | Some (lo, r2) =>
                  if Z.leb 56320 lo && Z.leb lo 57343
                  then Some (65536 + (hi - 55296) * 1024 + (lo - 56320), r2)
                  else Some (hi, r)
              | None => Some (hi, r)
              end
            else Some (hi, r)
        | _ => Some (hi, r)
        end
      else Some (hi, r)
  end.

Definition simple_escape (c : ascii) : option ascii :=
  let n := code c in
  if N.eqb n 34 || N.eqb n 92 || N.eqb n 47 then Some c
  else if Ascii.eqb c "b" then Some (ascii_of_N 8)
  else if Ascii.eqb c "f" then Some (ascii_of_N 12)
  else if Ascii.eqb c "n" then Some (ascii_of_N 10)
  else if Ascii.eqb c "r" then Some (ascii_of_N 13)
  else if Ascii.eqb c "t" then Some (ascii_of_N 9)
  else None.

(** The characters of a string literal whose opening quote is consumed;
    [acc] holds them in reverse. *)
Fixpoint string_body (fuel : nat) (acc : list ascii) (s : string)
  : option (string * string) :=
  match fuel with
  | O => None
  | S f =>
      match s with
      | EmptyString => None
      | String c r =>
          if is_code 34 c then Some (string_of_list_ascii (rev acc), r)
          else if is_code 92 c then
            match r with
            | String e r1 =>
                if Ascii.eqb e "u" then
                  match unicode_escape r1 with
                  | Some (cp, r2) => string_body f (rev (utf8 cp) ++ acc) r2
                  | None => None
                  end
                else
                  match simple_escape e with
                  | Some x => string_body f (x :: acc) r1
                  | None => None
                  end
            | EmptyString => None
            end
          else if N.ltb (code c) 32 then None
          else string_body f (c :: acc) r
      end
  end.

Definition parse_string (s : string) : option (string * string) :=
  string_body (S (String.length s)) [] s.

(** A value at the front of [s], after white space. *)
Fixpoint parse_value (fuel : nat) (s : string) : option (json * string) :=
  match fuel with
  | O => None
  | S f =>
      match skip_jws s with
      | EmptyString => None
      | String c r as s0 =>
          if Ascii.eqb c "{" then
            match skip_jws r with
            | String "}" r1 => Some (JObj [], r1)
            | r1 => parse_members f [] r1
            end
          else if Ascii.eqb c "[" then
            match skip_jws r with
            | String "]" r1 => Some (JArr [], r1)
            | r1 => parse_elements f [] r1
            end
          else if is_code 34 c then
            match parse_string r with
            | Some (x, r1) => Some (JStr x, r1)
            | None => None
            end
          else
            match strip_bytes (map code (list_ascii_of_string "true")) s0,
                  strip_bytes (map code (list_ascii_of_string "false")) s0,
                  strip_bytes (map code (list_ascii_of_string "null")) s0 with
            | Some r1, _, _ => Some (JBool true, r1)
            | _, Some r1, _ => Some (JBool false, r1)
            | _, _, Some r1 => Some (JNull, r1)
            | None, None, None =>
                match parse_number s0 with
                | Some (q, r1) => Some (JNum q, r1)
                | None => None
                end
            end
      end
  end
with parse_elements (fuel : nat) (acc : list json) (s : string) : option (json * string) :=
  match fuel with
  | O => None
  | S f =>
      match parse_value f s with
      | Some (v, r) =>
          match skip_jws r with
          | String "," r1 => parse_elements f (v :: acc) r1
          | String "]" r1 => Some (JArr (rev (v :: acc)), r1)
          | _ => None
          end
      | None => None
      end
  end
with parse_members (fuel : nat) (acc : list (string * json)) (s : string)
  : option (json * string) :=
  match fuel with
  | O => None
  | S f =>
      match skip_jws s with
      | String q r =>
          if is_code 34 q then
            match parse_string r with
            | Some (k, r1) =>
                match skip_jws r1 with
                | String ":" r2 =>
                    match parse_value f r2 with
                    | Some (v, r3) =>
                        match skip_jws r3 with
                        | String "," r4 => parse_members f (set k v acc) r4
                        | String "}" r4 => Some (JObj (set k v acc), r4)
                        | _ => None
                        end
                    | None => None
                    end
                | _ => None
                end
            | None => None
            end
          else None
      | EmptyString => None
      end
  end.

(** JSON.parse: one value and nothing but white space after it. *)
Definition parse (text : string) : option json :=
  match parse_value (2 * String.length text + 2) text with
  | Some (v, r) => match skip_jws r with
                   | EmptyString => Some v
                   | _ => None
                   end
  | None => None
  end.

(** *** The coercions *)

Definition digits_string (z : Z) : string := DecimalString.NilZero.string_of_int (Z.to_int z).

Fixpoint zeros (n : nat) : string :=
  match n with
  | O => EmptyString
  | S n' => String "0" (zeros n')
  end.

(** The decimal exponent [n] of a positive number: [10^(n-1) <= q < 10^n]. *)
Definition exponent10 (q : Q) : Z :=
  let la := Z.of_nat (String.length (digits_string (Qnum q))) in
  let lb := Z.of_nat (String.length (digits_string (Zpos (Qden q)))) in
  if Qle_bool (scale10 1 (la - lb)) q then la - lb + 1 else la - lb.

(** Up to [count] digits of a number [m] with [0 <= m < 1]. *)
Fixpoint fraction_digits (count : nat) (m : Q) : string :=
  match count with
  | O => EmptyString
  | S c =>
      if Qeq_bool m 0 then EmptyString
      else
        let d := Qfloor (m * 10) in
        String (ascii_of_N (Z.to_N (48 + d))) (fraction_digits c (Qred (m * 10 - inject_Z d)))
  end.

(** Number::toString in base ten, with at most 17 significant digits. *)
Definition positive_to_string (q : Q) : string :=
  let n := exponent10 q in
  let ds := fraction_digits 17 (Qred (q * scale10 1 (- n))) in
  let k := Z.of_nat (String.length ds) in
  if Z.leb k n && Z.leb n 21 then ds ++ zeros (Z.to_nat (n - k))
  else if Z.ltb 0 n && Z.leb n 21 then
    String.substring 0 (Z.to_nat n) ds ++ "."
    ++ String.substring (Z.to_nat n) (Z.to_nat (k - n)) ds
  else if Z.ltb (-6) n && Z.leb n 0 then "0." ++ zeros (Z.to_nat (- n)) ++ ds
  else
    let e := n - 1 in
    let mantissa :=
      if Z.eqb k 1 then ds
      else String.substring 0 1 ds ++ "." ++ String.substring 1 (Z.to_nat (k - 1)) ds in
    mantissa ++ "e" ++ (if Z.ltb e 0 then "-" else "+") ++ digits_string (Z.abs e).

Definition number_to_string (q : Q) : string :=
  if Qeq_bool q 0 then "0"
  else if Qle_bool q 0 then "-" ++ positive_to_string (- q)
  else positive_to_string q.

Fixpoint join (sep : string) (l : list string) : string :=
  match l with
  | [] => EmptyString
  | [x] => x
  | x :: r => x ++ sep ++ join sep r
  end.

(** ToString of a value born from JSON. *)
Fixpoint to_string (v : json) : string :=
  match v with
  | JNull => "null"
  | JBool true => "true"
  | JBool false => "false"
  | JNum q => number_to_string q
  | JStr s => s
  | JArr items =>
      join "," (map (fun x => match x with
                              | JNull => EmptyString
                              | _ => to_string x
                              end) items)
  | JObj _ => "[object Object]"
  end.

Fixpoint radix_digits (radix : Z) (acc : Z) (s : string) : option Z :=
  match s with
  | EmptyString => Some acc
  | String c r =>
      match hex_val c with
      | Some d => if Z.ltb d radix then radix_digits radix (acc * radix + d) r else None
      | None => None
      end
  end.

(** StrDecimalLiteral: a sign, digits with an optional point, an optional
    exponent, and nothing after. *)
Definition decimal_literal (s : string) : option Q :=
  let '(sign, s1) :=
    match s with
    | String "-" r => (-1, r)
    | String "+" r => (1, r)
    | _ => (1, s)
    end in
  let '(i, ni, s2) := span_digits 0 0 s1 in
  let '(f, nf, s3) :=
    match s2 with
    | String "." r => span_digits 0 0 r
    | _ => (0, O, s2)
    end in
  match (ni + nf)%nat with
  | O => None
  | _ =>
      match exponent_part s3 with
      | Some (e, EmptyString) =>
          Some (scale10 (sign * (i * 10 ^ Z.of_nat nf + f)) (e - Z.of_nat nf))
      | _ => None
      end
  end.

(** StringToNumber; [None] when the result is NaN or infinite. *)
Definition string_to_number (s : string) : option Q :=
  match trim s with
  | EmptyString => Some 0%Q
  | String "0" (String x (String c r)) as t =>
      if Ascii.eqb x "x" || Ascii.eqb x "X"
      then option_map inject_Z (radix_digits 16 0 (String c r))
      else if Ascii.eqb x "o" || Ascii.eqb x "O"
      then option_map inject_Z (radix_digits 8 0 (String c r))
      else if Ascii.eqb x "b" || Ascii.eqb x "B"
      then option_map inject_Z (radix_digits 2 0 (String c r))
      else decimal_literal t
  | t => decimal_literal t
  end.

(** ToNumber of a value born from JSON. *)
Definition to_number (v : json) : option Q :=
  match v with
  | JNull => Some 0%Q
  | JBool true => Some 1%Q
  | JBool false => Some 0%Q
  | JNum q => Some q
  | JStr s => string_to_number s
  | JArr _ => string_to_number (to_string v)
  | JObj _ => None
  end.

(** *** Dates: the proleptic Gregorian calendar in UTC *)

Definition days_from_civil (y m d : Z) : Z :=
  let y' := if Z.leb m 2 then y - 1 else y in
  let era := y' / 400 in
  let yoe := y' - era * 400 in
  let doy := (153 * (if Z.ltb 2 m then m - 3 else m + 9) + 2) / 5 + d - 1 in
  let doe := yoe * 365 + yoe / 4 - yoe / 100 + doy in
  era * 146097 + doe - 719468.

(** Year, month (1 to 12) and day of a count of days since 1970-01-01. *)
Definition civil_from_days (z : Z) : Z * Z * Z :=
  let z' := z + 719468 in
  let era := z' / 146097 in
  let doe := z' - era * 146097 in
  let yoe := (doe - doe / 1460 + doe / 36524 - doe / 146096) / 365 in
  let doy := doe - (365 * yoe + yoe / 4 - yoe / 100) in
  let mp := (5 * doy + 2) / 153 in
  let d := doy - (153 * mp + 2) / 5 + 1 in
  let m := if Z.ltb mp 10 then mp + 3 else mp - 9 in
  ((yoe + era * 400) + (if Z.leb m 2 then 1 else 0), m, d).

Definition ms_per_day : Z := 86400000.

Definition is_leap (y : Z) : bool :=
  (Z.eqb (y mod 4) 0 && negb (Z.eqb (y mod 100) 0)) || Z.eqb (y mod 400) 0.

Definition days_in_month (y m : Z) : Z :=
  if Z.eqb m 2 then (if is_leap y then 29 else 28)
  else if Z.eqb m 4 || Z.eqb m 6 || Z.eqb m 9 || Z.eqb m 11 then 30
  else 31.

(** [new Date(s)] for the date-only form [YYYY-MM-DD], read as UTC
    midnight; any other text is an invalid date. *)
Definition date_parse (s : string) : option Z :=
  match date10 s with
  | Some (_, EmptyString) =>
      match span_digits 0 0 (String.substring 0 4 s),
            span_digits 0 0 (String.substring 5 2 s),
            span_digits 0 0 (String.substring 8 2 s) with
      | (y, _, _), (m, _, _), (d, _, _) =>
          if Z.leb 1 m && Z.leb m 12 && Z.leb 1 d && Z.leb d (days_in_month y m)
          then Some (days_from_civil y m d * ms_per_day)
          else None
      end
  | _ => None
  end.

Definition date_getMonth (t : Z) : Z :=
  let '(_, m, _) := civil_from_days (t / ms_per_day) in m - 1.

Definition pad (width : nat) (z : Z) : string :=
  let ds := digits_string z in
  zeros (width - String.length ds) ++ ds.

Definition date_toISOString (t : Z) : string :=
  let '(y, m, d) := civil_from_days (t / ms_per_day) in
  let ms := t mod ms_per_day in
  let year :=
    if Z.leb 0 y && Z.leb y 9999 then pad 4 y
    else (if Z.ltb y 0 then "-" else "+") ++ pad 6 (Z.abs y) in
  year ++ "-" ++ pad 2 m ++ "-" ++ pad 2 d ++ "T"
  ++ pad 2 (ms / 3600000) ++ ":" ++ pad 2 ((ms / 60000) mod 60) ++ ":"
  ++ pad 2 ((ms / 1000) mod 60) ++ "." ++ pad 3 (ms mod 1000) ++ "Z".

(** *** Doubles: precision 53, to nearest, ties to even *)

(** The integer nearest to [q], a tie going to the even one. *)
Definition round_half_even (q : Q) : Z :=
  let f := Qfloor q in
  match Qcompare (q - inject_Z f)%Q (1 # 2)%Q with
  | Lt => f
  | Gt => f + 1
  | Eq => if Z.even f then f else f + 1
  end.

(** For a positive [x], the [e] with [2^e <= x < 2^(e+1)]. *)
Definition binade (x : Q) : Z :=
  let e0 := Z.log2 (Qnum x) - Z.log2 (Zpos (Qden x)) in
  if Qle_bool (2 ^ e0)%Q x then e0 else e0 - 1.

(** The nearest number with a mantissa of 53 bits, for a positive [x]. *)
Definition nearest53 (x : Q) : Q :=
  let u := (2 ^ (binade x - 52))%Q in
  (inject_Z (round_half_even (x / u)%Q) * u)%Q.

(** The nearest double, in lowest terms.  The range of the exponent is
    left out: no overflow and no subnormal numbers, which prices and
    scores are far from. *)
Definition nearest_double (x : Q) : Q :=
  Qred match Qcompare x 0%Q with
       | Eq => 0%Q
       | Gt => nearest53 x
       | Lt => (- nearest53 (- x))%Q
       end.

#[export] Instance utc_runtime : Runtime := {|
  JSON_parse := parse;
  ToNumber := to_number;
  ToString := to_string;
  Date_parse := date_parse;
  Date_getMonth := date_getMonth;
  Date_toISOString := date_toISOString;
  to_double := nearest_double
|}.

(** The texts of the platform's exceptions. *)
#[export] Instance messages : Messages := fun f =>
  match f with
  | InvalidRequestBody => "Unexpected end of JSON input"
  | CreateClientFailed => "supabaseUrl is required."
  | FetchFailed => "error sending request"
  | JsonSyntaxError => "Unexpected token in JSON"
  | ReadOfNull property =>
      "Cannot read properties of null (reading '" ++ property ++ "')"
  | NotAFunction property => "content." ++ property ++ " is not a function"
  end.

(** A text with each apostrophe turned into a double quote: JSON texts
    are written with apostrophes below. *)
Fixpoint quoted (s : string) : string :=
  match s with
  | EmptyString => EmptyString
  | String c r => String (if Ascii.eqb c "'" then ascii_of_N 34 else c) (quoted r)
  end.

End Reference.

(** ** The properties, as the specification words them *)

Module Spec.

Import JsString Js Exn PredictPrice.
Open Scope string_scope.

(** A number-valued property of an object. *)
Definition num_field (v : json) (k : string) : option number :=
  match get v k with
  | Some (JNum q) => Some q
  | _ => None
  end.

(** The constraints the validation of an AI response enforces: numeric
    prices, a confidence score in [0,1], one of the three labels. *)
Definition checked_invariant (v : json) : bool :=
  is_number (get v "recommended_min_price")
  && is_number (get v "recommended_max_price")
  && is_fairness_label (get v "fairness_label")
  && match num_field v "confidence_score" with
     | Some c => Qle_bool 0 c && Qle_bool c 1
     | None => false
     end.

(** [recommended_min <= recommended_max]. *)
Definition ordered (v : json) : bool :=
  match num_field v "recommended_min_price", num_field v "recommended_max_price" with
  | Some lo, Some hi => Qle_bool lo hi
  | _, _ => false
  end.

(** The invariant of a price recommendation in full. *)
Definition recommendation_invariant (v : json) : bool :=
  ordered v && checked_invariant v.

(** The midpoint of the calculated range. *)
Definition midpoint (payload : PriceInsightPayload) : Q :=
  ((calculated_range_min payload + calculated_range_max payload) / 2)%Q.

(** [c] occurs in [s]. *)
Fixpoint has_char (c : ascii) (s : string) : bool :=
  match s with
  | EmptyString => false
  | String a r => Ascii.eqb a c || has_char c r
  end.

(** The events of the raw text that match the format, in its order. *)
Fixpoint parsed_events (eventParts : list string) : list (string * string * string) :=
  match eventParts with
  | [] => []
  | eventStr :: rest =>
      match match_event eventStr with
      | Some ev => ev :: parsed_events rest
      | None => parsed_events rest
      end
  end.

(** The event strings the handler loops over. *)
Definition event_parts (cityDemand : option CityDemand) : list string :=
  match cityDemand with
  | Some cd =>
      match events cd with
      | Some s => if String.eqb s "" then [] else split ";" s
      | None => []
      end
  | None => []
  end.

(** The interval [start, end] of an event holds the date, both ends
    included. *)
Definition event_holds `{Runtime} (date : option Z) (ev : string * string * string) : bool :=
  let '(_, start, end_) := ev in
  match date, Date_parse start, Date_parse end_ with
  | Some t, Some a, Some b => Z.leb a t && Z.leb t b
  | _, _, _ => false
  end.

Definition checkInMonth `{Runtime} (checkIn : string) : option Z :=
  option_map (fun t => Date_getMonth t + 1) (Date_parse checkIn).

(** The month [m] is in the list of peak months of the record: one of
    the pieces of its text between commas reads, spaces aside, as the
    whole number [m]. *)
Definition month_listed (cityDemand : option CityDemand) (m : Z) : bool :=
  match cityDemand with
  | Some cd =>
      match peak_months cd with
      | Some text =>
          existsb (fun piece => match parseInt (trim piece) with
                                | Some k => Z.eqb k m
                                | None => false
                                end)
                  (split "," text)
      | None => false
      end
  | None => false
  end.

(** The key words of the three severities above low. *)
Definition very_high_words : list string := ["diwali"; "kumbh"; "new year"].
Definition high_words : list string := ["wedding"; "durga puja"; "navratri"].
Definition medium_words : list string := ["festival"; "jayanti"; "puja"].

(** The name holds one of the words, capitals aside. *)
Definition mentions (name : string) (words : list string) : bool :=
  existsb (includes (toLowerCase name)) words.

(** The severity of an event, read off its name: the highest severity one
    of whose key words the name holds, and low when it holds none. *)
Definition severity_of (name : string) : DemandLib.Impact :=
  if mentions name very_high_words then DemandLib.very_high
  else if mentions name high_words then DemandLib.high
  else if mentions name medium_words then DemandLib.medium
  else DemandLib.low.

(** The weight of a severity. *)
Definition severity_weight `{Runtime} (i : DemandLib.Impact) : number :=
  match i with
  | DemandLib.low => literal 0.1%Q
  | DemandLib.medium => literal 0.2%Q
  | DemandLib.high => literal 0.3%Q
  | DemandLib.very_high => literal 0.4%Q
  end.

(** The score after each of the events, in their order, has added the
    weight of its severity. *)
Fixpoint gain `{Runtime} (score : number) (overlapping : list DemandLib.EventInfo)
  : number :=
  match overlapping with
  | [] => score
  | e :: rest => gain (plus score (severity_weight (DemandLib.impact e))) rest
  end.

(** The weighted score: it starts at 0, a peak month adds 0.30, each
    overlapping event adds its weight, and the total is capped at 1. *)
Definition weighted_score `{Runtime} (peak : bool)
    (overlapping : list DemandLib.EventInfo) : number :=
  let start := 0%Q in
  let total := gain (if peak then plus start (literal 0.3%Q) else start) overlapping in
  if Qle_bool total 1 then total else 1%Q.

(** The multiplier of a score, and a price under a multiplier, rounded to
    the nearest whole unit. *)
Definition score_multiplier `{Runtime} (score : number) : number :=
  plus 1%Q (times score (literal 0.5%Q)).

Definition rounded_price `{Runtime} (base multiplier : number) : Z :=
  Math_round (times base multiplier).

(** A stay overlaps an event when its check-in date is inside the range
    of the event, or its check-out date is, or the range of the event is
    inside the stay; a date that does not parse is inside nothing. *)
Definition stay_overlaps (checkIn checkOut start end_ : option Z) : bool :=
  match checkIn, start, end_ with
  | Some ci, Some s, Some e => Z.leb s ci && Z.leb ci e
  | _, _, _ => false
  end
  || match checkOut, start, end_ with
     | Some co, Some s, Some e => Z.leb s co && Z.leb co e
     | _, _, _ => false
     end
  || match checkIn, checkOut, start, end_ with
     | Some ci, Some co, Some s, Some e => Z.leb ci s && Z.leb e co
     | _, _, _, _ => false
     end.

(** An event of the weighted model, from the three groups of an entry. *)
Definition event_of (entry : string * string * string) : DemandLib.EventInfo :=
  let '(name, start, end_) := entry in
  {| DemandLib.name := trim name;
     DemandLib.start := start;
     DemandLib.end_ := end_;
     DemandLib.impact := severity_of (trim name) |}.

(** The events of a city record in the weighted model: the entries of
    its text between semicolons, spaces around them aside, that match the
    format, each with the severity of its name. *)
Definition weighted_events (cityDemand : option CityDemand)
  : list DemandLib.EventInfo :=
  match cityDemand with
  | Some cd =>
      match events cd with
      | Some text =>
          if String.eqb text "" then []
          else map event_of (parsed_events (map trim (split ";" text)))
      | None => []
      end
  | None => []
  end.

(** The recommendation carries an explanation: a text that is not
    empty. *)
Definition has_explanation (v : json) : bool :=
  match get v "explanation" with
  | Some (JStr text) => negb (String.eqb text "")
  | _ => false
  end.

(** The body of an error response. *)
Definition error_body `{Runtime} (env : Env) (error : string) (code : Z) : json :=
  JObj [ ("error", JStr error);
         ("code", of_Z code);
         ("timestamp", JStr (Date_toISOString (error_now env))) ].

(** The request went as far as the provider, and the provider answered
    with status 429. *)
Definition rate_limited (env : Env) (before after : State) : Prop :=
  gemini_calls after = S (gemini_calls before)
  /\ exists body, gemini env (gemini_calls before) = Response 429 body.

(** An exception other than the one of the rate limit. *)
Inductive ordinary : exn -> Prop :=
| ordinary_fault (f : fault) : ordinary (Fault f)
| ordinary_key : ordinary (Error "Gemini API key not configured")
| ordinary_status (status : Z) (body : string) :
    ordinary (Error ("Gemini API returned " ++ string_of_Z status ++ ": "
                     ++ String.substring 0 200 body)).

Definition BUSY : string :=
  "Our AI service is currently busy. Please wait a minute and try again.".

(** The keys the handler adds to a recommendation when it stores it. *)
Definition context_key (k : string) : bool :=
  String.eqb k "is_peak_month" || String.eqb k "event_active"
  || String.eqb k "event_name" || String.eqb k "demand_multiplier".

(** A property of the body of a response, two levels down. *)
Definition body_field (r : HttpResponse) (k1 k2 : string) : option json :=
  match http_body r with
  | Some b => chain (get b k1) k2
  | None => None
  end.

Definition top_field (r : HttpResponse) (k : string) : option json :=
  match http_body r with
  | Some b => get b k
  | None => None
  end.

End Spec.

(** ** Sample data *)

Module Sample.

Import JsString Js Exn PredictPrice Reference.
Open Scope string_scope.

(** A payload with the given range and city average and no demand. *)
Definition payload_of (lo hi avg : number) : PriceInsightPayload :=
  {| p_hotel_name := "Sea View";
     p_city := "Mumbai";
     p_rating := 4.5%Q;
     p_reviews := 120%Q;
     base_min_price := 4000%Q;
     base_avg_price := avg;
     base_max_price := 7500%Q;
     hotel_base_price := 5000%Q;
     stay_check_in := "2024-11-05";
     stay_check_out := "2024-11-08";
     stay_nights := Some 3;
     stay_guests := JNum 2%Q;
     is_peak_month := false;
     p_peak_months := "10,11,12";
     event_active := false;
     event_name := None;
     user_budget_min := JNull;
     user_budget_max := JNull;
     calculated_range_min := lo;
     calculated_range_max := hi |}.

Arguments payload_of (lo hi avg)%_Q_scope.

Definition payload : PriceInsightPayload := payload_of 4000 7500 5000.

(** Texts are written with an apostrophe where JSON has a double quote.
    [quoted] gives the text itself; [embedded] gives it as it stands
    inside a JSON string, a backslash before each quote. *)
Fixpoint embedded (s : string) : string :=
  match s with
  | EmptyString => EmptyString
  | String c r =>
      if Ascii.eqb c "'" then String (ascii_of_N 92) (String (ascii_of_N 34) (embedded r))
      else String c (embedded r)
  end.

(** The body of a provider response whose first candidate carries the
    given text. *)
Definition reply_with (text : string) : string :=
  quoted "{'candidates':[{'content':{'parts':[{'text':'" ++ embedded text
  ++ quoted "'}]}}]}".



(** A well-formed object: what stands between its braces, and the whole. *)
Definition object_inner : string :=
  "'recommended_min_price':6100,'recommended_max_price':11000,"
  ++ "'fairness_label':'expensive','confidence_score':0.8,"
  ++ "'explanation':'Peak season.'".

Definition object_src : string := "{" ++ object_inner ++ "}".

Definition object : json :=
  JObj [ ("recommended_min_price", JNum 6100%Q);
         ("recommended_max_price", JNum 11000%Q);
         ("fairness_label", JStr "expensive");
         ("confidence_score", JNum (4 # 5)%Q);
         ("explanation", JStr "Peak season.") ].

(** An object that meets the constraints on the prices, the label and
    the confidence score, with the empty text as its explanation. *)
Definition silent_src : string :=
  "{'recommended_min_price':6100,'recommended_max_price':11000,"
  ++ "'fairness_label':'expensive','confidence_score':0.8,"
  ++ "'explanation':''}".

Definition silent : json :=
  JObj [ ("recommended_min_price", JNum 6100%Q);
         ("recommended_max_price", JNum 11000%Q);
         ("fairness_label", JStr "expensive");
         ("confidence_score", JNum (4 # 5)%Q);
         ("explanation", JStr "") ].

(** The object inside a markdown fence. *)
Definition fenced_src : string := "```json " ++ object_src ++ " ```".

(** The object inside prose that has braces of its own. *)
Definition prose_src : string := "Result {as requested}: " ++ object_src ++ " Done.".

(** The body of such a response once parsed. *)
Definition data_with (text : string) : json :=
  JObj [("candidates",
         JArr [JObj [("content",
                      JObj [("parts", JArr [JObj [("text", JStr text)]])])]])].

(** A city with three peak months and two events that share some days. *)
Definition festival_city : CityDemand :=
  {| demand_city := "Mumbai";
     peak_months := Some "10, 11,12";
     events := Some "Diwali (2024-11-01–2024-11-05); Trade Fair (2024-11-03–2024-11-10)" |}.

(** A city whose second event has no name. *)
Definition unnamed_event_city : CityDemand :=
  {| demand_city := "Mumbai";
     peak_months := Some "10, 11,12";
     events := Some "Diwali (2024-10-29–2024-11-03); (2024-11-01–2024-11-05)" |}.

Definition hotel : Hotel :=
  {| id := 7;
     hotel_name := "Sea View";
     hotel_city := "Mumbai";
     rating := Some 4.5%Q;
     number_of_reviews := Some 120%Q;
     price_per_night := 5000%Q |}.

Definition stats : CityPriceStats :=
  {| stats_city := "Mumbai";
     min_price := 4000%Q;
     avg_price := 5000%Q;
     max_price := 7500%Q |}.

(** A stay from 2024-11-04 to 2024-11-08 in the sample hotel. *)
Definition stay : PriceRequest :=
  {| req_hotel_id := 7;
     req_city := "Mumbai";
     req_check_in := "2024-11-04";
     req_check_out := "2024-11-08";
     guests := JNum 2%Q;
     budget_min := None;
     budget_max := None |}.

Definition request : Request := {| method := "POST"; body := Body stay |}.

(** The surroundings of a request at time [t], with a provider that
    always replies [reply]. *)
Definition env_at (t : Z) (demand : CityDemand) (reply : FetchResult) : Env :=
  {| now := t;
     db_now := t + 500;
     error_now := t + 900;
     SUPABASE_URL := Some "https://project.supabase.co";
     SUPABASE_ANON_KEY := Some "anon";
     GEMINI_API_KEY := Some "key";
     gemini := fun _ => reply;
     hotels_india := [hotel];
     city_price_stats := [stats];
     city_demand := [demand];
     store_accepts := fun _ => true |}.

Definition empty_state : State := {| price_predictions := []; gemini_calls := 0 |}.

Definition always (r : FetchResult) : nat -> FetchResult := fun _ => r.

End Sample.

(** ** Further notions used by the properties of the code *)

Module Notions.

Import JsString Js Exn PredictPrice.
Open Scope string_scope.

(** A stored row answers a request made at time [t]: it has the four
    keys of the request and was created no more than 24 hours before. *)
Definition servable (r : PriceRequest) (t : Z) (p : PricePrediction) : Prop :=
  hotel_id p = Some (req_hotel_id r)
  /\ city p = req_city r
  /\ check_in p = req_check_in r
  /\ check_out p = req_check_out r
  /\ t - 86400000 <= created_at p.

(** Ten characters of the form dddd-dd-dd. *)
Definition date_shape (s : string) : bool :=
  match date10 s with
  | Some (_, EmptyString) => true
  | _ => false
  end.

(** A city record with another events text. *)
Definition with_events (cd : CityDemand) (text : string) : CityDemand :=
  {| demand_city := demand_city cd;
     peak_months := peak_months cd;
     events := Some text |}.

(** NaN, as an entry of the list of peak months. *)
Definition is_nan (m : option Z) : bool :=
  match m with
  | None => true
  | Some _ => false
  end.

(** The state after a sequence of requests, each in its surroundings. *)
Fixpoint run `{Runtime} `{Messages} (trace : list (Env * Request)) (st : State) : State :=
  match trace with
  | [] => st
  | (env, req) :: rest => run rest (snd (serve env req st))
  end.

(** A row as the handler stores it: a hotel, two whole prices, and a
    multiplier of at least one inside the stored recommendation. *)
Definition stored_well (p : PricePrediction) : Prop :=
  (exists h, hotel_id p = Some h)
  /\ (exists lo hi, calculated_min p = Some (inject_Z lo)
                    /\ calculated_max p = Some (inject_Z hi))
  /\ exists m, get (gemini_response p) "demand_multiplier" = Some (JNum m)
               /\ (1 <= m)%Q.

End Notions.

(** ** More sample data *)

Module MoreSamples.

Import JsString Js Exn PredictPrice.
Open Scope string_scope.

(** A row stored for the sample stay at time [t]. *)
Definition row_at (t : Z) : PricePrediction :=
  {| hotel_id := Some 7;
     city := "Mumbai";
     check_in := "2024-11-04";
     check_out := "2024-11-08";
     nights := Some 4;
     calculated_min := Some 6000%Q;
     calculated_max := Some 11250%Q;
     gemini_response := Sample.object;
     created_at := t |}.

(** A row for the same hotel and other dates. *)
Definition other_stay_at (t : Z) : PricePrediction :=
  {| hotel_id := Some 7;
     city := "Mumbai";
     check_in := "2024-12-24";
     check_out := "2024-12-26";
     nights := Some 2;
     calculated_min := Some 6000%Q;
     calculated_max := Some 11250%Q;
     gemini_response := Sample.object;
     created_at := t |}.

(** A table with a row two days old, a row one hour old and a row of
    another stay, seen from the time 1730700000000. *)
Definition table : State :=
  {| price_predictions :=
       [ row_at 1730527200000; other_stay_at 1730699000000; row_at 1730696400000 ];
     gemini_calls := 3 |}.

(** The surroundings of a request at time [t] with nothing configured
    for the provider and no hotel. *)
Definition bare_env (t : Z) : Env :=
  {| now := t;
     db_now := t + 500;
     error_now := t + 900;
     SUPABASE_URL := Some "https://project.supabase.co";
     SUPABASE_ANON_KEY := Some "anon";
     GEMINI_API_KEY := None;
     gemini := fun _ => Rejected;
     hotels_india := [];
     city_price_stats := [];
     city_demand := [];
     store_accepts := fun _ => true |}.

(** The sample surroundings without the API key. *)
Definition keyless_env (t : Z) : Env :=
  {| now := t;
     db_now := t + 500;
     error_now := t + 900;
     SUPABASE_URL := Some "https://project.supabase.co";
     SUPABASE_ANON_KEY := Some "anon";
     GEMINI_API_KEY := Some "";
     gemini := fun _ => Response 200 (Sample.reply_with Sample.object_src);
     hotels_india := [Sample.hotel];
     city_price_stats := [Sample.stats];
     city_demand := [Sample.festival_city];
     store_accepts := fun _ => true |}.

(** A city whose peak months are written as names. *)
Definition named_months_city : CityDemand :=
  {| demand_city := "Mumbai";
     peak_months := Some "Oct, Nov";
     events := None |}.

(** The sample surroundings with a store that refuses every insertion. *)
Definition refusing_env (t : Z) (reply : FetchResult) : Env :=
  {| now := t;
     db_now := t + 500;
     error_now := t + 900;
     SUPABASE_URL := Some "https://project.supabase.co";
     SUPABASE_ANON_KEY := Some "anon";
     GEMINI_API_KEY := Some "key";
     gemini := fun _ => reply;
     hotels_india := [Sample.hotel];
     city_price_stats := [Sample.stats];
     city_demand := [Sample.festival_city];
     store_accepts := fun _ => false |}.

(** A hotel whose price times 0.8 is not a double. *)
Definition odd_hotel : Hotel :=
  {| id := 7;
     hotel_name := "Sea View";
     hotel_city := "Mumbai";
     rating := Some 4.5%Q;
     number_of_reviews := Some 120%Q;
     price_per_night := 4999%Q |}.

(** Surroundings with that hotel and no row of price statistics. *)
Definition odd_env (t : Z) (reply : FetchResult) : Env :=
  {| now := t;
     db_now := t + 500;
     error_now := t + 900;
     SUPABASE_URL := Some "https://project.supabase.co";
     SUPABASE_ANON_KEY := Some "anon";
     GEMINI_API_KEY := Some "key";
     gemini := fun _ => reply;
     hotels_india := [odd_hotel];
     city_price_stats := [];
     city_demand := [Sample.festival_city];
     store_accepts := fun _ => true |}.

End MoreSamples.

(** ** The label of a demand score, [getDemandLabel] of [src/lib/demand.ts] *)

Module DemandView.

Import JsString Js.
Open Scope string_scope.

Record DemandLabel : Type := {
  label : string;
  color : string;
  bgColor : string
}.

Definition getDemandLabel `{Runtime} (score : number) : DemandLabel :=
  if Qle_bool (literal 0.7%Q) score then
    {| label := "Very High Demand";
       color := "text-red-700 dark:text-red-400";
       bgColor := "bg-red-100 dark:bg-red-950" |}
  else if Qle_bool (literal 0.5%Q) score then
    {| label := "High Demand";
       color := "text-orange-700 dark:text-orange-400";
       bgColor := "bg-orange-100 dark:bg-orange-950" |}
  else if Qle_bool (literal 0.3%Q) score then
    {| label := "Moderate Demand";
       color := "text-yellow-700 dark:text-yellow-400";
       bgColor := "bg-yellow-100 dark:bg-yellow-950" |}
  else
    {| label := "Low Demand";
       color := "text-green-700 dark:text-green-400";
       bgColor := "bg-green-100 dark:bg-green-950" |}.

End DemandView.

(** ** The client: the price panel, the booking form, the dashboard,
       the search page and the array helper of [lib/utils] *)

Module Client.

Import JsString Js Exn Utils.
Open Scope string_scope.

(** *** The search store *)

Inductive Segment : Type := budget | mid | luxury | all.

Record SearchFilters : Type := {
  city : string;
  checkIn : string;
  checkOut : string;
  guests : number;
  budgetMin : number;
  budgetMax : number;
  segment : Segment
}.

(** *** Toasts *)

Inductive Variant : Type := default | destructive.

Record Toast : Type := {
  title : string;
  description : string;
  variant : Variant
}.

(** [a || b] on strings. *)
Definition or_text (a b : string) : string := if String.eqb a "" then b else a.

(** *** The price panel *)

Definition DEBOUNCE_MS : Z := 2000.

Definition AI_BUSY_MESSAGE : string :=
  "AI_BUSY: Our AI service is currently busy. Please try again in 1-2 minutes.".

(** What [await error.context?.text()] gives: a text, [undefined] when
    the error has no context, or a rejection. *)
Inductive TextResult : Type :=
| Text (s : string)
| Undefined
| Rejects.

(** The [{ data, error }] of [supabase.functions.invoke]: data without an
    error, an error that is a [FunctionsHttpError] with the status and the
    text of its context, or another error. *)
Inductive FunctionsResponse : Type :=
| Data (data : json)
| HttpError (message : string) (status : option Z) (text : TextResult)
| OtherError (message : string).

(** The message of [new Error(v)]. *)
Definition error_text `{Runtime} (v : json) : string :=
  match v with
  | JStr s => s
  | _ => ToString v
  end.

(** [errorJson.code === 429]. *)
Definition is_429 (v : option json) : bool :=
  match v with
  | Some (JNum q) => Qeq_bool q 429
  | _ => false
  end.

(** The block [if (error) { ... }] for a [FunctionsHttpError]: the
    message and the flag it ends with. *)
Definition read_error `{Runtime} (message : string) (status : option Z)
    (text : TextResult) : json * bool :=
  let statusCode := match status with Some s => s | None => 500 end in
  match text with
  | Rejects => (JStr (or_text message "Failed to read response"), false)
  | _ =>
      let textContent := match text with Text s => s | _ => "" end in
      let unparsed :=
        (JStr (or_text textContent (or_text message "Unknown error")),
         Z.eqb statusCode 429) in
      match match text with Text s => JSON_parse s | _ => None end with
      | Some JNull => unparsed
      | Some errorJson =>
          (or_else (get errorJson "error") (JStr message),
           Z.eqb statusCode 429 || is_429 (get errorJson "code"))
      | None => unparsed
      end
  end.

(** What the [try] block of the panel throws for an error of the call. *)
Definition thrown `{Runtime} (message : string) (status : option Z)
    (text : TextResult) : exn :=
  let '(errorMessage, isRateLimit) := read_error message status text in
  if isRateLimit then Error AI_BUSY_MESSAGE else Error (error_text errorMessage).

(** The toast of the [catch] block. *)
Definition failure_toast (message : string) : Toast :=
  let title := "Prediction Failed" in
  let description :=
    or_text message "Failed to generate price insights. Please try again." in
  if startsWith message "AI_BUSY:"
  then {| title := "⏳ AI Service Busy";
          description := replace message "AI_BUSY: " "";
          variant := destructive |}
  else {| title := title; description := description; variant := destructive |}.

(** The toast after a successful call. *)
Definition success_toast (data : json) : Toast :=
  let cached := match get data "cached" with Some v => truthy v | None => false end in
  {| title := if cached then "Cached Insights Retrieved ⚡"
              else "Smart Insights Generated ✨";
     description := if cached
                    then "Using previously calculated insights (refreshes every 24 hours)."
                    else "Fresh price prediction completed successfully.";
     variant := default |}.

(** The state of the panel between two runs of its handler, the toasts
    shown so far and the bodies of the calls made so far. *)
Record Panel : Type := {
  prediction : json;
  lastRequestTime : Z;
  toasts : list Toast;
  invocations : list json
}.

Definition show (t : Toast) (st : Panel) : Panel :=
  {| prediction := prediction st;
     lastRequestTime := lastRequestTime st;
     toasts := toasts st ++ [t];
     invocations := invocations st |}.

(** The body of the call to the edge function. *)
Definition request_body (hotel : PredictPrice.Hotel) (filters : SearchFilters) : json :=
  JObj [ ("hotel_id", JNum (inject_Z (PredictPrice.id hotel)));
         ("city", JStr (PredictPrice.hotel_city hotel));
         ("check_in", JStr (checkIn filters));
         ("check_out", JStr (checkOut filters));
         ("guests", JNum (guests filters));
         ("budget_min", JNum (budgetMin filters));
         ("budget_max", JNum (budgetMax filters)) ].

(** [handleGetPrediction], run at time [now] with the given answer of
    the call. *)
Definition handleGetPrediction `{Runtime} `{Messages}
    (hotel : PredictPrice.Hotel) (filters : SearchFilters) (now : Z)
    (invoke : json -> FunctionsResponse) (st : Panel) : Panel :=
  if String.eqb (checkIn filters) "" || String.eqb (checkOut filters) "" then
    show {| title := "Missing dates";
            description := "Please select check-in and check-out dates from the search.";
            variant := destructive |} st
  else if Z.ltb (now - lastRequestTime st) DEBOUNCE_MS then
    show {| title := "Please wait";
            description := "Please wait a moment before requesting another prediction.";
            variant := destructive |} st
  else
    let body := request_body hotel filters in
    let called := {| prediction := prediction st;
                     lastRequestTime := now;
                     toasts := toasts st;
                     invocations := invocations st ++ [body] |} in
    match invoke body with
    | Data data =>
        let shown := {| prediction := data;
                        lastRequestTime := now;
                        toasts := toasts st;
                        invocations := invocations st ++ [body] |} in
        match data with
        | JNull => show (failure_toast (message (Fault (ReadOfNull "cached")))) shown
        | _ => show (success_toast data) shown
        end
    | HttpError m status text =>
        show (failure_toast (message (thrown m status text))) called
    | OtherError m =>
        show (failure_toast (message (Error (error_text (JStr m))))) called
    end.

(** *** The booking form *)

Inductive Status : Type := confirmed | cancelled | completed.

Definition Status_eqb (a b : Status) : bool :=
  match a, b with
  | confirmed, confirmed | cancelled, cancelled | completed, completed => true
  | _, _ => false
  end.

Record Booking : Type := {
  user_id : string;
  hotel_id : Z;
  check_in : string;
  check_out : string;
  booked_guests : number;
  final_price_per_night : number;
  total_price : option number;
  status : Status
}.

(** [filters.checkIn && filters.checkOut ? calculateNights(...) : 0];
    [None] is NaN. *)
Definition nights `{Runtime} (filters : SearchFilters) : option Z :=
  if negb (String.eqb (checkIn filters) "") && negb (String.eqb (checkOut filters) "")
  then calculateNights (checkIn filters) (checkOut filters)
  else Some 0.

Definition totalPrice `{Runtime} (hotel : PredictPrice.Hotel) (filters : SearchFilters)
  : option number :=
  option_map (fun n => (PredictPrice.price_per_night hotel * inject_Z n)%Q)
             (nights filters).

(** The [disabled] of the button of the form. *)
Definition booking_disabled `{Runtime} (loading : bool) (filters : SearchFilters) : bool :=
  loading || String.eqb (checkIn filters) "" || String.eqb (checkOut filters) ""
  || match nights filters with
     | Some n => Z.eqb n 0
     | None => false
     end.

Record BookingOutcome : Type := {
  booking_toasts : list Toast;
  navigated : option string;
  submitted : option Booking
}.

(** [handleBooking]: [insert] gives the message of the error of the
    insertion, if any. *)
Definition handleBooking `{Runtime} (user : option string) (hotel : PredictPrice.Hotel)
    (filters : SearchFilters) (insert : Booking -> option string) : BookingOutcome :=
  match user with
  | None =>
      {| booking_toasts := [ {| title := "Authentication required";
                                description := "Please sign in to make a booking.";
                                variant := default |} ];
         navigated := Some "/auth";
         submitted := None |}
  | Some user_id_ =>
      if String.eqb (checkIn filters) "" || String.eqb (checkOut filters) "" then
        {| booking_toasts := [ {| title := "Missing dates";
                                  description :=
                                    "Please select check-in and check-out dates.";
                                  variant := destructive |} ];
           navigated := None;
           submitted := None |}
      else
        let row := {| user_id := user_id_;
                      hotel_id := PredictPrice.id hotel;
                      check_in := checkIn filters;
                      check_out := checkOut filters;
                      booked_guests := guests filters;
                      final_price_per_night := PredictPrice.price_per_night hotel;
                      total_price := totalPrice hotel filters;
                      status := confirmed |} in
        match insert row with
        | Some error_message =>
            {| booking_toasts :=
                 [ {| title := "Booking Failed";
                      description :=
                        or_text error_message
                                "Failed to create booking. Please try again.";
                      variant := destructive |} ];
               navigated := None;
               submitted := Some row |}
        | None =>
            {| booking_toasts :=
                 [ {| title := "Booking Confirmed! 🎉";
                      description := "Your reservation at "
                                     ++ PredictPrice.hotel_name hotel
                                     ++ " has been confirmed.";
                      variant := default |} ];
               navigated := Some "/dashboard";
               submitted := Some row |}
        end
  end.

(** *** The dashboard *)

(** [new Date(a) < new Date(b)] on time values: false as soon as one is
    invalid. *)
Definition date_lt (a b : option Z) : bool :=
  match a, b with
  | Some x, Some y => Z.ltb x y
  | _, _ => false
  end.

(** The two predicates of the filters, [new Date()] being [now]. *)
Definition is_upcoming `{Runtime} (now : Z) (b : Booking) : bool :=
  PredictPrice.date_le (Some now) (Date_parse (check_in b))
  && Status_eqb (status b) confirmed.

Definition is_past `{Runtime} (now : Z) (b : Booking) : bool :=
  date_lt (Date_parse (check_out b)) (Some now)
  || negb (Status_eqb (status b) confirmed).

Definition upcomingBookings `{Runtime} (now : Z) (bookings : list Booking) : list Booking :=
  filter (is_upcoming now) bookings.

Definition pastBookings `{Runtime} (now : Z) (bookings : list Booking) : list Booking :=
  filter (is_past now) bookings.

(** *** The search page *)

(** The filters a query carries. *)
Inductive Condition : Type :=
| eq_city (c : string)
| gte_price (q : number)
| lte_price (q : number).

(** The query [handleSearch] builds, as the list of its filters. *)
Definition search_query (filters : SearchFilters) : list Condition :=
  ([eq_city (city filters)]
   ++ (if Qlt_bool 0 (budgetMin filters) then [gte_price (budgetMin filters)] else [])
   ++ (if Qlt_bool (budgetMax filters) 50000 then [lte_price (budgetMax filters)] else [])
   ++ match segment filters with
      | all => []
      | budget => [lte_price 3000%Q]
      | mid => [gte_price 3000%Q; lte_price 10000%Q]
      | luxury => [gte_price 10000%Q]
      end)%list.

(** A row passes a filter. *)
Definition passes (h : PredictPrice.Hotel) (c : Condition) : bool :=
  match c with
  | eq_city name => String.eqb (PredictPrice.hotel_city h) name
  | gte_price q => Qle_bool q (PredictPrice.price_per_night h)
  | lte_price q => Qle_bool (PredictPrice.price_per_night h) q
  end.

(** [handleSearch]: the results of the store after the search, for a
    table of hotels; [failing] says that the query ends in an error.  The
    order of the rows, which the data store decides, is that of the
    table. *)
Definition handleSearch (filters : SearchFilters) (failing : bool)
    (table results : list PredictPrice.Hotel) : list PredictPrice.Hotel :=
  if String.eqb (city filters) "" then results
  else if failing then []
  else filter (fun h => forallb (passes h) (search_query filters)) table.

(** *** [shuffle] of [lib/utils] *)

Section Shuffle.

Context {T : Type}.

Fixpoint update (i : nat) (x : T) (l : list T) : list T :=
  match l, i with
  | [], _ => []
  | _ :: r, O => x :: r
  | y :: r, S i' => y :: update i' x r
  end.

(** [[a[i], a[j]] = [a[j], a[i]]]; [None] when an index is outside the
    array. *)
Definition swap (i j : nat) (l : list T) : option (list T) :=
  match nth_error l i, nth_error l j with
  | Some a, Some b => Some (update j a (update i b l))
  | _, _ => None
  end.

(** [Math.floor(r * (i + 1))] as an index. *)
Definition pick (r : number) (i : nat) : option nat :=
  let j := Qfloor (r * inject_Z (Z.of_nat (i + 1)))%Q in
  if Z.leb 0 j then Some (Z.to_nat j) else None.

(** The loop from index [i] down to 1; [random k] is the result of the
    call number [k] of [Math.random]. *)
Fixpoint shuffle_from (i : nat) (random : nat -> number) (k : nat) (shuffled : list T)
  : option (list T) :=
  match i with
  | O => Some shuffled
  | S i' =>
      match pick (random k) i with
      | Some j =>
          match swap i j shuffled with
          | Some next => shuffle_from i' random (S k) next
          | None => None
          end
      | None => None
      end
  end.

Definition shuffle (random : nat -> number) (array : list T) : option (list T) :=
  shuffle_from (List.length array - 1) random 0 array.

End Shuffle.

End Client.

(** ** Sample data of the client *)

Module ClientSamples.

Import JsString Js Exn PredictPrice Client.
Open Scope string_scope.

(** The filters of the sample stay. *)
Definition filters : SearchFilters :=
  {| city := "Mumbai";
     checkIn := "2024-11-04";
     checkOut := "2024-11-08";
     guests := 2%Q;
     budgetMin := 0%Q;
     budgetMax := 50000%Q;
     segment := all |}.

(** The same stay with its two dates exchanged. *)
Definition reversed_filters : SearchFilters :=
  {| city := "Mumbai";
     checkIn := "2024-11-08";
     checkOut := "2024-11-04";
     guests := 2%Q;
     budgetMin := 0%Q;
     budgetMax := 50000%Q;
     segment := all |}.

(** The panel before its first call. *)
Definition new_panel : Panel :=
  {| prediction := JNull; lastRequestTime := 0; toasts := []; invocations := [] |}.

(** A call that gets an error response with the given status and text. *)
Definition refused (status : Z) (text : string) : json -> FunctionsResponse :=
  fun _ => HttpError "Edge Function returned a non-2xx status code" (Some status)
                     (Text text).

(** The text of the error response about the missing key. *)
Definition keyless_text : string :=
  Reference.quoted
    ("{'error':'Gemini API key not configured','code':500,"
     ++ "'timestamp':'2024-11-04T06:00:00.900Z'}").

(** A source of random numbers: 0.75, 0.5, 0.25, 0, 0, ... *)
Definition random (k : nat) : number :=
  match k with
  | 0%nat => (3 # 4)%Q
  | 1%nat => (1 # 2)%Q
  | 2%nat => (1 # 4)%Q
  | _ => 0%Q
  end.

End ClientSamples.

(** * Theorems *)

(** ** The reference rounding is the rounding to the nearest double *)

Module Doubles.

Import Js Reference.
Open Scope Q_scope.

Lemma two_nonzero : ~ 2 == 0.
Proof. discriminate. Qed.

Lemma pow2_pos (e : Z) : 0 < 2 ^ e.
Proof. apply Qpower_0_lt. reflexivity. Qed.

Lemma pow2_plus (a b : Z) : 2 ^ (a + b) == 2 ^ a * 2 ^ b.
Proof. apply Qpower_plus, two_nonzero. Qed.

Lemma pow2_succ (a : Z) : 2 ^ (a + 1) == 2 * 2 ^ a.
Proof. rewrite pow2_plus. change (2 ^ 1) with 2. ring. Qed.

Lemma pow2_le (a b : Z) : (a <= b)%Z -> 2 ^ a <= 2 ^ b.
Proof. intro H. apply Qpower_le_compat_l; [exact H|discriminate]. Qed.

Lemma pow2_lt_inv (a b : Z) : 2 ^ a < 2 ^ b -> (a < b)%Z.
Proof. intro H. apply (Qpower_lt_compat_l_inv 2); [exact H|reflexivity]. Qed.

Lemma pow2_Z (k : Z) : (0 <= k)%Z -> inject_Z (2 ^ k) == 2 ^ k.
Proof. intro H. rewrite (Zpower_Qpower 2 k H). reflexivity. Qed.

(** The binade of a positive number is unique. *)
Lemma binade_unique (x : Q) (a b : Z) :
  2 ^ a <= x -> x < 2 ^ (a + 1) -> 2 ^ b <= x -> x < 2 ^ (b + 1) -> a = b.
Proof.
  intros Ha1 Ha2 Hb1 Hb2.
  assert (H1 : (a < b + 1)%Z) by (apply pow2_lt_inv; lra).
  assert (H2 : (b < a + 1)%Z) by (apply pow2_lt_inv; lra).
  lia.
Qed.

Lemma log2_bracket (n : Z) :
  (0 < n)%Z -> 2 ^ Z.log2 n <= inject_Z n /\ inject_Z n < 2 * 2 ^ Z.log2 n.
Proof.
  intro Hn. destruct (Z.log2_spec n Hn) as [Hlo Hhi].
  pose proof (Z.log2_nonneg n) as Hnn.
  rewrite <- pow2_succ, <- !pow2_Z by lia.
  split; [now rewrite <- Zle_Qle|now rewrite <- Zlt_Qlt].
Qed.

Lemma binade_spec (x : Q) :
  0 < x -> 2 ^ binade x <= x /\ x < 2 ^ (binade x + 1).
Proof.
  intro Hx. unfold binade.
  set (a := Z.log2 (Qnum x)). set (b := Z.log2 (Z.pos (Qden x))).
  assert (Hn : (0 < Qnum x)%Z).
  { destruct x as [n d]. unfold Qlt in Hx. simpl in *. lia. }
  destruct (log2_bracket (Qnum x) Hn) as [Hn1 Hn2]. fold a in Hn1, Hn2.
  destruct (log2_bracket (Z.pos (Qden x)) eq_refl) as [Hd1 Hd2]. fold b in Hd1, Hd2.
  assert (Hxd : x * inject_Z (Z.pos (Qden x)) == inject_Z (Qnum x)).
  { destruct x as [n d]. unfold Qeq, Qmult, inject_Z. simpl. lia. }
  pose proof (pow2_pos a) as Ha. pose proof (pow2_pos b) as Hb.
  pose proof (pow2_pos (a - b)) as Hab.
  assert (Heq : 2 ^ (a - b) * 2 ^ b == 2 ^ a).
  { rewrite <- pow2_plus. replace (a - b + b)%Z with a by lia. reflexivity. }
  set (N := inject_Z (Qnum x)) in *. set (D := inject_Z (Z.pos (Qden x))) in *.
  set (A := 2 ^ a) in *. set (B := 2 ^ b) in *. set (E := 2 ^ (a - b)) in *.
  assert (Hup : x < 2 * E).
  { destruct (Qlt_le_dec x (2 * E)) as [H|H]; [exact H|exfalso].
    assert (2 * E * B <= x * D) by nra. nra. }
  assert (Hdown : E < 2 * x).
  { destruct (Qlt_le_dec E (2 * x)) as [H|H]; [exact H|exfalso].
    assert (2 * x * D <= E * (2 * B)) by nra. nra. }
  destruct (Qle_bool E x) eqn:Hle.
  - apply Qle_bool_iff in Hle. split; [exact Hle|].
    rewrite pow2_succ. exact Hup.
  - assert (Hlt : x < E).
    { apply Qnot_le_lt. intro H. apply Qle_bool_iff in H. congruence. }
    assert (Hhalf : 2 * 2 ^ (a - b - 1) == E).
    { rewrite <- pow2_succ. replace (a - b - 1 + 1)%Z with (a - b)%Z by lia.
      reflexivity. }
    split.
    + lra.
    + replace (a - b - 1 + 1)%Z with (a - b)%Z by lia. exact Hlt.
Qed.

Lemma floor_bracket (q : Q) :
  0 <= q - inject_Z (Qfloor q) /\ q - inject_Z (Qfloor q) < 1.
Proof.
  pose proof (Qfloor_le q) as Hlo. pose proof (Qlt_floor q) as Hhi.
  rewrite inject_Z_plus in Hhi. change (inject_Z 1) with 1 in Hhi. lra.
Qed.

Lemma round_half_even_comp (x y : Q) :
  x == y -> round_half_even x = round_half_even y.
Proof.
  intro Hxy. unfold round_half_even. rewrite (Qfloor_comp x y Hxy).
  assert (Hc : (x - inject_Z (Qfloor y) ?= 1 # 2) = (y - inject_Z (Qfloor y) ?= 1 # 2)).
  { apply Qcompare_comp; [rewrite Hxy; reflexivity|reflexivity]. }
  rewrite Hc. reflexivity.
Qed.

Lemma round_half_even_Z (z : Z) : round_half_even (inject_Z z) = z.
Proof.
  unfold round_half_even. rewrite Qfloor_Z.
  assert (Hc : (inject_Z z - inject_Z z ?= 1 # 2) = Lt).
  { apply (proj1 (Qlt_alt _ _)). lra. }
  rewrite Hc. reflexivity.
Qed.

(** The rounded value is the floor or the floor plus one, and it is the
    floor only up to the half. *)
Lemma round_half_even_cases (q : Q) :
  (round_half_even q = Qfloor q /\ q - inject_Z (Qfloor q) <= 1 # 2)
  \/ (round_half_even q = (Qfloor q + 1)%Z /\ 1 # 2 <= q - inject_Z (Qfloor q)).
Proof.
  unfold round_half_even.
  destruct (q - inject_Z (Qfloor q) ?= 1 # 2) eqn:Hc.
  - apply (proj2 (Qeq_alt _ _)) in Hc. destruct (Z.even (Qfloor q)); [left|right]; split;
      try reflexivity; lra.
  - apply (proj2 (Qlt_alt _ _)) in Hc. left. split; [reflexivity|lra].
  - apply (proj2 (Qgt_alt _ _)) in Hc. right. split; [reflexivity|lra].
Qed.

Lemma round_half_even_monotone (x y : Q) :
  x <= y -> (round_half_even x <= round_half_even y)%Z.
Proof.
  intro Hxy.
  pose proof (Qfloor_resp_le x y Hxy) as Hfloor.
  destruct (Z.eq_dec (Qfloor x) (Qfloor y)) as [Heq|Hne].
  - unfold round_half_even. rewrite Heq.
    destruct (x - inject_Z (Qfloor y) ?= 1 # 2) eqn:Hx;
      destruct (y - inject_Z (Qfloor y) ?= 1 # 2) eqn:Hy;
      try apply (proj2 (Qeq_alt _ _)) in Hx; try apply (proj2 (Qlt_alt _ _)) in Hx;
      try apply (proj2 (Qgt_alt _ _)) in Hx;
      try apply (proj2 (Qeq_alt _ _)) in Hy; try apply (proj2 (Qlt_alt _ _)) in Hy;
      try apply (proj2 (Qgt_alt _ _)) in Hy;
      try (destruct (Z.even (Qfloor y))); try lia; exfalso; lra.
  - destruct (round_half_even_cases x) as [[-> _] | [-> _]];
      destruct (round_half_even_cases y) as [[-> _] | [-> _]]; lia.
Qed.

(** The scaled value of a positive number lies in [2^52, 2^53). *)
Lemma scaled_range (x : Q) :
  0 < x ->
  inject_Z (2 ^ 52) <= x / 2 ^ (binade x - 52)
  /\ x / 2 ^ (binade x - 52) < inject_Z (2 ^ 53).
Proof.
  intro Hx. destruct (binade_spec x Hx) as [Hlo Hhi].
  pose proof (pow2_pos (binade x - 52)) as Hu.
  set (u := 2 ^ (binade x - 52)) in *.
  assert (He : 2 ^ binade x == inject_Z (2 ^ 52) * u).
  { unfold u. rewrite pow2_Z by lia. rewrite <- pow2_plus.
    replace (52 + (binade x - 52))%Z with (binade x) by lia. reflexivity. }
  assert (He1 : 2 ^ (binade x + 1) == inject_Z (2 ^ 53) * u).
  { unfold u. rewrite pow2_Z by lia. rewrite <- pow2_plus.
    replace (53 + (binade x - 52))%Z with (binade x + 1)%Z by lia. reflexivity. }
  assert (Ht : x / u * u == x) by (field; lra).
  set (t := x / u) in *.
  rewrite He in Hlo. rewrite He1 in Hhi.
  set (lo := inject_Z (2 ^ 52)) in *. set (hi := inject_Z (2 ^ 53)) in *.
  split.
  - destruct (Qlt_le_dec t lo) as [H|H]; [exfalso|exact H]. nra.
  - destruct (Qlt_le_dec t hi) as [H|H]; [exact H|exfalso]. nra.
Qed.

Lemma mantissa_range (x : Q) :
  0 < x ->
  (2 ^ 52 <= round_half_even (x / 2 ^ (binade x - 52)) <= 2 ^ 53)%Z.
Proof.
  intro Hx. destruct (scaled_range x Hx) as [Hlo Hhi].
  split.
  - rewrite <- (round_half_even_Z (2 ^ 52)). now apply round_half_even_monotone.
  - rewrite <- (round_half_even_Z (2 ^ 53)). apply round_half_even_monotone. lra.
Qed.

Lemma nearest53_range (x : Q) :
  0 < x -> 2 ^ binade x <= nearest53 x /\ nearest53 x <= 2 ^ (binade x + 1).
Proof.
  intro Hx. destruct (mantissa_range x Hx) as [Hlo Hhi]. unfold nearest53.
  pose proof (pow2_pos (binade x - 52)) as Hu.
  set (m := round_half_even _) in *. set (u := 2 ^ (binade x - 52)) in *.
  assert (He : 2 ^ binade x == inject_Z (2 ^ 52) * u).
  { unfold u. rewrite pow2_Z by lia. rewrite <- pow2_plus.
    replace (52 + (binade x - 52))%Z with (binade x) by lia. reflexivity. }
  assert (He1 : 2 ^ (binade x + 1) == inject_Z (2 ^ 53) * u).
  { unfold u. rewrite pow2_Z by lia. rewrite <- pow2_plus.
    replace (53 + (binade x - 52))%Z with (binade x + 1)%Z by lia. reflexivity. }
  rewrite He, He1. rewrite Zle_Qle in Hlo, Hhi.
  split; apply Qmult_le_compat_r; lra.
Qed.

Lemma nearest53_pos (x : Q) : 0 < x -> 0 < nearest53 x.
Proof.
  intro Hx. destruct (nearest53_range x Hx) as [Hlo _].
  pose proof (pow2_pos (binade x)). lra.
Qed.

Lemma binade_comp (x y : Q) : 0 < x -> x == y -> binade x = binade y.
Proof.
  intros Hx Hxy. assert (Hy : 0 < y) by (rewrite <- Hxy; exact Hx).
  destruct (binade_spec x Hx) as [H1 H2]. destruct (binade_spec y Hy) as [H3 H4].
  apply (binade_unique y); try assumption; lra.
Qed.

Lemma nearest53_comp (x y : Q) : 0 < x -> x == y -> nearest53 x == nearest53 y.
Proof.
  intros Hx Hxy. unfold nearest53. rewrite (binade_comp x y Hx Hxy).
  rewrite (round_half_even_comp (x / 2 ^ (binade y - 52)) (y / 2 ^ (binade y - 52))).
  - reflexivity.
  - rewrite Hxy. reflexivity.
Qed.

Lemma binade_monotone (x y : Q) : 0 < x -> x <= y -> (binade x <= binade y)%Z.
Proof.
  intros Hx Hxy. assert (Hy : 0 < y) by lra.
  destruct (binade_spec x Hx) as [H1 _]. destruct (binade_spec y Hy) as [_ H4].
  assert (H : (binade x < binade y + 1)%Z) by (apply pow2_lt_inv; lra).
  lia.
Qed.

Lemma nearest53_monotone (x y : Q) : 0 < x -> x <= y -> nearest53 x <= nearest53 y.
Proof.
  intros Hx Hxy. assert (Hy : 0 < y) by lra.
  pose proof (binade_monotone x y Hx Hxy) as He.
  destruct (Z.eq_dec (binade x) (binade y)) as [Heq|Hne].
  - unfold nearest53. rewrite Heq.
    pose proof (pow2_pos (binade y - 52)) as Hu.
    apply Qmult_le_compat_r; [|lra].
    rewrite <- Zle_Qle. apply round_half_even_monotone.
    apply Qmult_le_compat_r; [exact Hxy|].
    apply Qlt_le_weak, Qinv_lt_0_compat, Hu.
  - destruct (nearest53_range x Hx) as [_ Hup].
    destruct (nearest53_range y Hy) as [Hlow _].
    assert (Hp : 2 ^ (binade x + 1) <= 2 ^ binade y) by (apply pow2_le; lia).
    lra.
Qed.

Lemma nearest_double_eq (x : Q) :
  nearest_double x == match Qcompare x 0 with
                 | Eq => 0
                 | Gt => nearest53 x
                 | Lt => - nearest53 (- x)
                 end.
Proof. unfold nearest_double. apply Qred_correct. Qed.

Lemma nearest_double_pos (x : Q) : 0 < x -> nearest_double x == nearest53 x.
Proof.
  intro Hx. rewrite nearest_double_eq.
  assert (Hc : (x ?= 0) = Gt) by (apply (proj1 (Qgt_alt _ _)); exact Hx).
  rewrite Hc. reflexivity.
Qed.

Lemma nearest_double_neg (x : Q) : x < 0 -> nearest_double x == - nearest53 (- x).
Proof.
  intro Hx. rewrite nearest_double_eq.
  assert (Hc : (x ?= 0) = Lt) by (apply (proj1 (Qlt_alt _ _)); exact Hx).
  rewrite Hc. reflexivity.
Qed.

Lemma nearest_double_zero (x : Q) : x == 0 -> nearest_double x == 0.
Proof.
  intro Hx. rewrite nearest_double_eq.
  assert (Hc : (x ?= 0) = Eq) by (apply (proj1 (Qeq_alt _ _)); exact Hx).
  rewrite Hc. reflexivity.
Qed.

Lemma nearest_double_comp (x y : Q) : x == y -> nearest_double x == nearest_double y.
Proof.
  intro Hxy.
  destruct (Q_dec x 0) as [[Hneg|Hpos]|Hzero].
  - rewrite (nearest_double_neg x Hneg), (nearest_double_neg y) by (rewrite <- Hxy; exact Hneg).
    apply Qopp_comp. apply nearest53_comp; [lra|rewrite Hxy; reflexivity].
  - rewrite (nearest_double_pos x Hpos), (nearest_double_pos y) by (rewrite <- Hxy; exact Hpos).
    now apply nearest53_comp.
  - rewrite (nearest_double_zero x Hzero), (nearest_double_zero y) by (rewrite <- Hxy; exact Hzero).
    reflexivity.
Qed.

Lemma nearest_double_monotone (x y : Q) : x <= y -> nearest_double x <= nearest_double y.
Proof.
  intro Hxy.
  destruct (Q_dec x 0) as [[Hx|Hx]|Hx]; destruct (Q_dec y 0) as [[Hy|Hy]|Hy];
    try (exfalso; lra).
  - rewrite (nearest_double_neg x Hx), (nearest_double_neg y Hy).
    apply Qopp_le_compat. apply nearest53_monotone; lra.
  - rewrite (nearest_double_neg x Hx), (nearest_double_pos y Hy).
    pose proof (nearest53_pos (- x)). pose proof (nearest53_pos y Hy). lra.
  - rewrite (nearest_double_neg x Hx), (nearest_double_zero y Hy).
    pose proof (nearest53_pos (- x)). lra.
  - rewrite (nearest_double_pos x Hx), (nearest_double_pos y Hy).
    now apply nearest53_monotone.
  - rewrite (nearest_double_zero x Hx), (nearest_double_pos y Hy).
    pose proof (nearest53_pos y Hy). lra.
  - rewrite (nearest_double_zero x Hx), (nearest_double_zero y Hy). lra.
Qed.

(** A number with a mantissa of at most 53 bits is a double. *)
Lemma nearest53_dyadic (m e : Z) :
  (0 < m < 2 ^ 53)%Z -> nearest53 (inject_Z m * 2 ^ e) == inject_Z m * 2 ^ e.
Proof.
  intros [Hm0 Hm1].
  destruct (log2_bracket m Hm0) as [Hlo Hhi].
  set (k := Z.log2 m) in *.
  assert (Hk0 : (0 <= k)%Z) by apply Z.log2_nonneg.
  assert (Hk : (k < 53)%Z).
  { apply Z.log2_lt_pow2; [exact Hm0|exact Hm1]. }
  pose proof (pow2_pos e) as He. pose proof (pow2_pos k) as Hpk.
  set (x := inject_Z m * 2 ^ e).
  assert (Hx : 0 < x).
  { unfold x. apply Qmult_lt_0_compat; [|exact He].
    change 0 with (inject_Z 0). now rewrite <- Zlt_Qlt. }
  assert (Hb : binade x = (k + e)%Z).
  { destruct (binade_spec x Hx) as [H1 H2].
    apply (binade_unique x); try assumption.
    - rewrite pow2_plus. unfold x. apply Qmult_le_compat_r; lra.
    - rewrite pow2_succ, pow2_plus. unfold x.
      setoid_replace (2 * (2 ^ k * 2 ^ e)) with ((2 * 2 ^ k) * 2 ^ e) by ring.
      apply Qmult_lt_compat_r; lra. }
  unfold nearest53. rewrite Hb.
  assert (Hscaled : x / 2 ^ (k + e - 52) == inject_Z (m * 2 ^ (52 - k))).
  { rewrite inject_Z_mult, pow2_Z by lia. unfold x.
    replace (k + e - 52)%Z with (e + - (52 - k))%Z by lia.
    rewrite pow2_plus, Qpower_opp.
    pose proof (pow2_pos (52 - k)). field. split; lra. }
  rewrite (round_half_even_comp _ _ Hscaled), round_half_even_Z.
  rewrite <- Hscaled. field.
  pose proof (pow2_pos (k + e - 52)). lra.
Qed.

Lemma nearest_double_dyadic (m e : Z) :
  (Z.abs m < 2 ^ 53)%Z -> nearest_double (inject_Z m * 2 ^ e) == inject_Z m * 2 ^ e.
Proof.
  intro Hm. pose proof (pow2_pos e) as He.
  destruct (Z.lt_trichotomy m 0) as [Hneg | [-> | Hpos]].
  - assert (Hx : inject_Z m * 2 ^ e < 0).
    { assert (inject_Z m < 0) by (change 0 with (inject_Z 0); now rewrite <- Zlt_Qlt).
      nra. }
    rewrite (nearest_double_neg _ Hx).
    assert (Hopp : - (inject_Z m * 2 ^ e) == inject_Z (- m) * 2 ^ e).
    { rewrite inject_Z_opp. ring. }
    assert (Hpos : 0 < - (inject_Z m * 2 ^ e)) by lra.
    rewrite (nearest53_comp _ _ Hpos Hopp), nearest53_dyadic by lia.
    rewrite inject_Z_opp. ring.
  - assert (Hz : inject_Z 0 * 2 ^ e == 0) by (change (inject_Z 0) with 0; ring).
    rewrite (nearest_double_zero _ Hz), Hz. reflexivity.
  - assert (Hx : 0 < inject_Z m * 2 ^ e).
    { assert (0 < inject_Z m) by (change 0 with (inject_Z 0); now rewrite <- Zlt_Qlt).
      nra. }
    rewrite (nearest_double_pos _ Hx). apply nearest53_dyadic. lia.
Qed.

Lemma nearest53_fixed (x : Q) : 0 < x -> nearest53 (nearest53 x) == nearest53 x.
Proof.
  intro Hx. destruct (mantissa_range x Hx) as [Hlo Hhi].
  pose proof (nearest53_pos x Hx) as Hpos.
  unfold nearest53 at 2 3. unfold nearest53 in Hpos.
  set (m := round_half_even _) in *. set (e := (binade x - 52)%Z) in *.
  destruct (Z.eq_dec m (2 ^ 53)) as [Heq|Hne].
  - assert (Hval : inject_Z m * 2 ^ e == inject_Z (2 ^ 52) * 2 ^ (e + 1)).
    { rewrite Heq, pow2_succ. change (inject_Z (2 ^ 53)) with (2 * inject_Z (2 ^ 52)).
      ring. }
    rewrite (nearest53_comp _ _ Hpos Hval), nearest53_dyadic by lia.
    symmetry. exact Hval.
  - apply nearest53_dyadic. lia.
Qed.

Lemma nearest_double_idempotent (x : Q) : nearest_double (nearest_double x) == nearest_double x.
Proof.
  destruct (Q_dec x 0) as [[Hx|Hx]|Hx].
  - pose proof (nearest53_pos (- x) ltac:(lra)) as Hpos.
    rewrite (nearest_double_comp _ _ (nearest_double_neg x Hx)).
    rewrite (nearest_double_neg x Hx), nearest_double_neg by lra.
    apply Qopp_comp.
    rewrite (nearest53_comp (- - nearest53 (- x)) (nearest53 (- x))) by (lra || ring).
    apply nearest53_fixed. lra.
  - pose proof (nearest53_pos x Hx) as Hpos.
    rewrite (nearest_double_comp _ _ (nearest_double_pos x Hx)).
    rewrite (nearest_double_pos x Hx), nearest_double_pos by exact Hpos.
    now apply nearest53_fixed.
  - rewrite (nearest_double_comp _ _ (nearest_double_zero x Hx)).
    rewrite (nearest_double_zero x Hx). now apply nearest_double_zero.
Qed.

(** The reference runtime rounds as the laws say. *)
Lemma reference_doubles : @DoubleLaws utc_runtime.
Proof.
  constructor.
  - exact nearest_double_comp.
  - exact nearest_double_monotone.
  - exact nearest_double_idempotent.
  - exact nearest_double_dyadic.
Qed.

Section Lawful.

Context `{Runtime}.
Hypothesis laws : DoubleLaws.

(** A number of at most 53 bits times a power of two is its own double. *)
Lemma double_exact (c : Q) (m e : Z) :
  (Z.abs m < 2 ^ 53)%Z -> c == inject_Z m * 2 ^ e -> to_double c == c.
Proof.
  intros Hm Hc. rewrite (double_comp laws c _ Hc), (double_dyadic laws m e Hm).
  symmetry. exact Hc.
Qed.

Lemma double_zero : to_double 0 == 0.
Proof. apply (double_exact 0 0 0); [reflexivity|reflexivity]. Qed.

Lemma double_one : to_double 1 == 1.
Proof. apply (double_exact 1 1 0); [reflexivity|reflexivity]. Qed.

Lemma double_half : to_double 0.5 == 0.5.
Proof. apply (double_exact 0.5 1 (-1)); [reflexivity|reflexivity]. Qed.

Lemma double_three_halves : to_double 1.5 == 1.5.
Proof. apply (double_exact 1.5 3 (-1)); [reflexivity|reflexivity]. Qed.

(** A double stays where it is between two bounds that are doubles. *)
Lemma double_between (lo hi x : Q) :
  to_double lo == lo -> to_double hi == hi -> lo <= x -> x <= hi ->
  lo <= to_double x /\ to_double x <= hi.
Proof.
  intros Hlo Hhi H1 H2.
  pose proof (double_monotone laws lo x H1) as M1.
  pose proof (double_monotone laws x hi H2) as M2.
  lra.
Qed.

(** The sum and the product of two numbers that are not negative are not
    negative. *)
Lemma plus_nonneg (x y : Q) : 0 <= x -> 0 <= y -> 0 <= plus x y.
Proof.
  intros Hx Hy. unfold plus.
  pose proof (double_monotone laws 0 (x + y) ltac:(lra)) as M.
  pose proof double_zero. lra.
Qed.

(** Adding a number that is not negative to a double does not go below
    it. *)
Lemma plus_grows (x y : Q) : to_double x == x -> 0 <= y -> x <= plus x y.
Proof.
  intros Hx Hy. unfold plus.
  pose proof (double_monotone laws x (x + y) ltac:(lra)) as M. lra.
Qed.

Lemma plus_is_double (x y : Q) : to_double (plus x y) == plus x y.
Proof. apply (double_idempotent laws). Qed.

Lemma literal_is_double (q : Q) : to_double (literal q) == literal q.
Proof. apply (double_idempotent laws). Qed.

(** The product of a double that is not negative with a literal of at
    most one does not go above it, and with a literal of at least one does
    not go below it. *)
Lemma times_shrinks (x c : Q) :
  to_double x == x -> 0 <= x -> c <= 1 -> times x (literal c) <= x.
Proof.
  intros Hx Hpos Hc. unfold times, literal.
  pose proof (double_monotone laws c 1 Hc) as Mc. pose proof double_one as One.
  assert (Hprod : x * to_double c <= x) by nra.
  pose proof (double_monotone laws _ _ Hprod) as M. lra.
Qed.

Lemma times_stretches (x c : Q) :
  to_double x == x -> 0 <= x -> 1 <= c -> x <= times x (literal c).
Proof.
  intros Hx Hpos Hc. unfold times, literal.
  pose proof (double_monotone laws 1 c Hc) as Mc. pose proof double_one as One.
  assert (Hprod : x <= x * to_double c) by nra.
  pose proof (double_monotone laws _ _ Hprod) as M. lra.
Qed.

End Lawful.

End Doubles.


Module PriceRange.

Import Js PredictPrice.
Open Scope Q_scope.

Lemma Math_round_monotone (x y : Q) : x <= y -> (Math_round x <= Math_round y)%Z.
Proof.
  intro Hxy. unfold Math_round. apply Qfloor_resp_le. lra.
Qed.

Lemma Math_round_integer (z : Z) : Math_round (inject_Z z) = z.
Proof.
  unfold Math_round.
  assert (Hlo : (z <= Qfloor (inject_Z z + (1 # 2)))%Z).
  { rewrite <- (Qfloor_Z z) at 1. apply Qfloor_resp_le. lra. }
  assert (Hhi : (Qfloor (inject_Z z + (1 # 2)) < z + 1)%Z).
  { rewrite Zlt_Qlt. eapply Qle_lt_trans; [apply Qfloor_le|].
    rewrite inject_Z_plus. change (inject_Z 1) with 1. lra. }
  lia.
Qed.

Lemma adjusted_monotone (m a b : Q) :
  0 <= m -> a <= b -> (adjusted a m <= adjusted b m)%Z.
Proof.
  intros Hm Hab. unfold adjusted. apply Math_round_monotone. nra.
Qed.

Lemma demand_multiplier_bounds (peak active : bool) :
  1 <= demand_multiplier peak active /\ demand_multiplier peak active <= 1.5.
Proof.
  destruct peak, active; unfold demand_multiplier; split; lra.
Qed.

(** C9. With a multiplier of at least 1 and a base range in which
    min <= avg <= max, the three adjusted prices, each rounded on its own
    to the nearest whole unit, are still in the order min <= avg <= max. *)
Theorem adjusted_range_ordered (m base_min base_avg base_max : Q) :
  1 <= m -> base_min <= base_avg -> base_avg <= base_max ->
  (adjusted base_min m <= adjusted base_avg m)%Z
  /\ (adjusted base_avg m <= adjusted base_max m)%Z.
Proof.
  intros Hm H1 H2. split; apply adjusted_monotone; lra.
Qed.

Lemma adjusted_range_ordered_witness :
  (1 <= 1.5 /\ 4000 <= 5000 /\ 5000 <= 7500)
  /\ (adjusted 4000 1.5 <= adjusted 5000 1.5)%Z
  /\ (adjusted 5000 1.5 <= adjusted 7500 1.5)%Z.
Proof.
  assert (Hm : 1 <= 1.5) by lra.
  assert (H1 : 4000 <= 5000) by lra.
  assert (H2 : 5000 <= 7500) by lra.
  split; [auto|].
  exact (adjusted_range_ordered 1.5 4000 5000 7500 Hm H1 H2).
Defined.

End PriceRange.

Module Recommendation.

Import JsString Js Exn PredictPrice Spec.
Open Scope string_scope.

Lemma Qlt_bool_iff (x y : Q) : Qlt_bool x y = true <-> (x < y)%Q.
Proof.
  unfold Qlt_bool. rewrite negb_true_iff.
  split.
  - intro Hb. apply Qnot_le_lt. intro Hle.
    apply Qle_bool_iff in Hle. congruence.
  - intro Hlt. destruct (Qle_bool y x) eqn:Hb; [|reflexivity].
    apply Qle_bool_iff in Hb. exfalso. apply (Qlt_not_le _ _ Hlt Hb).
Qed.

Lemma Qlt_bool_false (x y : Q) : Qlt_bool x y = false <-> (y <= x)%Q.
Proof.
  unfold Qlt_bool. rewrite negb_false_iff. apply Qle_bool_iff.
Qed.

(** The label of the fallback, by the two strict thresholds. *)
Lemma fallback_fairness_spec (payload : PriceInsightPayload) :
  match fallback_fairness payload with
  | cheap => (midpoint payload < base_avg_price payload * 0.8)%Q
  | expensive =>
      (base_avg_price payload * 0.8 <= midpoint payload)%Q
      /\ (base_avg_price payload * 1.3 < midpoint payload)%Q
  | fair =>
      (base_avg_price payload * 0.8 <= midpoint payload)%Q
      /\ (midpoint payload <= base_avg_price payload * 1.3)%Q
  end.
Proof.
  unfold fallback_fairness. fold (midpoint payload).
  destruct (Qlt_bool (midpoint payload) (base_avg_price payload * 0.8)) eqn:Hlo.
  - now apply Qlt_bool_iff.
  - apply Qlt_bool_false in Hlo.
    destruct (Qlt_bool (base_avg_price payload * 1.3) (midpoint payload)) eqn:Hhi.
    + apply Qlt_bool_iff in Hhi. now split.
    + apply Qlt_bool_false in Hhi. now split.
Qed.

Lemma fallback_label (payload : PriceInsightPayload) :
  get (fallback payload) "fairness_label"
  = Some (JStr (fairness_string (fallback_fairness payload))).
Proof. reflexivity. Qed.

(** C8. In the fallback, a midpoint of the calculated range that is
    exactly 0.8 times the city average is labelled fair, not cheap, and
    one that is exactly 1.3 times the city average is labelled fair, not
    expensive: both thresholds are strict.  That the label is not cheap
    at the first boundary and not expensive at the second holds for every
    payload; that it is fair uses that the city average, a price, is not
    negative. *)
Theorem fairness_boundary_is_fair (payload : PriceInsightPayload) :
  ((midpoint payload == base_avg_price payload * 0.8)%Q ->
   get (fallback payload) "fairness_label" <> Some (JStr "cheap"))
  /\ ((midpoint payload == base_avg_price payload * 1.3)%Q ->
      get (fallback payload) "fairness_label" <> Some (JStr "expensive"))
  /\ ((0 <= base_avg_price payload)%Q ->
      (midpoint payload == base_avg_price payload * 0.8
       \/ midpoint payload == base_avg_price payload * 1.3)%Q ->
      get (fallback payload) "fairness_label" = Some (JStr "fair")).
Proof.
  rewrite fallback_label.
  pose proof (fallback_fairness_spec payload) as Hspec.
  split; [|split].
  - intros Hmid. destruct (fallback_fairness payload); try discriminate.
    exfalso. rewrite Hmid in Hspec. lra.
  - intros Hmid. destruct (fallback_fairness payload); try discriminate.
    exfalso. rewrite Hmid in Hspec. lra.
  - intros Havg Hmid.
    destruct (fallback_fairness payload); [exfalso|reflexivity|exfalso];
      destruct Hmid as [Hmid|Hmid]; rewrite Hmid in Hspec; lra.
Qed.

Lemma fairness_boundary_is_fair_witness :
  ((0 <= base_avg_price (Sample.payload_of 3000 5000 5000))%Q
   /\ (midpoint (Sample.payload_of 3000 5000 5000) == 5000 * 0.8)%Q
   /\ get (fallback (Sample.payload_of 3000 5000 5000)) "fairness_label"
      = Some (JStr "fair"))
  /\ ((0 <= base_avg_price (Sample.payload_of 5000 8000 5000))%Q
      /\ (midpoint (Sample.payload_of 5000 8000 5000) == 5000 * 1.3)%Q
      /\ get (fallback (Sample.payload_of 5000 8000 5000)) "fairness_label"
         = Some (JStr "fair")).
Proof.
  assert (Havg : (0 <= 5000)%Q) by lra.
  assert (Hlo : (midpoint (Sample.payload_of 3000 5000 5000) == 5000 * 0.8)%Q)
    by reflexivity.
  assert (Hhi : (midpoint (Sample.payload_of 5000 8000 5000) == 5000 * 1.3)%Q)
    by reflexivity.
  split; (split; [exact Havg|split]); try assumption.
  - exact (proj2 (proj2 (fairness_boundary_is_fair (Sample.payload_of 3000 5000 5000)))
             Havg (or_introl Hlo)).
  - exact (proj2 (proj2 (fairness_boundary_is_fair (Sample.payload_of 5000 8000 5000)))
             Havg (or_intror Hhi)).
Defined.

(** *** What the validation lets through *)

Lemma valid_is_checked (v : json) :
  invalid_structure v = false -> checked_invariant v = true.
Proof.
  unfold invalid_structure, checked_invariant, num_field, prop_lt, prop_gt.
  intro Hv.
  repeat (apply orb_false_iff in Hv; destruct Hv as [Hv ?]).
  repeat match goal with
         | Hn : negb _ = false |- _ => apply negb_false_iff in Hn; rewrite Hn
         end.
  destruct (get v "confidence_score") as [[| | c | | |]|]; try discriminate.
  simpl.
  match goal with
  | Ha : Qlt_bool c 0 = false, Hb : Qlt_bool 1 c = false |- _ =>
      apply Qlt_bool_false in Ha; apply Qlt_bool_false in Hb;
      apply Qle_bool_iff in Ha; apply Qle_bool_iff in Hb; rewrite Ha, Hb
  end.
  reflexivity.
Qed.




(** The outcome of a call, by the reply of the provider. *)
Lemma getPriceInsight_outcome `{Runtime} (payload : PriceInsightPayload)
    (apiKey : string) (gemini : nat -> FetchResult) (calls : nat) (v : json) :
  fst (getPriceInsightFromGemini payload apiKey gemini calls) = Ok v ->
  exists status body data,
    gemini calls = Response status body /\ ok status = true
    /\ JSON_parse body = Some data
    /\ (parse_and_validate data = Ok v
        \/ (exists e, parse_and_validate data = Throw e) /\ v = fallback payload).
Proof.
  unfold getPriceInsightFromGemini. simpl.
  destruct (gemini calls) as [|status body]; [discriminate|].
  destruct (ok status) eqn:Hok; simpl.
  - destruct (JSON_parse body) as [data|] eqn:Hdata; [|discriminate].
    intro Heq. injection Heq as <-.
    exists status, body, data. repeat split; auto.
    destruct (parse_and_validate data) as [w|e]; simpl; [left|right]; eauto.
  - destruct (Z.eqb status 429); discriminate.
Qed.




(** *** The fallback *)

Lemma fallback_fields (payload : PriceInsightPayload) :
  num_field (fallback payload) "recommended_min_price"
  = Some (inject_Z (Math_round (calculated_range_min payload)))
  /\ num_field (fallback payload) "recommended_max_price"
     = Some (inject_Z (Math_round (calculated_range_max payload)))
  /\ get (fallback payload) "fairness_label"
     = Some (JStr (fairness_string (fallback_fairness payload)))
  /\ get (fallback payload) "confidence_score" = Some (JNum 0.6%Q)
  /\ get (fallback payload) "explanation"
     = Some (JStr ("Price recommendation based on demand analysis. "
                   ++ (if is_peak_month payload
                       then "Peak season pricing applies. " else "")
                   ++ (if event_active payload
                       then match event_name payload with
                            | Some n => n
                            | None => "null"
                            end ++ " is happening during your dates. "
                       else "")
                   ++ "This is a calculated estimate.")).
Proof. repeat split. Qed.




(** *** Reading the text of the provider *)

Lemma upto_last_absent (c : ascii) (s : string) :
  has_char c s = false -> upto_last c s = None.
Proof.
  induction s as [|a r IH]; simpl; [reflexivity|].
  intro Hno. apply orb_false_iff in Hno as [Ha Hr].
  rewrite (IH Hr), Ha. reflexivity.
Qed.

Lemma upto_last_closing (c : ascii) (mid post : string) :
  has_char c post = false ->
  upto_last c (mid ++ String c post) = Some (mid ++ String c EmptyString).
Proof.
  intro Hpost. induction mid as [|a r IH]; simpl.
  - rewrite (upto_last_absent c post Hpost), Ascii.eqb_refl. reflexivity.
  - rewrite IH. reflexivity.
Qed.

(** The pattern takes the text from the first opening brace to the last
    closing brace. *)
Lemma match_braces_wrapped (pre mid post : string) :
  has_char "{" pre = false -> has_char "}" post = false ->
  match_braces (pre ++ String "{" (mid ++ String "}" post))
  = Some (String "{" (mid ++ String "}" EmptyString)).
Proof.
  intros Hpre Hpost. induction pre as [|a r IH]; simpl.
  - rewrite (upto_last_closing "}" mid post Hpost). reflexivity.
  - simpl in Hpre. apply orb_false_iff in Hpre as [Ha Hr].
    rewrite Ha. exact (IH Hr).
Qed.

Lemma truthy_text (text : string) : text <> EmptyString -> truthy (JStr text) = true.
Proof.
  intro Hne. simpl. destruct (String.eqb text "") eqn:Heq; [|reflexivity].
  apply String.eqb_eq in Heq. contradiction.
Qed.

(** An object that meets the field constraints and carries an
    explanation passes the validation. *)
Lemma checked_is_valid (v : json) :
  checked_invariant v = true -> has_explanation v = true ->
  invalid_structure v = false.
Proof.
  unfold checked_invariant, has_explanation, invalid_structure, num_field,
    prop_lt, prop_gt, falsy, Qlt_bool.
  intros Hc He.
  repeat (apply andb_true_iff in Hc; destruct Hc as [Hc ?]).
  repeat match goal with
         | Hn : is_number _ = true |- _ => rewrite Hn; clear Hn
         | Hn : is_fairness_label _ = true |- _ => rewrite Hn; clear Hn
         end.
  destruct (get v "confidence_score") as [[| | c | | |]|]; try discriminate.
  match goal with
  | Hb : Qle_bool 0 c && Qle_bool c 1 = true |- _ =>
      apply andb_true_iff in Hb; destruct Hb as [Ha Hb]; rewrite Ha, Hb
  end.
  destruct (get v "explanation") as [[| | | text | |]|]; try discriminate.
  cbn [truthy]. rewrite He. reflexivity.
Qed.

(** An object without an explanation, or whose explanation is null or
    the empty text, does not pass the validation. *)
Lemma unexplained_is_invalid (v : json) :
  get v "explanation" = None \/ get v "explanation" = Some JNull
  \/ get v "explanation" = Some (JStr "") ->
  invalid_structure v = true.
Proof.
  intro Hno. unfold invalid_structure.
  assert (Hfalsy : falsy (get v "explanation") = true)
    by (destruct Hno as [-> | [-> | ->]]; reflexivity).
  rewrite Hfalsy. apply orb_true_r.
Qed.

Lemma unchecked_is_invalid (v : json) :
  checked_invariant v = false -> invalid_structure v = true.
Proof.
  intro Hc. destruct (invalid_structure v) eqn:Hv; [reflexivity|].
  rewrite (valid_is_checked v Hv) in Hc. discriminate.
Qed.

(** What the function returns once an object was read from the text of
    the provider: the object if it passes the validation, the fallback
    otherwise. *)
Lemma found_object_outcome `{Runtime}
    (payload : PriceInsightPayload) (apiKey : string)
    (gemini : nat -> FetchResult) (calls : nat)
    (status : Z) (body : string) (data : json) (text : string) (v : json) :
  gemini calls = Response status body -> ok status = true ->
  JSON_parse body = Some data ->
  content_of data = Ok (Some (JStr text)) -> text <> EmptyString ->
  (JSON_parse text = Some v
   \/ (JSON_parse text = None
       /\ exists pre mid post,
            text = pre ++ String "{" (mid ++ String "}" post)
            /\ has_char "{" pre = false /\ has_char "}" post = false
            /\ JSON_parse (String "{" (mid ++ String "}" EmptyString)) = Some v)) ->
  fst (getPriceInsightFromGemini payload apiKey gemini calls)
  = Ok (if invalid_structure v then fallback payload else v).
Proof.
  intros Hg Hok Hdata Hcontent Hne Hparse.
  unfold getPriceInsightFromGemini. rewrite Hg, Hok, Hdata. simpl.
  assert (Hpc : parse_content (JStr text) = Ok v).
  { unfold parse_content.
    destruct Hparse as [-> | (-> & pre & mid & post & -> & Hpre & Hpost & Hobj)].
    - reflexivity.
    - rewrite (match_braces_wrapped pre mid post Hpre Hpost), Hobj. reflexivity. }
  unfold parse_and_validate. rewrite Hcontent. cbn [bind].
  rewrite (truthy_text text Hne). cbn [negb].
  rewrite Hpc. cbn [bind].
  destruct (invalid_structure v) eqn:Hv; destruct v; try reflexivity.
  discriminate.
Qed.

(** C7 (as amended). The text of the provider is first parsed as JSON as
    it stands; if that fails, the part from its first opening brace to its
    last closing brace is parsed.  So an object wrapped in prose or in a
    markdown fence is found whenever no opening brace stands before it and
    no closing brace after it.  An object that is found, by either way,
    meets the constraints on the prices, the label and the confidence
    score, and carries an explanation that is a text and not empty, is
    returned as it was parsed.  An object that is found and has no
    explanation, or null or the empty text as its explanation, or breaks
    one of the constraints, is replaced by the fallback. *)
Theorem wrapped_object_is_returned `{Runtime}
    (payload : PriceInsightPayload) (apiKey : string)
    (gemini : nat -> FetchResult) (calls : nat)
    (status : Z) (body : string) (data : json) (text : string) (v : json) :
  gemini calls = Response status body -> ok status = true ->
  JSON_parse body = Some data ->
  content_of data = Ok (Some (JStr text)) -> text <> EmptyString ->
  (JSON_parse text = Some v
   \/ (JSON_parse text = None
       /\ exists pre mid post,
            text = pre ++ String "{" (mid ++ String "}" post)
            /\ has_char "{" pre = false /\ has_char "}" post = false
            /\ JSON_parse (String "{" (mid ++ String "}" EmptyString)) = Some v)) ->
  (checked_invariant v = true -> has_explanation v = true ->
   fst (getPriceInsightFromGemini payload apiKey gemini calls) = Ok v)
  /\ (get v "explanation" = None \/ get v "explanation" = Some JNull
      \/ get v "explanation" = Some (JStr "") ->
      fst (getPriceInsightFromGemini payload apiKey gemini calls)
      = Ok (fallback payload))
  /\ (checked_invariant v = false ->
      fst (getPriceInsightFromGemini payload apiKey gemini calls)
      = Ok (fallback payload)).
Proof.
  intros Hg Hok Hdata Hcontent Hne Hparse.
  rewrite (found_object_outcome payload apiKey gemini calls status body data text v
             Hg Hok Hdata Hcontent Hne Hparse).
  split; [|split].
  - intros Hc He. rewrite (checked_is_valid v Hc He). reflexivity.
  - intro Hno. rewrite (unexplained_is_invalid v Hno). reflexivity.
  - intro Hc. rewrite (unchecked_is_invalid v Hc). reflexivity.
Qed.

Lemma wrapped_object_is_returned_witness :
  (@JSON_parse Reference.utc_runtime (Reference.quoted Sample.fenced_src) = None
   /\ Reference.quoted Sample.fenced_src
      = "```json " ++ String "{" (Reference.quoted Sample.object_inner
                                   ++ String "}" " ```")
   /\ checked_invariant Sample.object = true
   /\ has_explanation Sample.object = true
   /\ fst (@getPriceInsightFromGemini Reference.utc_runtime Sample.payload "key"
             (Sample.always (Response 200 (Sample.reply_with Sample.fenced_src))) 0%nat)
      = Ok Sample.object)
  /\ (@JSON_parse Reference.utc_runtime (Reference.quoted Sample.silent_src)
      = Some Sample.silent
      /\ recommendation_invariant Sample.silent = true
      /\ get Sample.silent "explanation" = Some (JStr "")
      /\ fst (@getPriceInsightFromGemini Reference.utc_runtime Sample.payload "key"
                (Sample.always (Response 200 (Sample.reply_with Sample.silent_src)))
                0%nat)
         = Ok (fallback Sample.payload)).
Proof.
  assert (Hdirect : @JSON_parse Reference.utc_runtime
                      (Reference.quoted Sample.fenced_src) = None)
    by (vm_compute; reflexivity).
  assert (Hshape : Reference.quoted Sample.fenced_src
                   = "```json " ++ String "{" (Reference.quoted Sample.object_inner
                                                ++ String "}" " ```"))
    by (vm_compute; reflexivity).
  assert (Hchecked : checked_invariant Sample.object = true) by (vm_compute; reflexivity).
  assert (Hexplained : has_explanation Sample.object = true) by (vm_compute; reflexivity).
  assert (Hsilent : @JSON_parse Reference.utc_runtime (Reference.quoted Sample.silent_src)
                    = Some Sample.silent)
    by (vm_compute; reflexivity).
  assert (Hinv : recommendation_invariant Sample.silent = true)
    by (vm_compute; reflexivity).
  assert (Hempty : get Sample.silent "explanation" = Some (JStr "")) by reflexivity.
  split.
  - repeat (split; [assumption|]).
    refine (proj1 (@wrapped_object_is_returned Reference.utc_runtime Sample.payload "key"
                     (Sample.always (Response 200 (Sample.reply_with Sample.fenced_src)))
                     0%nat 200 (Sample.reply_with Sample.fenced_src)
                     (Sample.data_with (Reference.quoted Sample.fenced_src))
                     (Reference.quoted Sample.fenced_src) Sample.object
                     eq_refl eq_refl _ eq_refl _ _) Hchecked Hexplained).
    + vm_compute; reflexivity.
    + discriminate.
    + right. split; [exact Hdirect|].
      exists "```json ", (Reference.quoted Sample.object_inner), " ```".
      repeat split; vm_compute; reflexivity.
  - repeat (split; [assumption|]).
    refine (proj1 (proj2
              (@wrapped_object_is_returned Reference.utc_runtime Sample.payload "key"
                 (Sample.always (Response 200 (Sample.reply_with Sample.silent_src)))
                 0%nat 200 (Sample.reply_with Sample.silent_src)
                 (Sample.data_with (Reference.quoted Sample.silent_src))
                 (Reference.quoted Sample.silent_src) Sample.silent
                 eq_refl eq_refl _ eq_refl _ _)) (or_intror (or_intror Hempty))).
    + vm_compute; reflexivity.
    + discriminate.
    + left. exact Hsilent.
Defined.

(** C7 (counterexample). A well-formed object wrapped in prose that has
    braces of its own: the pattern takes the text from the first opening
    brace of the prose to the end of the object, which is not JSON, and
    the fallback is returned instead of the object. *)
Lemma object_in_prose_with_braces_falls_back :
  @JSON_parse Reference.utc_runtime (Reference.quoted Sample.object_src)
  = Some Sample.object
  /\ checked_invariant Sample.object = true
  /\ has_explanation Sample.object = true
  /\ Reference.quoted Sample.prose_src
     = "Result {as requested}: " ++ Reference.quoted Sample.object_src ++ " Done."
  /\ match_braces (Reference.quoted Sample.prose_src)
     = Some ("{as requested}: " ++ Reference.quoted Sample.object_src)
  /\ fst (@getPriceInsightFromGemini Reference.utc_runtime Sample.payload "key"
            (Sample.always (Response 200 (Sample.reply_with Sample.prose_src))) 0%nat)
     = Ok (fallback Sample.payload)
  /\ fallback Sample.payload <> Sample.object.
Proof.
  repeat split; try (vm_compute; reflexivity).
  vm_compute. discriminate.
Qed.

End Recommendation.

Module BinaryDemand.

Import JsString Js Exn PredictPrice Spec.
Open Scope string_scope.

Lemma holds_as_scanned `{Runtime} (date : option Z) (name start end_ : string) :
  date_le (Date_parse start) date && date_le date (Date_parse end_)
  = event_holds date (name, start, end_).
Proof.
  unfold event_holds, date_le.
  destruct date as [t|], (Date_parse start) as [a|], (Date_parse end_) as [b|];
    simpl; auto using andb_false_r.
Qed.

(** The loop with its [break] finds the first parsed event that holds the
    date. *)
Lemma scan_events_find `{Runtime} (date : option Z) (eventParts : list string) :
  scan_events date eventParts
  = match find (event_holds date) (parsed_events eventParts) with
    | Some (name, _, _) => (true, Some (trim name))
    | None => (false, None)
    end.
Proof.
  induction eventParts as [|eventStr rest IH]; [reflexivity|].
  cbn [scan_events parsed_events].
  destruct (match_event eventStr) as [[[name start] end_]|]; [|exact IH].
  cbn [find]. rewrite (holds_as_scanned date name start end_).
  destruct (event_holds date (name, start, end_)); [reflexivity|exact IH].
Qed.

Lemma active_event_parts `{Runtime} (cityDemand : option CityDemand) (date : option Z) :
  active_event cityDemand date = scan_events date (event_parts cityDemand).
Proof.
  unfold active_event, event_parts.
  destruct cityDemand as [cd|]; [|reflexivity].
  destruct (events cd) as [s|]; [|reflexivity].
  destruct (String.eqb s ""); reflexivity.
Qed.

Lemma active_event_find `{Runtime} (cityDemand : option CityDemand) (date : option Z) :
  active_event cityDemand date
  = match find (event_holds date) (parsed_events (event_parts cityDemand)) with
    | Some (name, _, _) => (true, Some (trim name))
    | None => (false, None)
    end.
Proof. rewrite active_event_parts. apply scan_events_find. Qed.

Lemma existsb_find {A : Type} (f : A -> bool) (l : list A) :
  existsb f l = match find f l with Some _ => true | None => false end.
Proof.
  induction l as [|x r IH]; simpl; [reflexivity|].
  destruct (f x); [reflexivity|exact IH].
Qed.

Lemma find_first {A : Type} (f : A -> bool) (l : list A) (x : A) :
  find f l = Some x ->
  exists before after,
    l = (before ++ x :: after)%list /\ forallb (fun y => negb (f y)) before = true
    /\ f x = true.
Proof.
  induction l as [|y r IH]; simpl; [discriminate|].
  destruct (f y) eqn:Hy.
  - intro Heq. injection Heq as <-. exists [], r. auto.
  - intro Hfind. destruct (IH Hfind) as (before & after & -> & Hb & Hx).
    exists (y :: before), after. simpl. rewrite Hy, Hb. auto.
Qed.

Lemma filter_nonempty_existsb {A : Type} (f : A -> bool) (l : list A) :
  Nat.ltb 0 (List.length (filter f l)) = existsb f l.
Proof.
  induction l as [|x r IH]; simpl; [reflexivity|].
  destruct (f x); [reflexivity|exact IH].
Qed.

Lemma demand_of_fields `{Runtime} (cityDemand : option CityDemand) (checkIn : string) :
  let d := demand_of cityDemand checkIn in
  isPeakMonth d = includes_num (peakMonths cityDemand) (checkInMonth checkIn)
  /\ (eventActive d, eventName d) = active_event cityDemand (Date_parse checkIn)
  /\ demandMultiplier d = demand_multiplier (isPeakMonth d) (eventActive d).
Proof.
  unfold demand_of, checkInMonth.
  destruct (active_event cityDemand (Date_parse checkIn)) as [active name].
  simpl. auto.
Qed.

Lemma demand_multiplier_sum (peak active : bool) :
  (demand_multiplier peak active
   == 1 + (if peak then 0.20 else 0) + (if active then 0.30 else 0))%Q.
Proof. destruct peak, active; unfold demand_multiplier; lra. Qed.

Lemma eventActive_existsb `{Runtime} (cityDemand : option CityDemand) (checkIn : string) :
  eventActive (demand_of cityDemand checkIn)
  = existsb (event_holds (Date_parse checkIn)) (parsed_events (event_parts cityDemand)).
Proof.
  destruct (demand_of_fields cityDemand checkIn) as (_ & Hactive & _).
  rewrite active_event_find, existsb_find in *.
  destruct (find _ _) as [[[name start] end_]|]; now inversion Hactive.
Qed.

(** Looking a month up in the parsed list is looking for a piece of the
    text that reads as the month. *)
Lemma includes_num_pieces (pieces : list string) (m : Z) :
  includes_num (map (fun piece => parseInt (trim piece)) pieces) (Some m)
  = existsb (fun piece => match parseInt (trim piece) with
                          | Some k => Z.eqb k m
                          | None => false
                          end) pieces.
Proof.
  induction pieces as [|piece rest IH]; [reflexivity|].
  cbn [map includes_num existsb] in *. rewrite <- IH.
  destruct (parseInt (trim piece)) as [k|]; [|reflexivity].
  rewrite (Z.eqb_sym m k). reflexivity.
Qed.

Lemma peak_month_listed `{Runtime} (cityDemand : option CityDemand) (checkIn : string)
    (t : Z) :
  Date_parse checkIn = Some t ->
  isPeakMonth (demand_of cityDemand checkIn)
  = month_listed cityDemand (Date_getMonth t + 1).
Proof.
  intro Hdate.
  destruct (demand_of_fields cityDemand checkIn) as (-> & _).
  unfold checkInMonth, peakMonths, month_listed. rewrite Hdate. cbn [option_map].
  destruct cityDemand as [cd|]; [|reflexivity].
  destruct (peak_months cd) as [text|]; [|reflexivity].
  apply includes_num_pieces.
Qed.

(** C4. In the binary model the multiplier is 1.0, plus 0.20 when the
    month of the check-in date is in the list of peak months of the
    record, plus 0.30 when the interval of some parsed event holds the
    check-in date; only the check-in date is compared, with both ends of
    the interval included, so a check-in on the first or on the last day
    of an event is inside it; the multiplier is at most 1.50. *)
Theorem binary_multiplier_formula `{Runtime}
    (cityDemand : option CityDemand) (checkIn : string) :
  let d := demand_of cityDemand checkIn in
  let parsed := parsed_events (event_parts cityDemand) in
  (forall t, Date_parse checkIn = Some t ->
             isPeakMonth d = month_listed cityDemand (Date_getMonth t + 1))
  /\ eventActive d = existsb (event_holds (Date_parse checkIn)) parsed
  /\ (demandMultiplier d
      == 1 + (if isPeakMonth d then 0.20 else 0) + (if eventActive d then 0.30 else 0))%Q
  /\ (demandMultiplier d <= 1.50)%Q
  /\ (forall name start end_ t other,
        In (name, start, end_) parsed -> Date_parse checkIn = Some t ->
        (Date_parse start = Some t /\ Date_parse end_ = Some other /\ t <= other
         \/ Date_parse start = Some other /\ Date_parse end_ = Some t /\ other <= t) ->
        eventActive d = true).
Proof.
  intros d parsed.
  destruct (demand_of_fields cityDemand checkIn) as (_ & _ & Hm).
  fold d in Hm.
  split; [intros t Hdate; exact (peak_month_listed cityDemand checkIn t Hdate)|].
  split; [apply eventActive_existsb|].
  split; [rewrite Hm; apply demand_multiplier_sum|].
  split.
  { rewrite Hm.
    destruct (PriceRange.demand_multiplier_bounds (isPeakMonth d) (eventActive d))
      as [_ Hb]. lra. }
  intros name start end_ t other Hin Hdate Hedge.
  unfold d. rewrite eventActive_existsb. apply existsb_exists.
  exists (name, start, end_). split; [exact Hin|].
  unfold event_holds. rewrite Hdate.
  destruct Hedge as [(-> & -> & Hle) | (-> & -> & Hle)];
    apply andb_true_iff; split; apply Z.leb_le; lia.
Qed.

Lemma binary_multiplier_formula_witness :
  In ("Diwali", "2024-11-01", "2024-11-05")
     (parsed_events (event_parts (Some Sample.festival_city)))
  /\ @Date_parse Reference.utc_runtime "2024-11-01" = Some 1730419200000
  /\ @Date_parse Reference.utc_runtime "2024-11-05" = Some 1730764800000
  /\ @Date_parse Reference.utc_runtime "2024-09-10" = Some 1725926400000
  /\ eventActive (@demand_of Reference.utc_runtime (Some Sample.festival_city) "2024-11-01")
     = true
  /\ eventActive (@demand_of Reference.utc_runtime (Some Sample.festival_city) "2024-11-05")
     = true
  /\ isPeakMonth (@demand_of Reference.utc_runtime (Some Sample.festival_city) "2024-11-01")
     = true
  /\ isPeakMonth (@demand_of Reference.utc_runtime (Some Sample.festival_city) "2024-09-10")
     = false
  /\ (demandMultiplier
        (@demand_of Reference.utc_runtime (Some Sample.festival_city) "2024-11-01")
      == 1 + 0.20 + 0.30)%Q
  /\ (demandMultiplier
        (@demand_of Reference.utc_runtime (Some Sample.festival_city) "2024-09-10")
      == 1)%Q.
Proof.
  assert (Hin : In ("Diwali", "2024-11-01", "2024-11-05")
                   (parsed_events (event_parts (Some Sample.festival_city))))
    by (vm_compute; left; reflexivity).
  assert (Hs : @Date_parse Reference.utc_runtime "2024-11-01" = Some 1730419200000)
    by (vm_compute; reflexivity).
  assert (He : @Date_parse Reference.utc_runtime "2024-11-05" = Some 1730764800000)
    by (vm_compute; reflexivity).
  assert (Hq : @Date_parse Reference.utc_runtime "2024-09-10" = Some 1725926400000)
    by (vm_compute; reflexivity).
  repeat (split; [assumption|]).
  destruct (@binary_multiplier_formula Reference.utc_runtime
              (Some Sample.festival_city) "2024-11-01")
    as (Hpeak1 & Hactive1 & Hsum1 & _ & Hedge1).
  destruct (@binary_multiplier_formula Reference.utc_runtime
              (Some Sample.festival_city) "2024-11-05") as (_ & _ & _ & _ & Hedge5).
  destruct (@binary_multiplier_formula Reference.utc_runtime
              (Some Sample.festival_city) "2024-09-10")
    as (Hpeak9 & Hactive9 & Hsum9 & _ & _).
  assert (Hin1 : eventActive (@demand_of Reference.utc_runtime
                                (Some Sample.festival_city) "2024-11-01") = true).
  { apply (Hedge1 "Diwali" "2024-11-01" "2024-11-05" 1730419200000 1730764800000 Hin Hs).
    left. split; [exact Hs | split; [exact He | lia]]. }
  assert (Hlisted1 : isPeakMonth (@demand_of Reference.utc_runtime
                                    (Some Sample.festival_city) "2024-11-01") = true).
  { rewrite (Hpeak1 _ Hs). vm_compute. reflexivity. }
  assert (Hlisted9 : isPeakMonth (@demand_of Reference.utc_runtime
                                    (Some Sample.festival_city) "2024-09-10") = false).
  { rewrite (Hpeak9 _ Hq). vm_compute. reflexivity. }
  split; [exact Hin1|].
  split.
  { apply (Hedge5 "Diwali" "2024-11-01" "2024-11-05" 1730764800000 1730419200000 Hin He).
    right. split; [exact Hs | split; [exact He | lia]]. }
  split; [exact Hlisted1|].
  split; [exact Hlisted9|].
  split.
  - rewrite Hsum1, Hlisted1, Hin1. reflexivity.
  - rewrite Hsum9, Hlisted9, Hactive9.
    assert (Hnone : existsb (@event_holds Reference.utc_runtime
                               (@Date_parse Reference.utc_runtime "2024-09-10"))
                      (parsed_events (event_parts (Some Sample.festival_city))) = false)
      by (vm_compute; reflexivity).
    rewrite Hnone. reflexivity.
Defined.

Lemma find_filter_head {A : Type} (f : A -> bool) (l : list A) :
  find f l = match filter f l with x :: _ => Some x | [] => None end.
Proof.
  induction l as [|x r IH]; simpl; [reflexivity|].
  destruct (f x); [reflexivity|exact IH].
Qed.

Lemma filter_first {A : Type} (f : A -> bool) (before after : list A) (x : A) :
  forallb (fun y => negb (f y)) before = true -> f x = true ->
  filter f (before ++ x :: after)%list = x :: filter f after.
Proof.
  intros Hb Hx. induction before as [|y r IH]; simpl.
  - rewrite Hx. reflexivity.
  - simpl in Hb. apply andb_true_iff in Hb as [Hy Hr].
    apply negb_true_iff in Hy. rewrite Hy. exact (IH Hr).
Qed.

(** C10. In the binary model, when the intervals of several parsed events
    hold the check-in date, the multiplier takes the 0.30 of an event
    once, whatever their number, and the event name of the demand context
    is the name of the first of them in the order of the raw events
    string. *)
Theorem first_event_counts_once `{Runtime}
    (cityDemand : option CityDemand) (checkIn : string) :
  let d := demand_of cityDemand checkIn in
  let parsed := parsed_events (event_parts cityDemand) in
  let holding := filter (event_holds (Date_parse checkIn)) parsed in
  (demandMultiplier d
   == 1 + (if isPeakMonth d then 0.20 else 0)
      + (if Nat.ltb 0 (List.length holding) then 0.30 else 0))%Q
  /\ (eventActive d, eventName d)
     = match holding with
       | (name, _, _) :: _ => (true, Some (trim name))
       | [] => (false, None)
       end
  /\ (forall before name start end_ after,
        parsed = (before ++ (name, start, end_) :: after)%list ->
        forallb (fun ev => negb (event_holds (Date_parse checkIn) ev)) before = true ->
        event_holds (Date_parse checkIn) (name, start, end_) = true ->
        eventName d = Some (trim name)).
Proof.
  intros d parsed holding.
  destruct (demand_of_fields cityDemand checkIn) as (_ & Hactive & Hm).
  fold d in Hactive, Hm.
  assert (Hhead : (eventActive d, eventName d)
                  = match holding with
                    | (name, _, _) :: _ => (true, Some (trim name))
                    | [] => (false, None)
                    end).
  { rewrite Hactive, active_event_find, find_filter_head.
    fold parsed. fold holding. destruct holding as [|[[name start] end_] rest]; reflexivity. }
  split.
  { rewrite Hm. unfold holding. rewrite filter_nonempty_existsb.
    unfold parsed. rewrite <- eventActive_existsb. apply demand_multiplier_sum. }
  split; [exact Hhead|].
  intros before name start end_ after Hparsed Hbefore Hholds.
  assert (Hfirst : holding
                   = (name, start, end_)
                     :: filter (event_holds (Date_parse checkIn)) after).
  { unfold holding. rewrite Hparsed. now apply filter_first. }
  rewrite Hfirst in Hhead. now inversion Hhead.
Qed.

Lemma first_event_counts_once_witness :
  parsed_events (event_parts (Some Sample.festival_city))
  = ([] ++ ("Diwali", "2024-11-01", "2024-11-05")
        :: [(" Trade Fair", "2024-11-03", "2024-11-10")])%list
  /\ @event_holds Reference.utc_runtime (@Date_parse Reference.utc_runtime "2024-11-04")
       ("Diwali", "2024-11-01", "2024-11-05") = true
  /\ @event_holds Reference.utc_runtime (@Date_parse Reference.utc_runtime "2024-11-04")
       (" Trade Fair", "2024-11-03", "2024-11-10") = true
  /\ eventName (@demand_of Reference.utc_runtime (Some Sample.festival_city) "2024-11-04")
     = Some "Diwali"
  /\ (demandMultiplier
        (@demand_of Reference.utc_runtime (Some Sample.festival_city) "2024-11-04")
      == 1.5)%Q.
Proof.
  assert (Hparsed : parsed_events (event_parts (Some Sample.festival_city))
                    = ([] ++ ("Diwali", "2024-11-01", "2024-11-05")
                          :: [(" Trade Fair", "2024-11-03", "2024-11-10")])%list)
    by (vm_compute; reflexivity).
  assert (H1 : @event_holds Reference.utc_runtime
                 (@Date_parse Reference.utc_runtime "2024-11-04")
                 ("Diwali", "2024-11-01", "2024-11-05") = true)
    by (vm_compute; reflexivity).
  assert (H2 : @event_holds Reference.utc_runtime
                 (@Date_parse Reference.utc_runtime "2024-11-04")
                 (" Trade Fair", "2024-11-03", "2024-11-10") = true)
    by (vm_compute; reflexivity).
  repeat (split; [assumption|]).
  destruct (@first_event_counts_once Reference.utc_runtime
              (Some Sample.festival_city) "2024-11-04") as (Hm & _ & Hname).
  split.
  - exact (Hname [] "Diwali" "2024-11-01" "2024-11-05"
             [(" Trade Fair", "2024-11-03", "2024-11-10")] Hparsed eq_refl H1).
  - rewrite Hm. vm_compute. reflexivity.
Defined.

End BinaryDemand.

Module WeightedDemand.

Import JsString Js Exn Utils DemandLib Spec.
Open Scope string_scope.

Lemma impactScore_weight `{Runtime} (i : Impact) : impactScore i = severity_weight i.
Proof. destruct i; reflexivity. Qed.

(** The loop adds the weights of the events it is given, in their
    order. *)
Lemma add_impacts_gain `{Runtime} (l : list EventInfo) (score : Q) :
  add_impacts score l = gain score l.
Proof.
  revert score. induction l as [|e r IH]; intro score; [reflexivity|].
  unfold add_impacts in *. cbn [fold_left gain].
  rewrite impactScore_weight. apply IH.
Qed.

(** The chain of tests on the name is the table of key words. *)
Lemma getEventImpact_severity (eventName : string) :
  getEventImpact eventName = severity_of eventName.
Proof.
  unfold getEventImpact, severity_of, mentions,
    very_high_words, high_words, medium_words.
  cbn [existsb].
  destruct (includes (toLowerCase eventName) "kumbh"),
    (includes (toLowerCase eventName) "diwali"),
    (includes (toLowerCase eventName) "new year"),
    (includes (toLowerCase eventName) "wedding"),
    (includes (toLowerCase eventName) "durga puja"),
    (includes (toLowerCase eventName) "navratri"),
    (includes (toLowerCase eventName) "festival"),
    (includes (toLowerCase eventName) "jayanti"),
    (includes (toLowerCase eventName) "puja"); reflexivity.
Qed.

Lemma parse_parts_events (eventParts : list string) :
  parse_parts eventParts = map event_of (parsed_events eventParts).
Proof.
  induction eventParts as [|eventStr rest IH]; [reflexivity|].
  cbn [parse_parts parsed_events].
  destruct (match_event eventStr) as [[[n s] e]|]; [|exact IH].
  cbn [map event_of]. rewrite getEventImpact_severity, IH. reflexivity.
Qed.

Lemma parse_parts_impact (eventParts : list string) :
  Forall (fun ev => impact ev = getEventImpact (name ev)) (parse_parts eventParts).
Proof.
  induction eventParts as [|eventStr rest IH]; simpl; [constructor|].
  destruct (match_event eventStr) as [[[n s] e]|]; [|exact IH].
  constructor; [reflexivity|exact IH].
Qed.

Lemma parseEvents_impact (eventsStr : option string) :
  Forall (fun ev => impact ev = getEventImpact (name ev)) (parseEvents eventsStr).
Proof.
  unfold parseEvents. destruct eventsStr as [s|]; [|constructor].
  destruct (String.eqb s ""); [constructor|apply parse_parts_impact].
Qed.

Lemma parseEvents_weighted (cityDemand : option PredictPrice.CityDemand) :
  parseEvents (nonempty (match cityDemand with
                         | Some cd => PredictPrice.events cd
                         | None => None
                         end))
  = weighted_events cityDemand.
Proof.
  unfold weighted_events. destruct cityDemand as [cd|]; [|reflexivity].
  destruct (PredictPrice.events cd) as [text|]; [|reflexivity].
  cbn [nonempty]. destruct (String.eqb text "") eqn:Hempty; [reflexivity|].
  cbn [parseEvents]. rewrite Hempty. apply parse_parts_events.
Qed.

Lemma weighted_events_severity (cityDemand : option PredictPrice.CityDemand) :
  Forall (fun ev => impact ev = severity_of (name ev)) (weighted_events cityDemand).
Proof.
  unfold weighted_events. destruct cityDemand as [cd|]; [|constructor].
  destruct (PredictPrice.events cd) as [text|]; [|constructor].
  destruct (String.eqb text ""); [constructor|].
  apply Forall_forall. intros ev Hin. apply in_map_iff in Hin.
  destruct Hin as ([[n s] e] & <- & _). reflexivity.
Qed.

Lemma overlaps_spec `{Runtime} (checkIn checkOut : string) (event : EventInfo) :
  overlaps checkIn checkOut event
  = stay_overlaps (Date_parse checkIn) (Date_parse checkOut)
                  (Date_parse (start event)) (Date_parse (end_ event)).
Proof.
  unfold overlaps, stay_overlaps, isDateInRange, PredictPrice.date_le.
  destruct (Date_parse checkIn), (Date_parse checkOut),
    (Date_parse (start event)), (Date_parse (end_ event));
    rewrite ?andb_false_r; reflexivity.
Qed.

Lemma context_events `{Runtime}
    (cityDemand : option PredictPrice.CityDemand) (checkIn checkOut : string) :
  events (calculateDemandContext cityDemand checkIn checkOut)
  = filter (fun ev => stay_overlaps (Date_parse checkIn) (Date_parse checkOut)
                        (Date_parse (start ev)) (Date_parse (end_ ev)))
           (weighted_events cityDemand).
Proof.
  unfold calculateDemandContext. cbn [events].
  rewrite parseEvents_weighted. apply filter_ext. intro ev. apply overlaps_spec.
Qed.

Lemma context_peak `{Runtime}
    (cityDemand : option PredictPrice.CityDemand) (checkIn checkOut : string) (t : Z) :
  Date_parse checkIn = Some t ->
  is_peak_month (calculateDemandContext cityDemand checkIn checkOut)
  = month_listed cityDemand (Date_getMonth t + 1).
Proof.
  intro Hdate. unfold calculateDemandContext, getMonthNumber, month_listed.
  cbn [is_peak_month]. rewrite Hdate. cbn [option_map].
  destruct cityDemand as [cd|]; [|reflexivity].
  destruct (PredictPrice.peak_months cd) as [text|]; [|reflexivity].
  cbn [nonempty]. destruct (String.eqb text "") eqn:Hempty.
  - apply String.eqb_eq in Hempty. subst text. reflexivity.
  - apply BinaryDemand.includes_num_pieces.
Qed.

(** The score of a context is the weighted score of its own flag and
    events. *)
Lemma context_score `{Runtime}
    (cityDemand : option PredictPrice.CityDemand) (checkIn checkOut : string) :
  let ctx := calculateDemandContext cityDemand checkIn checkOut in
  demand_score ctx = weighted_score (is_peak_month ctx) (events ctx).
Proof.
  cbn [calculateDemandContext demand_score is_peak_month events].
  unfold weighted_score, Math_min. rewrite add_impacts_gain. reflexivity.
Qed.

Lemma weighted_score_capped `{Runtime} (peak : bool) (l : list EventInfo) :
  (weighted_score peak l <= 1)%Q.
Proof.
  unfold weighted_score.
  destruct (Qle_bool _ 1) eqn:Hle; [now apply Qle_bool_iff|apply Qle_refl].
Qed.

(** C6. In the weighted model the demand score starts at 0, gains 0.30
    when the month of the check-in date is in the list of peak months of
    the record, gains for each overlapping event (check-in date inside
    the range of the event, or check-out date inside it, or that range
    inside the stay) the weight of its severity, 0.10 for low, 0.20 for
    medium, 0.30 for high and 0.40 for very high, the severity being read
    off the name of the event by its key words, and is capped at 1.0; the
    price multiplier is 1 + demand_score * 0.5 and each adjusted price is
    the product rounded to the nearest whole unit.  The sums and products
    are those of the platform, in double precision. *)
Theorem weighted_score_formula `{Runtime}
    (cityDemand : option PredictPrice.CityDemand) (checkIn checkOut : string)
    (baseMin baseMax : Q) :
  let ctx := calculateDemandContext cityDemand checkIn checkOut in
  (forall t, Date_parse checkIn = Some t ->
             is_peak_month ctx = month_listed cityDemand (Date_getMonth t + 1))
  /\ events ctx
     = filter (fun ev => stay_overlaps (Date_parse checkIn) (Date_parse checkOut)
                           (Date_parse (start ev)) (Date_parse (end_ ev)))
              (weighted_events cityDemand)
  /\ Forall (fun ev => impact ev = severity_of (name ev)) (events ctx)
  /\ demand_score ctx = weighted_score (is_peak_month ctx) (events ctx)
  /\ (demand_score ctx <= 1)%Q
  /\ (is_peak_month ctx = false -> events ctx = [] -> demand_score ctx = 0%Q)
  /\ calculatePriceRange baseMin baseMax (demand_score ctx)
     = (rounded_price baseMin (score_multiplier (demand_score ctx)),
        rounded_price baseMax (score_multiplier (demand_score ctx))).
Proof.
  intro ctx.
  pose proof (context_events cityDemand checkIn checkOut) as Hevents.
  pose proof (context_score cityDemand checkIn checkOut) as Hscore.
  fold ctx in Hevents, Hscore. cbv zeta in Hscore.
  split; [intros t Hdate; exact (context_peak cityDemand checkIn checkOut t Hdate)|].
  split; [exact Hevents|].
  split.
  { rewrite Hevents. apply incl_Forall with (l1 := weighted_events cityDemand).
    - intros ev Hin. apply filter_In in Hin. tauto.
    - apply weighted_events_severity. }
  split; [exact Hscore|].
  split; [rewrite Hscore; apply weighted_score_capped|].
  split; [|reflexivity].
  intros Hpeak Hnone. rewrite Hscore, Hpeak, Hnone. reflexivity.
Qed.

Lemma weighted_score_formula_witness :
  let ctx := @calculateDemandContext Reference.utc_runtime
               (Some Sample.festival_city) "2024-11-04" "2024-11-08" in
  @Date_parse Reference.utc_runtime "2024-11-04" = Some 1730678400000
  /\ is_peak_month ctx = true
  /\ map (fun ev => (name ev, impact ev)) (events ctx)
     = [("Diwali", very_high); ("Trade Fair", low)]
  /\ demand_score ctx = (7205759403792793 # 9007199254740992)%Q
  /\ @calculatePriceRange Reference.utc_runtime 4000%Q 7500%Q (demand_score ctx)
     = (5600, 10500).
Proof.
  intro ctx.
  assert (Hdate : @Date_parse Reference.utc_runtime "2024-11-04" = Some 1730678400000)
    by (vm_compute; reflexivity).
  split; [exact Hdate|].
  destruct (@weighted_score_formula Reference.utc_runtime (Some Sample.festival_city)
              "2024-11-04" "2024-11-08" 4000%Q 7500%Q)
    as (Hpeak & Hevents & _ & Hscore & _ & _ & Hrange).
  fold ctx in Hpeak, Hevents, Hscore, Hrange.
  assert (Hlisted : is_peak_month ctx = true).
  { rewrite (Hpeak _ Hdate). vm_compute. reflexivity. }
  assert (Hlist : map (fun ev => (name ev, impact ev)) (events ctx)
                  = [("Diwali", very_high); ("Trade Fair", low)]).
  { rewrite Hevents. vm_compute. reflexivity. }
  assert (Hvalue : demand_score ctx = (7205759403792793 # 9007199254740992)%Q).
  { rewrite Hscore, Hlisted, Hevents. vm_compute. reflexivity. }
  repeat (split; [assumption|]).
  rewrite Hrange, Hvalue. vm_compute. reflexivity.
Defined.

End WeightedDemand.

Module Handler.

Import JsString Js Exn PredictPrice Spec.
Open Scope string_scope.

(** *** Failures *)

(** Every way through [prepare]: the hotel row, the statistics row, each
    [||] and the API key. *)
Ltac prepare_cases env r :=
  unfold prepare, stat_or, read_hotel, bind;
  destruct (hotel_row env r), (city_stats_row env r); simpl;
  repeat match goal with
         | |- context [if ?b then _ else _] => destruct b
         | |- context [match GEMINI_API_KEY env with _ => _ end] =>
             destruct (GEMINI_API_KEY env)
         end.

Lemma ordinary_message `{Messages} (e : exn) :
  (forall f, startsWith (fault_message f) "RATE_LIMIT:" = false) ->
  ordinary e -> startsWith (message e) "RATE_LIMIT:" = false.
Proof.
  intros Hfaults [f| |status body]; simpl; [apply Hfaults|reflexivity|reflexivity].
Qed.

Lemma prepare_throws `{Runtime} (env : Env) (r : PriceRequest) (e : exn) :
  prepare env r = Throw e -> ordinary e.
Proof.
  prepare_cases env r;
    intro Heq; try discriminate; injection Heq as <-; constructor.
Qed.

Lemma status_429 (status : Z) : Z.eqb status 429 = true -> status = 429.
Proof. apply Z.eqb_eq. Qed.

Lemma getPriceInsight_throws `{Runtime} (payload : PriceInsightPayload)
    (apiKey : string) (gemini : nat -> FetchResult) (calls : nat) (e : exn) :
  fst (getPriceInsightFromGemini payload apiKey gemini calls) = Throw e ->
  ((exists body, gemini calls = Response 429 body) /\ e = Error RATE_LIMIT_MESSAGE)
  \/ ((forall body, gemini calls <> Response 429 body) /\ ordinary e).
Proof.
  unfold getPriceInsightFromGemini. simpl.
  destruct (gemini calls) as [|status body] eqn:Hg.
  - intro Heq. injection Heq as <-. right. split; [discriminate|constructor].
  - destruct (ok status) eqn:Hok; simpl.
    + destruct (JSON_parse body); [discriminate|].
      intro Heq. injection Heq as <-. right. split; [|constructor].
      intros b Hb. injection Hb as -> _. discriminate.
    + destruct (Z.eqb status 429) eqn:H429; intro Heq; injection Heq as <-.
      * apply status_429 in H429. subst. left. eauto.
      * right. split; [|constructor].
        intros b Hb. injection Hb as -> _. discriminate.
Qed.

Lemma getPriceInsight_counts `{Runtime} (payload : PriceInsightPayload)
    (apiKey : string) (gemini : nat -> FetchResult) (calls : nat) :
  snd (getPriceInsightFromGemini payload apiKey gemini calls) = S calls.
Proof. reflexivity. Qed.

(** How the body of the [try] block ends, and what it did to the state. *)
Lemma handle_outcome `{Runtime} (env : Env) (req : Request) (st : State) :
  match fst (handle env req st) with
  | Ok _ => ~ rate_limited env st (snd (handle env req st))
  | Throw e =>
      (e = Error RATE_LIMIT_MESSAGE /\ rate_limited env st (snd (handle env req st)))
      \/ (ordinary e /\ ~ rate_limited env st (snd (handle env req st)))
  end.
Proof.
  assert (Hsame : ~ rate_limited env st st).
  { intros [Hcalls _]. revert Hcalls. apply n_Sn. }
  unfold handle.
  destruct (body req) as [|r]; cbn [fst snd].
  { right. split; [constructor|exact Hsame]. }
  destruct (negb (client_created env)); cbn [fst snd].
  { right. split; [constructor|exact Hsame]. }
  destruct (cachedPrediction env r st) as [c|]; cbn [fst snd]; [exact Hsame|].
  unfold fresh.
  destruct (prepare env r) as [p|e] eqn:Hprep; cbn [fst snd].
  2:{ right. split; [exact (prepare_throws env r e Hprep)|exact Hsame]. }
  pose proof (getPriceInsight_throws (payload p) (geminiApiKey p) (gemini env)
                (gemini_calls st)) as Hthrow.
  pose proof (Recommendation.getPriceInsight_outcome (payload p) (geminiApiKey p)
                (gemini env) (gemini_calls st)) as Hok.
  pose proof (getPriceInsight_counts (payload p) (geminiApiKey p) (gemini env)
                (gemini_calls st)) as Hcount.
  destruct (getPriceInsightFromGemini (payload p) (geminiApiKey p) (gemini env)
              (gemini_calls st)) as [[ai|e] calls]; cbn [fst snd] in *.
  - intros [_ [body Hbody]].
    destruct (Hok ai eq_refl) as (status & b & data & Hg & Hstatus & _).
    rewrite Hbody in Hg. injection Hg as <- _. discriminate.
  - destruct (Hthrow e eq_refl) as [[Hbody ->] | [Hnot Hord]].
    + left. split; [reflexivity|]. split; [exact Hcount|exact Hbody].
    + right. split; [exact Hord|]. intros [_ [body Hbody]]. exact (Hnot body Hbody).
Qed.

Lemma rate_limit_response `{Runtime} `{Messages} (env : Env) :
  error_response env (Error RATE_LIMIT_MESSAGE)
  = {| http_status := 429; http_body := Some (error_body env BUSY 429) |}.
Proof. reflexivity. Qed.

Lemma ordinary_response `{Runtime} `{Messages} (env : Env) (e : exn) :
  startsWith (message e) "RATE_LIMIT:" = false ->
  error_response env e
  = {| http_status := 500; http_body := Some (error_body env (message e) 500) |}.
Proof. intro Hm. unfold error_response. rewrite Hm. reflexivity. Qed.

(** C3. When the provider answers with status 429, the response of the
    handler has status 429 and a body of the shape {error, code,
    timestamp} whose error is the message about the busy service; every
    other failure of the request gives status 500 and a body of the same
    shape.  The texts of the exceptions of the platform are taken not to
    start with the marker of the rate limit. *)
Theorem rate_limit_surfaces_as_429 `{Runtime} `{Messages}
    (env : Env) (req : Request) (st : State) :
  (forall f, startsWith (fault_message f) "RATE_LIMIT:" = false) ->
  let resp := fst (serve env req st) in
  let st' := snd (serve env req st) in
  (rate_limited env st st' ->
   http_status resp = 429 /\ http_body resp = Some (error_body env BUSY 429))
  /\ (forall e,
        method req <> "OPTIONS" -> fst (handle env req st) = Throw e ->
        ~ rate_limited env st st' ->
        http_status resp = 500
        /\ http_body resp = Some (error_body env (message e) 500))
  /\ (~ rate_limited env st st' -> http_status resp = 200 \/ http_status resp = 500).
Proof.
  intros Hfaults resp st'. subst resp st'. unfold serve.
  destruct (String.eqb (method req) "OPTIONS") eqn:Hmethod; cbn [fst snd].
  { split; [|split].
    - intros [Hcalls _]. exfalso. revert Hcalls. apply n_Sn.
    - intros e Hne. apply String.eqb_eq in Hmethod. contradiction.
    - intros _. left. reflexivity. }
  pose proof (handle_outcome env req st) as Hout.
  destruct (handle env req st) as [[answer|e] st1]; cbn [fst snd] in *.
  { split; [|split].
    - intro Hlimited. contradiction.
    - intros e _ Heq. discriminate.
    - intros _. left. reflexivity. }
  destruct Hout as [[-> Hlimited] | [Hord Hnot]].
  - rewrite rate_limit_response. cbn [http_status http_body].
    split; [|split].
    + intros _. split; reflexivity.
    + intros e _ _ Hnot. contradiction.
    + intro Hnot. contradiction.
  - rewrite (ordinary_response env e (ordinary_message e Hfaults Hord)).
    cbn [http_status http_body].
    split; [|split].
    + intro Hlimited. contradiction.
    + intros e' _ Heq _. injection Heq as <-. split; reflexivity.
    + intros _. right. reflexivity.
Qed.

Lemma reference_messages_unmarked (f : fault) :
  startsWith (@fault_message Reference.messages f) "RATE_LIMIT:" = false.
Proof. destruct f; reflexivity. Qed.

Lemma rate_limit_surfaces_as_429_witness :
  (forall f, startsWith (@fault_message Reference.messages f) "RATE_LIMIT:" = false)
  /\ rate_limited
       (Sample.env_at 1730700000000 Sample.festival_city (Response 429 "quota"))
       Sample.empty_state
       (snd (@serve Reference.utc_runtime Reference.messages
               (Sample.env_at 1730700000000 Sample.festival_city (Response 429 "quota"))
               Sample.request Sample.empty_state))
  /\ http_status
       (fst (@serve Reference.utc_runtime Reference.messages
               (Sample.env_at 1730700000000 Sample.festival_city (Response 429 "quota"))
               Sample.request Sample.empty_state))
     = 429.
Proof.
  assert (Hlimited :
            rate_limited
              (Sample.env_at 1730700000000 Sample.festival_city (Response 429 "quota"))
              Sample.empty_state
              (snd (@serve Reference.utc_runtime Reference.messages
                      (Sample.env_at 1730700000000 Sample.festival_city
                         (Response 429 "quota"))
                      Sample.request Sample.empty_state))).
  { split; [vm_compute; reflexivity|]. exists "quota". reflexivity. }
  split; [exact reference_messages_unmarked|].
  split; [exact Hlimited|].
  destruct (@rate_limit_surfaces_as_429 Reference.utc_runtime Reference.messages
              (Sample.env_at 1730700000000 Sample.festival_city (Response 429 "quota"))
              Sample.request Sample.empty_state reference_messages_unmarked)
    as (H429 & _).
  exact (proj1 (H429 Hlimited)).
Defined.

(** *** The prices the handler prepares *)

Lemma prepare_prices `{Runtime} (env : Env) (r : PriceRequest) (p : Prepared) :
  prepare env r = Ok p ->
  let m := demandMultiplier (demand_of (city_demand_row env r) (req_check_in r)) in
  adjustedMin p = adjusted (baseCityMin p) m
  /\ adjustedAvg p = adjusted (baseCityAvg p) m
  /\ adjustedMax p = adjusted (baseCityMax p) m
  /\ calculated_range_min (payload p) = inject_Z (adjustedMin p)
  /\ calculated_range_max (payload p) = inject_Z (adjustedMax p)
  /\ base_avg_price (payload p) = baseCityAvg p.
Proof.
  prepare_cases env r;
    intro Heq; try discriminate; injection Heq as <-; simpl; repeat split.
Qed.

(** In the handler the multiplier is at least 1, so an ordered base range
    gives an ordered adjusted range. *)
Lemma prepared_range_ordered `{Runtime} (env : Env) (r : PriceRequest) (p : Prepared) :
  prepare env r = Ok p ->
  (baseCityMin p <= baseCityAvg p)%Q -> (baseCityAvg p <= baseCityMax p)%Q ->
  (adjustedMin p <= adjustedAvg p <= adjustedMax p)%Z.
Proof.
  intros Hp Hlo Hhi.
  destruct (prepare_prices env r p Hp) as (-> & -> & -> & _).
  destruct (BinaryDemand.demand_of_fields (city_demand_row env r) (req_check_in r))
    as (_ & _ & ->).
  destruct (PriceRange.demand_multiplier_bounds
              (isPeakMonth (demand_of (city_demand_row env r) (req_check_in r)))
              (eventActive (demand_of (city_demand_row env r) (req_check_in r))))
    as [Hone _].
  split; apply PriceRange.adjusted_monotone; lra.
Qed.

(** In the handler the fallback recommends the adjusted range itself. *)
Lemma prepared_fallback_range `{Runtime} (env : Env) (r : PriceRequest) (p : Prepared) :
  prepare env r = Ok p ->
  num_field (fallback (payload p)) "recommended_min_price"
  = Some (inject_Z (adjustedMin p))
  /\ num_field (fallback (payload p)) "recommended_max_price"
     = Some (inject_Z (adjustedMax p)).
Proof.
  intro Hp.
  destruct (prepare_prices env r p Hp) as (_ & _ & _ & Hmin & Hmax & _).
  destruct (Recommendation.fallback_fields (payload p)) as (Fmin & Fmax & _).
  rewrite Fmin, Fmax, Hmin, Hmax, !PriceRange.Math_round_integer. now split.
Qed.

(** *** The cache *)

Lemma assoc_set_same (k : string) (v : json) (l : list (string * json)) :
  assoc k (set k v l) = Some v.
Proof.
  induction l as [|[k' v'] r IH]; simpl.
  - rewrite String.eqb_refl. reflexivity.
  - destruct (String.eqb k k') eqn:Hk; simpl.
    + rewrite String.eqb_refl. reflexivity.
    + rewrite Hk. exact IH.
Qed.

Lemma assoc_set_other (k k' : string) (v : json) (l : list (string * json)) :
  String.eqb k' k = false -> assoc k' (set k v l) = assoc k' l.
Proof.
  intro Hne. induction l as [|[k0 v0] r IH]; simpl.
  - rewrite Hne. reflexivity.
  - destruct (String.eqb k k0) eqn:Hk; simpl.
    + apply String.eqb_eq in Hk. subst k0. rewrite Hne. reflexivity.
    + rewrite IH. reflexivity.
Qed.

Lemma get_spread (v : json) (k : string) : assoc k (spread v) = get v k.
Proof. destruct v; reflexivity. Qed.

(** What the stored recommendation holds: the context under its four
    keys, and under any other key what the recommendation had. *)
Lemma stored_fields `{Runtime} (env : Env) (r : PriceRequest) (p : Prepared)
    (d : Demand) (ai : json) :
  let stored := gemini_response (stored_row env r p d ai) in
  get stored "demand_multiplier" = Some (JNum (demandMultiplier d))
  /\ get stored "event_name" = Some (of_string_opt (eventName d))
  /\ get stored "event_active" = Some (JBool (eventActive d))
  /\ get stored "is_peak_month" = Some (JBool (isPeakMonth d))
  /\ (forall k, context_key k = false -> get stored k = get ai k).
Proof.
  cbn [stored_row gemini_response get].
  split; [apply assoc_set_same|].
  split; [rewrite assoc_set_other by reflexivity; apply assoc_set_same|].
  split; [rewrite !assoc_set_other by reflexivity; apply assoc_set_same|].
  split; [rewrite !assoc_set_other by reflexivity; apply assoc_set_same|].
  intros k Hk. unfold context_key in Hk.
  repeat (apply orb_false_iff in Hk; destruct Hk as [Hk ?]).
  rewrite !assoc_set_other by assumption. apply get_spread.
Qed.

Lemma latest_none (rows : list PricePrediction) : latest rows = None -> rows = [].
Proof.
  destruct rows as [|p rest]; [reflexivity|]. simpl.
  destruct (latest rest) as [q|]; [|discriminate].
  destruct (Z.ltb (created_at p) (created_at q)); discriminate.
Qed.

(** The lookup returns a row that matches the key, is inside the window,
    and is at least as recent as every other such row. *)
Lemma latest_greatest (rows : list PricePrediction) (p : PricePrediction) :
  latest rows = Some p ->
  In p rows /\ forall q, In q rows -> (created_at q <= created_at p)%Z.
Proof.
  revert p. induction rows as [|x rest IH]; intro p; simpl; [discriminate|].
  destruct (latest rest) as [q|] eqn:Hrest.
  - destruct (IH q eq_refl) as [Hin Hmax].
    destruct (Z.ltb (created_at x) (created_at q)) eqn:Hlt; intro Heq;
      injection Heq as <-.
    + apply Z.ltb_lt in Hlt. split; [now right|].
      intros y [<- | Hy]; [lia|now apply Hmax].
    + apply Z.ltb_ge in Hlt. split; [now left|].
      intros y [<- | Hy]; [lia|]. specialize (Hmax y Hy). lia.
  - intro Heq. injection Heq as <-. apply latest_none in Hrest. subst rest.
    split; [now left|]. intros y [<- | []]. lia.
Qed.

Lemma cachedPrediction_latest (env : Env) (r : PriceRequest) (st : State)
    (c : PricePrediction) :
  cachedPrediction env r st = Some c ->
  In c (price_predictions st)
  /\ cache_match r (cacheExpiryTime env) c = true
  /\ (forall q, In q (price_predictions st) ->
                cache_match r (cacheExpiryTime env) q = true ->
                (created_at q <= created_at c)%Z).
Proof.
  unfold cachedPrediction. intro Hc.
  destruct (latest_greatest _ c Hc) as [Hin Hmax].
  apply filter_In in Hin as [Hin Hmatch].
  repeat split; try assumption.
  intros q Hq Hqm. apply Hmax. apply filter_In. now split.
Qed.

Lemma window_moves_forward (r : PriceRequest) (e1 e2 : Z) (rows : list PricePrediction) :
  (e1 <= e2)%Z -> filter (cache_match r e1) rows = [] ->
  filter (cache_match r e2) rows = [].
Proof.
  intros Hle. induction rows as [|x rest IH]; simpl; [reflexivity|].
  destruct (cache_match r e1 x) eqn:H1; [discriminate|]. intro Hrest.
  assert (H2 : cache_match r e2 x = false).
  { unfold cache_match in *.
    destruct (opt_Z_eqb (hotel_id x) (req_hotel_id r) && String.eqb (city x) (req_city r)
              && String.eqb (check_in x) (req_check_in r)
              && String.eqb (check_out x) (req_check_out r)); [|reflexivity].
    simpl in *. apply Z.leb_gt in H1. apply Z.leb_gt. lia. }
  rewrite H2. exact (IH Hrest).
Qed.

Lemma stored_row_matches `{Runtime} (env : Env) (r : PriceRequest) (p : Prepared)
    (d : Demand) (ai : json) (expiry : Z) :
  (expiry <= db_now env)%Z ->
  cache_match r expiry (stored_row env r p d ai) = true.
Proof.
  intro Hle. unfold cache_match, stored_row. simpl.
  rewrite Z.eqb_refl, !String.eqb_refl. simpl. now apply Z.leb_le.
Qed.

(** A request that found no row and stored one is found by the same
    request made later inside the window. *)
Lemma lookup_after_insert `{Runtime} (env1 env2 : Env) (r : PriceRequest) (st : State)
    (p : Prepared) (d : Demand) (ai : json) (calls : nat) :
  cachedPrediction env1 r st = None ->
  (now env1 <= now env2)%Z ->
  (now env2 - CACHE_DURATION_HOURS * 3600000 <= db_now env1)%Z ->
  cachedPrediction env2 r
    {| price_predictions := price_predictions st ++ [stored_row env1 r p d ai];
       gemini_calls := calls |}
  = Some (stored_row env1 r p d ai).
Proof.
  intros Hmiss Hnow Hwindow. unfold cachedPrediction in *. cbn [price_predictions].
  apply latest_none in Hmiss.
  rewrite filter_app.
  rewrite (window_moves_forward r (cacheExpiryTime env1) (cacheExpiryTime env2)).
  - cbn [filter app].
    rewrite (stored_row_matches env1 r p d ai (cacheExpiryTime env2)); [reflexivity|].
    exact Hwindow.
  - unfold cacheExpiryTime. lia.
  - exact Hmiss.
Qed.

Lemma cached_response_fields `{Runtime} (c : PricePrediction) :
  get (cached_response c) "cached" = Some (JBool true)
  /\ get (cached_response c) "ai_recommendation" = Some (gemini_response c)
  /\ chain (get (cached_response c) "demand_context") "is_peak_month"
     = Some (or_else (get (gemini_response c) "is_peak_month") (JBool false))
  /\ chain (get (cached_response c) "demand_context") "event_active"
     = Some (or_else (get (gemini_response c) "event_active") (JBool false))
  /\ chain (get (cached_response c) "demand_context") "event_name"
     = Some (or_else (get (gemini_response c) "event_name") JNull)
  /\ chain (get (cached_response c) "demand_context") "demand_multiplier"
     = Some (or_else (get (gemini_response c) "demand_multiplier") (JNum 1%Q)).
Proof. repeat split. Qed.

Lemma fresh_response_fields (p : Prepared) (d : Demand) (ai : json) :
  get (fresh_response p d ai) "cached" = Some (JBool false)
  /\ get (fresh_response p d ai) "ai_recommendation" = Some ai
  /\ chain (get (fresh_response p d ai) "demand_context") "is_peak_month"
     = Some (JBool (isPeakMonth d))
  /\ chain (get (fresh_response p d ai) "demand_context") "event_active"
     = Some (JBool (eventActive d))
  /\ chain (get (fresh_response p d ai) "demand_context") "event_name"
     = Some (of_string_opt (eventName d))
  /\ chain (get (fresh_response p d ai) "demand_context") "demand_multiplier"
     = Some (JNum (demandMultiplier d)).
Proof. repeat split. Qed.

(** A fresh computation: the cache had no row, and exactly one row is
    offered to the table, which holds it afterwards when the store
    accepts it. *)
Lemma handle_fresh `{Runtime} (env : Env) (req : Request) (st st1 : State)
    (answer : json) :
  handle env req st = (Ok answer, st1) ->
  get answer "cached" = Some (JBool false) ->
  exists r p ai,
    body req = Body r
    /\ client_created env = true
    /\ cachedPrediction env r st = None
    /\ answer = fresh_response p (demand_of (city_demand_row env r) (req_check_in r)) ai
    /\ st1 = {| price_predictions :=
                  if store_accepts env
                       (stored_row env r p
                          (demand_of (city_demand_row env r) (req_check_in r)) ai)
                  then price_predictions st
                       ++ [stored_row env r p
                             (demand_of (city_demand_row env r) (req_check_in r)) ai]
                  else price_predictions st;
                gemini_calls := S (gemini_calls st) |}.
Proof.
  unfold handle.
  destruct (body req) as [|r]; [discriminate|].
  destruct (client_created env); [|discriminate]. cbn [negb].
  destruct (cachedPrediction env r st) as [c|] eqn:Hcache.
  { intro Heq. injection Heq as <- <-. discriminate. }
  unfold fresh.
  destruct (prepare env r) as [p|e]; [|discriminate].
  pose proof (getPriceInsight_counts (payload p) (geminiApiKey p) (gemini env)
                (gemini_calls st)) as Hcount.
  destruct (getPriceInsightFromGemini (payload p) (geminiApiKey p) (gemini env)
              (gemini_calls st)) as [[ai|e] calls]; [|discriminate].
  cbn [snd] in Hcount. subst calls.
  intro Heq. injection Heq as <- <-. intros _.
  exists r, p, ai. repeat split; auto.
Qed.

(** A cache hit: the response is built from the row, and the table is
    left as it was. *)
Lemma handle_cached `{Runtime} (env : Env) (req : Request) (st : State)
    (r : PriceRequest) (c : PricePrediction) :
  body req = Body r -> client_created env = true ->
  cachedPrediction env r st = Some c ->
  handle env req st = (Ok (cached_response c), st).
Proof.
  intros Hbody Hclient Hcache. unfold handle.
  rewrite Hbody, Hclient, Hcache. reflexivity.
Qed.

(** The table grows by at most one row per request, and only with a
    fresh computation. *)
Lemma handle_appends `{Runtime} (env : Env) (req : Request) (st : State) :
  price_predictions (snd (handle env req st)) = price_predictions st
  \/ exists row answer,
       price_predictions (snd (handle env req st)) = (price_predictions st ++ [row])%list
       /\ fst (handle env req st) = Ok answer
       /\ get answer "cached" = Some (JBool false).
Proof.
  unfold handle.
  destruct (body req) as [|r]; [now left|].
  destruct (negb (client_created env)); [now left|].
  destruct (cachedPrediction env r st) as [c|]; [now left|].
  unfold fresh.
  destruct (prepare env r) as [p|e]; [|now left].
  destruct (getPriceInsightFromGemini (payload p) (geminiApiKey p) (gemini env)
              (gemini_calls st)) as [[ai|e] calls]; [|now left].
  cbn [fst snd price_predictions].
  destruct (store_accepts env _); [|now left].
  right. eexists. eexists. repeat split.
Qed.

Lemma multiplier_truthy `{Runtime} (cityDemand : option CityDemand) (checkIn : string) :
  truthy (JNum (demandMultiplier (demand_of cityDemand checkIn))) = true.
Proof.
  destruct (BinaryDemand.demand_of_fields cityDemand checkIn) as (_ & _ & ->).
  destruct (isPeakMonth _), (eventActive _); reflexivity.
Qed.

(** Two identical requests, the second inside the window of the first:
    the first computes and stores one row (the store must accept it), the
    second (which must reach the store) is served from that
    row, stores nothing, and returns the fields of the recommendation and
    the demand context of the first; the event name alone needs the name
    not to be the empty string. *)
Lemma repeated_request_is_cached `{Runtime} (env1 env2 : Env) (req : Request)
    (st st1 : State) (answer : json) :
  handle env1 req st = (Ok answer, st1) ->
  get answer "cached" = Some (JBool false) ->
  (forall row, store_accepts env1 row = true) ->
  client_created env2 = true ->
  (now env1 <= now env2)%Z ->
  (now env2 - CACHE_DURATION_HOURS * 3600000 <= db_now env1)%Z ->
  exists row answer2,
    price_predictions st1 = (price_predictions st ++ [row])%list
    /\ handle env2 req st1 = (Ok answer2, st1)
    /\ get answer2 "cached" = Some (JBool true)
    /\ (forall k, context_key k = false ->
                  chain (get answer2 "ai_recommendation") k
                  = chain (get answer "ai_recommendation") k)
    /\ chain (get answer2 "demand_context") "is_peak_month"
       = chain (get answer "demand_context") "is_peak_month"
    /\ chain (get answer2 "demand_context") "event_active"
       = chain (get answer "demand_context") "event_active"
    /\ chain (get answer2 "demand_context") "demand_multiplier"
       = chain (get answer "demand_context") "demand_multiplier"
    /\ (chain (get answer "demand_context") "event_name" <> Some (JStr "") ->
        chain (get answer2 "demand_context") "event_name"
        = chain (get answer "demand_context") "event_name").
Proof.
  intros Hfirst Hfresh Haccepts Hclient Hnow Hwindow.
  destruct (handle_fresh env1 req st st1 answer Hfirst Hfresh)
    as (r & p & ai & Hbody & _ & Hmiss & -> & ->).
  rewrite Haccepts.
  set (d := demand_of (city_demand_row env1 r) (req_check_in r)).
  set (row := stored_row env1 r p d ai).
  exists row, (cached_response row).
  split; [reflexivity|].
  split.
  { apply (handle_cached env2 req _ r row Hbody Hclient).
    exact (lookup_after_insert env1 env2 r st p d ai _ Hmiss Hnow Hwindow). }
  destruct (cached_response_fields row) as (Hc & Hai & Hpeak & Hactive & Hname & Hmult).
  destruct (fresh_response_fields p d ai) as (_ & Fai & Fpeak & Factive & Fname & Fmult).
  destruct (stored_fields env1 r p d ai) as (Sm & Sn & Sa & Sp & Sother).
  fold row in Sm, Sn, Sa, Sp, Sother.
  split; [exact Hc|].
  split.
  { intros k Hk. rewrite Hai, Fai. cbn [chain]. exact (Sother k Hk). }
  split.
  { rewrite Hpeak, Fpeak, Sp. destruct (isPeakMonth d); reflexivity. }
  split.
  { rewrite Hactive, Factive, Sa. destruct (eventActive d); reflexivity. }
  split.
  { rewrite Hmult, Fmult, Sm. unfold or_else.
    unfold d. rewrite multiplier_truthy. reflexivity. }
  rewrite Hname, Fname, Sn.
  destruct (eventName d) as [n|]; [|reflexivity].
  cbn [of_string_opt or_else truthy].
  destruct (String.eqb n "") eqn:Hn; [|reflexivity].
  apply String.eqb_eq in Hn. subst n. intro Hne. exfalso. now apply Hne.
Qed.

(** C5 (failing input). Two identical requests one hour apart, for a
    city whose events text has an entry without a name whose dates hold
    the check-in date.  The first computes (cached is false) and reports
    the active event under the empty name; the second is served from the
    cache (cached is true) and reports the same active event under the
    name null: the demand context of the two responses differs. *)
Theorem unnamed_event_is_null_when_cached :
  let env1 := Sample.env_at 1730700000000 Sample.unnamed_event_city
                (Response 200 (Sample.reply_with Sample.object_src)) in
  let env2 := Sample.env_at 1730703600000 Sample.unnamed_event_city
                (Response 200 (Sample.reply_with Sample.object_src)) in
  let first := @serve Reference.utc_runtime Reference.messages env1
                 Sample.request Sample.empty_state in
  let second := @serve Reference.utc_runtime Reference.messages env2
                  Sample.request (snd first) in
  top_field (fst first) "cached" = Some (JBool false)
  /\ body_field (fst first) "demand_context" "event_active" = Some (JBool true)
  /\ body_field (fst first) "demand_context" "event_name" = Some (JStr "")
  /\ top_field (fst second) "cached" = Some (JBool true)
  /\ body_field (fst second) "demand_context" "event_active" = Some (JBool true)
  /\ body_field (fst second) "demand_context" "event_name" = Some JNull
  /\ List.length (price_predictions (snd second)) = 1%nat.
Proof. vm_compute. repeat split. Qed.

End Handler.

(** ** The scenarios of the specification, run *)

Module Scenarios.

Import JsString Js Exn PredictPrice Spec.
Open Scope string_scope.

Example event_pattern_reads_an_entry :
  match_event "Diwali (2024-11-01–2024-11-05)"
  = Some ("Diwali", "2024-11-01", "2024-11-05")
  /\ match_event " Trade Fair   (2024-11-03–2024-11-10) and more"
     = Some (" Trade Fair", "2024-11-03", "2024-11-10")
  /\ match_event "Diwali (2024-11-01-2024-11-05)" = None
  /\ match_event "(2024-11-01–2024-11-05)" = None.
Proof. repeat split. Qed.

Example peak_months_are_read_leniently :
  parse_peak_months "10, 11,12" = [Some 10; Some 11; Some 12]
  /\ parse_peak_months "" = [None]
  /\ parse_peak_months "3rd, x" = [Some 3; None].
Proof. repeat split. Qed.

Example no_demand_leaves_the_range :
  let d := @demand_of Reference.utc_runtime None "2024-11-04" in
  (demandMultiplier d == 1)%Q
  /\ adjusted 4000 (demandMultiplier d) = 4000
  /\ adjusted 7500 (demandMultiplier d) = 7500
  /\ get (fallback (Sample.payload_of 4000 7500 5000)) "fairness_label"
     = Some (JStr "fair").
Proof. vm_compute. repeat split. Qed.

Example peak_and_event_give_one_and_a_half :
  let d := @demand_of Reference.utc_runtime (Some Sample.festival_city) "2024-11-04" in
  isPeakMonth d = true /\ eventActive d = true
  /\ (demandMultiplier d == 1.5)%Q
  /\ adjusted 4000 (demandMultiplier d) = 6000
  /\ adjusted 7500 (demandMultiplier d) = 11250.
Proof. vm_compute. repeat split. Qed.

Example severities_by_key_word :
  DemandLib.getEventImpact "Diwali Festival" = DemandLib.very_high
  /\ DemandLib.getEventImpact "Durga Puja" = DemandLib.high
  /\ DemandLib.getEventImpact "Ganesh Puja" = DemandLib.medium
  /\ DemandLib.getEventImpact "Trade Fair" = DemandLib.low.
Proof. repeat split. Qed.

Example weighted_score_of_a_stay :
  let ctx := @DemandLib.calculateDemandContext Reference.utc_runtime
               (Some Sample.festival_city) "2024-11-04" "2024-11-08" in
  map DemandLib.name (DemandLib.events ctx) = ["Diwali"; "Trade Fair"]
  /\ DemandLib.demand_score ctx = (7205759403792793 # 9007199254740992)%Q
  /\ (DemandLib.demand_score ctx < 0.8)%Q
  /\ @DemandLib.calculatePriceRange Reference.utc_runtime 4000%Q 7500%Q
       (DemandLib.demand_score ctx)
     = (5600, 10500).
Proof. vm_compute. repeat split. Qed.

(** The sums and products are those of double precision: 0.3 + 0.4 + 0.1
    is just below 0.8, 1290 and 1350 at a score of 0.3 round to 1483 and
    1552, and 4999 * 0.8 is just above 3999.2. *)
Example double_precision_shows :
  @Js.plus Reference.utc_runtime
    (@Js.plus Reference.utc_runtime (@Js.literal Reference.utc_runtime 0.3%Q)
       (@Js.literal Reference.utc_runtime 0.4%Q))
    (@Js.literal Reference.utc_runtime 0.1%Q)
  = (7205759403792793 # 9007199254740992)%Q
  /\ @DemandLib.calculatePriceRange Reference.utc_runtime 1290%Q 1350%Q
       (@Js.literal Reference.utc_runtime 0.3%Q)
     = (1483, 1552)
  /\ @Js.times Reference.utc_runtime 4999%Q (@Js.literal Reference.utc_runtime 0.8%Q)
     = (8794333803603559 # 2199023255552)%Q
  /\ (3999.2 < @Js.times Reference.utc_runtime 4999%Q
                 (@Js.literal Reference.utc_runtime 0.8%Q))%Q.
Proof. vm_compute. repeat split. Qed.

Example fenced_object_is_returned :
  fst (@getPriceInsightFromGemini Reference.utc_runtime Sample.payload "key"
         (Sample.always (Response 200 (Sample.reply_with Sample.fenced_src))) 0%nat)
  = Ok Sample.object.
Proof. vm_compute. reflexivity. Qed.

End Scenarios.

(** * Further properties of the edge function *)

Module Footprint.

Import JsString Js Exn PredictPrice Spec Notions.
Open Scope string_scope.

Lemma cache_match_servable (r : PriceRequest) (env : Env) (p : PricePrediction) :
  cache_match r (cacheExpiryTime env) p = true <-> servable r (now env) p.
Proof.
  unfold cache_match, servable, cacheExpiryTime, CACHE_DURATION_HOURS, opt_Z_eqb.
  rewrite !andb_true_iff, !String.eqb_eq, Z.leb_le.
  destruct (hotel_id p) as [h|].
  - rewrite Z.eqb_eq. split.
    + intros ((((-> & Hc) & Hi) & Ho) & Ht). repeat split; auto; lia.
    + intros (Hh & Hc & Hi & Ho & Ht). injection Hh as ->. repeat split; auto; lia.
  - split.
    + intros ((((Hh & _) & _) & _) & _). discriminate.
    + intros (Hh & _). discriminate.
Qed.

Lemma latest_some (rows : list PricePrediction) :
  rows <> [] -> latest rows <> None.
Proof.
  destruct rows as [|p rest]; [contradiction|]. intros _. simpl.
  destruct (latest rest) as [q|]; [|discriminate].
  destruct (Z.ltb (created_at p) (created_at q)); discriminate.
Qed.

(** X2. The cache lookup misses exactly when the table has no row with
    the four keys of the request created within the last 24 hours; when
    it hits, the row it returns is such a row and no such row is more
    recent. *)
Theorem lookup_serves_recent_rows_only (env : Env) (r : PriceRequest) (st : State) :
  (cachedPrediction env r st = None
   <-> forall p, In p (price_predictions st) -> ~ servable r (now env) p)
  /\ (forall c, cachedPrediction env r st = Some c ->
                In c (price_predictions st) /\ servable r (now env) c
                /\ forall p, In p (price_predictions st) -> servable r (now env) p ->
                              created_at p <= created_at c).
Proof.
  split.
  - unfold cachedPrediction. split.
    + intros Hnone p Hin Hserv.
      apply Handler.latest_none in Hnone.
      assert (Hp : In p (filter (cache_match r (cacheExpiryTime env))
                                (price_predictions st))).
      { apply filter_In. split; [exact Hin|]. now apply cache_match_servable. }
      rewrite Hnone in Hp. exact Hp.
    + intro Hno.
      destruct (filter (cache_match r (cacheExpiryTime env)) (price_predictions st))
        as [|p rest] eqn:Hf; [reflexivity|].
      exfalso. assert (Hp : In p (p :: rest)) by now left.
      rewrite <- Hf in Hp. apply filter_In in Hp as [Hin Hm].
      apply (Hno p Hin). now apply cache_match_servable.
  - intros c Hc.
    destruct (Handler.cachedPrediction_latest env r st c Hc) as (Hin & Hm & Hmax).
    split; [exact Hin|]. split; [now apply cache_match_servable|].
    intros p Hp Hs. apply Hmax; [exact Hp|]. now apply cache_match_servable.
Qed.

Lemma lookup_serves_recent_rows_only_witness :
  cachedPrediction (MoreSamples.bare_env 1730700000000) Sample.stay MoreSamples.table
  = Some (MoreSamples.row_at 1730696400000)
  /\ In (MoreSamples.row_at 1730696400000) (price_predictions MoreSamples.table)
  /\ servable Sample.stay 1730700000000 (MoreSamples.row_at 1730696400000).
Proof.
  assert (Hhit : cachedPrediction (MoreSamples.bare_env 1730700000000) Sample.stay
                   MoreSamples.table
                 = Some (MoreSamples.row_at 1730696400000))
    by (vm_compute; reflexivity).
  split; [exact Hhit|].
  destruct (lookup_serves_recent_rows_only (MoreSamples.bare_env 1730700000000)
              Sample.stay MoreSamples.table) as [_ Hsome].
  destruct (Hsome _ Hhit) as (Hin & Hserv & _).
  split; assumption.
Defined.

(** What one run of the body of the [try] block does to the state. *)
Lemma handle_effects `{Runtime} (env : Env) (req : Request) (st : State) :
  snd (handle env req st) = st
  \/ (gemini_calls (snd (handle env req st)) = S (gemini_calls st)
      /\ ((price_predictions (snd (handle env req st)) = price_predictions st
           /\ exists e, fst (handle env req st) = Throw e)
          \/ exists answer,
               fst (handle env req st) = Ok answer
               /\ get answer "cached" = Some (JBool false)
               /\ (price_predictions (snd (handle env req st)) = price_predictions st
                   \/ exists row,
                        price_predictions (snd (handle env req st))
                        = (price_predictions st ++ [row])%list))).
Proof.
  unfold handle.
  destruct (body req) as [|r]; [now left|].
  destruct (negb (client_created env)); [now left|].
  destruct (cachedPrediction env r st) as [c|]; [now left|].
  unfold fresh.
  destruct (prepare env r) as [p|e]; [|now left].
  pose proof (Handler.getPriceInsight_counts (payload p) (geminiApiKey p) (gemini env)
                (gemini_calls st)) as Hcount.
  destruct (getPriceInsightFromGemini (payload p) (geminiApiKey p) (gemini env)
              (gemini_calls st)) as [[ai|e] calls]; cbn [fst snd] in *; subst calls;
    right; (split; [reflexivity|]).
  - right. eexists. split; [reflexivity|]. split; [reflexivity|].
    cbn [price_predictions].
    destruct (store_accepts env _); [right; eexists; reflexivity|now left].
  - left. split; [reflexivity|]. now exists e.
Qed.

Lemma error_response_status `{Runtime} `{Messages} (env : Env) (e : exn) :
  http_status (error_response env e) <> 200.
Proof.
  unfold error_response.
  destruct (startsWith (message e) "RATE_LIMIT:"); cbn [http_status]; discriminate.
Qed.

(** X1. What a request may do.  It sends at most one request to the
    provider.  It adds at most one row to the table, and only together
    with a response of status 200 whose cached flag is false and with
    exactly one request to the provider.  A request whose lookup hits
    changes nothing at all: no request to the provider, no row.  A
    response whose status is not 200 leaves the table as it was. *)
Theorem request_footprint `{Runtime} `{Messages}
    (env : Env) (req : Request) (st : State) :
  let resp := fst (serve env req st) in
  let st' := snd (serve env req st) in
  (gemini_calls st' = gemini_calls st \/ gemini_calls st' = S (gemini_calls st))
  /\ (price_predictions st' = price_predictions st
      \/ exists row,
           price_predictions st' = (price_predictions st ++ [row])%list
           /\ http_status resp = 200
           /\ top_field resp "cached" = Some (JBool false)
           /\ gemini_calls st' = S (gemini_calls st))
  /\ (forall r c,
        body req = Body r -> cachedPrediction env r st = Some c -> st' = st)
  /\ (http_status resp <> 200 -> price_predictions st' = price_predictions st).
Proof.
  intros resp st'. subst resp st'. unfold serve.
  destruct (String.eqb (method req) "OPTIONS"); cbn [fst snd].
  { repeat split; auto. }
  pose proof (handle_effects env req st) as Heff.
  assert (Hhit : forall r c, body req = Body r -> cachedPrediction env r st = Some c ->
                             snd (handle env req st) = st).
  { intros r c Hbody Hc. unfold handle. rewrite Hbody, Hc.
    destruct (negb (client_created env)); reflexivity. }
  destruct (handle env req st) as [out st1]; cbn [fst snd] in *.
  split; [|split; [|split]].
  - destruct Heff as [-> | [Hcalls _]]; auto.
  - destruct Heff
      as [-> | [Hcalls [[Htable _] | (answer & -> & Hfresh & [Htable | [row Htable]])]]];
      [now left | now left | now left |].
    right. exists row. cbn [http_status top_field http_body]. auto.
  - exact Hhit.
  - destruct Heff as [-> | [Hcalls [[Htable _] | (answer & -> & Hfresh & _)]]];
      auto.
    cbn [http_status]. intro Hne. now contradiction Hne.
Qed.

Lemma not_options (req : Request) :
  method req <> "OPTIONS" -> String.eqb (method req) "OPTIONS" = false.
Proof. intro Hne. apply String.eqb_neq. exact Hne. Qed.

Lemma prepare_keyless `{Runtime} (env : Env) (r : PriceRequest) (h : Hotel) :
  hotel_row env r = Some h -> is_set (GEMINI_API_KEY env) = false ->
  prepare env r = Throw (Error "Gemini API key not configured").
Proof.
  intros Hhotel Hkey. unfold prepare, stat_or, read_hotel, bind. rewrite Hhotel.
  unfold is_set in Hkey.
  destruct (GEMINI_API_KEY env) as [key|].
  - apply negb_false_iff in Hkey. rewrite Hkey.
    destruct (city_stats_row env r); simpl;
      repeat match goal with
             | |- context [if ?b then _ else _] => destruct b
             end; reflexivity.
  - destruct (city_stats_row env r); simpl;
      repeat match goal with
             | |- context [if ?b then _ else _] => destruct b
             end; reflexivity.
Qed.

(** X3. A request that misses the cache, for a hotel that exists, when
    the API key of the provider is not set (or is the empty string): the
    response has status 500 and the error text about the key, the
    provider is not called and nothing is stored. *)
Theorem missing_key_is_reported `{Runtime} `{Messages}
    (env : Env) (req : Request) (st : State) (r : PriceRequest) (h : Hotel) :
  method req <> "OPTIONS" -> body req = Body r -> client_created env = true ->
  cachedPrediction env r st = None -> hotel_row env r = Some h ->
  is_set (GEMINI_API_KEY env) = false ->
  serve env req st
  = ({| http_status := 500;
        http_body := Some (error_body env "Gemini API key not configured" 500) |}, st).
Proof.
  intros Hmethod Hbody Hclient Hmiss Hhotel Hkey.
  unfold serve, handle, fresh.
  rewrite (not_options req Hmethod), Hbody, Hclient, Hmiss.
  rewrite (prepare_keyless env r h Hhotel Hkey). reflexivity.
Qed.

Lemma missing_key_is_reported_witness :
  method Sample.request <> "OPTIONS"
  /\ http_status
       (fst (@serve Reference.utc_runtime Reference.messages
               (MoreSamples.keyless_env 1730700000000) Sample.request Sample.empty_state))
     = 500
  /\ snd (@serve Reference.utc_runtime Reference.messages
            (MoreSamples.keyless_env 1730700000000) Sample.request Sample.empty_state)
     = Sample.empty_state.
Proof.
  assert (Hmethod : method Sample.request <> "OPTIONS") by discriminate.
  split; [exact Hmethod|].
  rewrite (@missing_key_is_reported Reference.utc_runtime Reference.messages
             (MoreSamples.keyless_env 1730700000000) Sample.request Sample.empty_state
             Sample.stay Sample.hotel Hmethod eq_refl eq_refl eq_refl eq_refl eq_refl).
  split; reflexivity.
Defined.

Lemma prepare_hotelless `{Runtime} (env : Env) (r : PriceRequest) :
  hotel_row env r = None ->
  exists property,
    (property = "price_per_night" \/ property = "hotel_name")
    /\ prepare env r = Throw (Fault (ReadOfNull property)).
Proof.
  intro Hhotel. unfold prepare, stat_or, read_hotel, bind. rewrite Hhotel.
  destruct (city_stats_row env r); simpl;
    repeat match goal with
           | |- context [if ?b then _ else _] => destruct b
           end;
    (exists "price_per_night"; split; [now left|reflexivity])
    || (exists "hotel_name"; split; [now right|reflexivity]).
Qed.

(** X4. A request that misses the cache for a hotel that is not in the
    table: the first read of a property of the missing hotel throws, the
    response has status 500 with the text of that exception, whether or
    not the city has statistics and whether or not the API key is set;
    the provider is not called and nothing is stored.  The texts of the
    exceptions of the platform are taken not to start with the marker of
    the rate limit. *)
Theorem missing_hotel_is_a_server_error `{Runtime} `{Messages}
    (env : Env) (req : Request) (st : State) (r : PriceRequest) :
  (forall f, startsWith (fault_message f) "RATE_LIMIT:" = false) ->
  method req <> "OPTIONS" -> body req = Body r -> client_created env = true ->
  cachedPrediction env r st = None -> hotel_row env r = None ->
  exists property,
    (property = "price_per_night" \/ property = "hotel_name")
    /\ serve env req st
       = ({| http_status := 500;
             http_body :=
               Some (error_body env (fault_message (ReadOfNull property)) 500) |}, st).
Proof.
  intros Hfaults Hmethod Hbody Hclient Hmiss Hhotel.
  destruct (prepare_hotelless env r Hhotel) as (property & Hprop & Hthrow).
  exists property. split; [exact Hprop|].
  unfold serve, handle, fresh.
  rewrite (not_options req Hmethod), Hbody, Hclient, Hmiss, Hthrow. cbn [negb].
  rewrite (Handler.ordinary_response env (Fault (ReadOfNull property)))
    by apply Hfaults.
  reflexivity.
Qed.

Lemma missing_hotel_is_a_server_error_witness :
  (forall f, startsWith (@fault_message Reference.messages f) "RATE_LIMIT:" = false)
  /\ method Sample.request <> "OPTIONS"
  /\ exists property,
       (property = "price_per_night" \/ property = "hotel_name")
       /\ @serve Reference.utc_runtime Reference.messages
            (MoreSamples.bare_env 1730700000000) Sample.request Sample.empty_state
          = ({| http_status := 500;
                http_body :=
                  Some (@error_body Reference.utc_runtime
                          (MoreSamples.bare_env 1730700000000)
                          (@fault_message Reference.messages (ReadOfNull property))
                          500) |},
             Sample.empty_state).
Proof.
  assert (Hmethod : method Sample.request <> "OPTIONS") by discriminate.
  split; [exact Handler.reference_messages_unmarked|].
  split; [exact Hmethod|].
  exact (@missing_hotel_is_a_server_error Reference.utc_runtime Reference.messages
           (MoreSamples.bare_env 1730700000000) Sample.request Sample.empty_state
           Sample.stay Handler.reference_messages_unmarked Hmethod
           eq_refl eq_refl eq_refl eq_refl).
Defined.

Lemma error_response_uncached `{Runtime} `{Messages} (env : Env) (e : exn) :
  top_field (error_response env e) "cached" = None.
Proof.
  unfold error_response.
  destruct (startsWith (message e) "RATE_LIMIT:"); reflexivity.
Qed.

(** A response whose cached flag is false comes from a fresh
    computation: what was prepared, what the provider gave, and the row
    that was offered to the store, which the table holds afterwards when
    the store accepts it. *)
Lemma serve_fresh `{Runtime} `{Messages} (env : Env) (req : Request) (st : State) :
  top_field (fst (serve env req st)) "cached" = Some (JBool false) ->
  exists r p ai,
    String.eqb (method req) "OPTIONS" = false
    /\ body req = Body r
    /\ client_created env = true
    /\ cachedPrediction env r st = None
    /\ prepare env r = Ok p
    /\ fst (serve env req st)
       = {| http_status := 200;
            http_body :=
              Some (fresh_response p
                      (demand_of (city_demand_row env r) (req_check_in r)) ai) |}
    /\ snd (serve env req st)
       = {| price_predictions :=
              if store_accepts env
                   (stored_row env r p
                      (demand_of (city_demand_row env r) (req_check_in r)) ai)
              then (price_predictions st
                    ++ [stored_row env r p
                          (demand_of (city_demand_row env r) (req_check_in r)) ai])%list
              else price_predictions st;
            gemini_calls := S (gemini_calls st) |}.
Proof.
  unfold serve.
  destruct (String.eqb (method req) "OPTIONS"); [discriminate|].
  unfold handle.
  destruct (body req) as [|r]; cbn [fst snd].
  { rewrite error_response_uncached. discriminate. }
  destruct (client_created env); cbn [negb fst snd].
  2:{ rewrite error_response_uncached. discriminate. }
  destruct (cachedPrediction env r st) as [c|] eqn:Hcache; cbn [fst snd].
  { discriminate. }
  unfold fresh.
  destruct (prepare env r) as [p|e] eqn:Hp; cbn [fst snd].
  2:{ rewrite error_response_uncached. discriminate. }
  pose proof (Handler.getPriceInsight_counts (payload p) (geminiApiKey p) (gemini env)
                (gemini_calls st)) as Hcount.
  destruct (getPriceInsightFromGemini (payload p) (geminiApiKey p) (gemini env)
              (gemini_calls st)) as [[ai|e] calls]; cbn [fst snd] in *; subst calls.
  2:{ rewrite error_response_uncached. discriminate. }
  intros _. exists r, p, ai. repeat split; try reflexivity; assumption.
Qed.

Lemma Qfloor_unique (y : Q) (b : Z) :
  (inject_Z b <= y)%Q -> (y < inject_Z b + 1)%Q -> Qfloor y = b.
Proof.
  intros Hlo Hhi.
  assert (Hge : b <= Qfloor y).
  { rewrite <- (Qfloor_Z b). now apply Qfloor_resp_le. }
  assert (Hle : Qfloor y < b + 1).
  { rewrite Zlt_Qlt, inject_Z_plus. change (inject_Z 1) with 1%Q.
    pose proof (Qfloor_le y). lra. }
  lia.
Qed.

(** Dividing a rounded product by a factor of at least one and rounding
    again gives back a whole number. *)
Lemma round_trip_whole (q m : Q) (b : Z) :
  (q == inject_Z b)%Q -> (1 <= m)%Q ->
  Math_round (inject_Z (Math_round (q * m)%Q) / m)%Q = b.
Proof.
  intros Hq Hm. unfold Math_round.
  set (k := Qfloor (q * m + (1 # 2))%Q).
  assert (Hk1 : (inject_Z k <= q * m + (1 # 2))%Q) by apply Qfloor_le.
  assert (Hk2 : (q * m + (1 # 2) < inject_Z k + 1)%Q).
  { pose proof (Qlt_floor (q * m + (1 # 2))) as Hlt. fold k in Hlt.
    rewrite inject_Z_plus in Hlt. exact Hlt. }
  assert (Hm0 : ~ (m == 0)%Q) by lra.
  set (x := (inject_Z k / m)%Q).
  assert (Hx : (x * m == inject_Z k)%Q).
  { unfold x. field. exact Hm0. }
  apply Qfloor_unique.
  - destruct (Qlt_le_dec (x + (1 # 2)) (inject_Z b)) as [Hlt|Hge]; [|exact Hge].
    exfalso. assert (Hprod : (x * m <= (inject_Z b - (1 # 2)) * m)%Q).
    { apply Qmult_le_compat_r; lra. }
    rewrite Hx in Hprod. rewrite Hq in Hk2. nra.
  - destruct (Qlt_le_dec (x + (1 # 2)) (inject_Z b + 1)) as [Hlt|Hge]; [exact Hlt|].
    exfalso. assert (Hprod : ((inject_Z b + (1 # 2)) * m <= x * m)%Q).
    { apply Qmult_le_compat_r; lra. }
    rewrite Hx in Hprod. rewrite Hq in Hk1.
    assert (Hone : (m == 1)%Q) by nra.
    assert (Hkb : k = b).
    { unfold k. apply Qfloor_unique; rewrite Hq, Hone; lra. }
    rewrite Hkb in Hprod. rewrite Hone in Hprod. lra.
Qed.

Lemma multiplier_at_least_one `{Runtime} (cityDemand : option CityDemand)
    (checkIn : string) :
  (1 <= demandMultiplier (demand_of cityDemand checkIn))%Q.
Proof.
  destruct (BinaryDemand.demand_of_fields cityDemand checkIn) as (_ & _ & ->).
  apply PriceRange.demand_multiplier_bounds.
Qed.

Lemma round_div_multiplier `{Runtime} (x m : Q) :
  (forall q, ToNumber (JNum q) = Some q) -> (1 <= m)%Q ->
  round_div x (JNum m) = Some (inject_Z (Math_round (x / m)%Q)).
Proof.
  intros Hnum Hm. unfold round_div. rewrite Hnum.
  destruct (Qeq_bool m 0) eqn:Hz; [|reflexivity].
  apply Qeq_bool_iff in Hz. lra.
Qed.

Lemma cached_response_prices `{Runtime} (c : PricePrediction) :
  let m := or_else (get (gemini_response c) "demand_multiplier") (JNum 1%Q) in
  let lo := column (calculated_min c) in
  let hi := column (calculated_max c) in
  get (cached_response c) "cached" = Some (JBool true)
  /\ chain (get (cached_response c) "adjusted_prices") "min"
     = Some (of_number (calculated_min c))
  /\ chain (get (cached_response c) "adjusted_prices") "max"
     = Some (of_number (calculated_max c))
  /\ chain (get (cached_response c) "adjusted_prices") "avg"
     = Some (JNum (inject_Z (Math_round ((lo + hi) / 2)%Q)))
  /\ chain (get (cached_response c) "adjusted_prices") "multiplier" = Some m
  /\ chain (get (cached_response c) "base_city_prices") "min"
     = Some (of_number (round_div lo m))
  /\ chain (get (cached_response c) "base_city_prices") "avg"
     = Some (of_number (round_div ((lo + hi) / 2)%Q m))
  /\ chain (get (cached_response c) "base_city_prices") "max"
     = Some (of_number (round_div hi m)).
Proof. repeat split. Qed.

Lemma fresh_response_prices (p : Prepared) (d : Demand) (ai : json) :
  chain (get (fresh_response p d ai) "adjusted_prices") "min"
  = Some (of_Z (adjustedMin p))
  /\ chain (get (fresh_response p d ai) "adjusted_prices") "avg"
     = Some (of_Z (adjustedAvg p))
  /\ chain (get (fresh_response p d ai) "adjusted_prices") "max"
     = Some (of_Z (adjustedMax p))
  /\ chain (get (fresh_response p d ai) "adjusted_prices") "multiplier"
     = Some (JNum (demandMultiplier d))
  /\ chain (get (fresh_response p d ai) "base_city_prices") "min"
     = Some (JNum (baseCityMin p))
  /\ chain (get (fresh_response p d ai) "base_city_prices") "avg"
     = Some (JNum (baseCityAvg p))
  /\ chain (get (fresh_response p d ai) "base_city_prices") "max"
     = Some (JNum (baseCityMax p)).
Proof. repeat split. Qed.

(** X5. The prices of a repeated request.  When a request was computed
    afresh and its row reached the table (the store may refuse the
    insertion, and the handler does not look at the result), and the same
    request comes again inside the window, the second
    response is served from the row stored by the first, and its adjusted
    minimum, adjusted maximum and multiplier are those of the first
    response.  Its adjusted average is not read from anywhere: it is the
    rounded midpoint of the adjusted minimum and maximum.  Its base
    minimum and maximum are obtained by dividing the adjusted ones by the
    multiplier and rounding, which gives back the base prices of the first
    response when these are whole numbers.  The coercion of a number to a
    number is taken to be the number itself. *)
Theorem cached_prices_round_trip `{Runtime} `{Messages}
    (env1 env2 : Env) (req : Request) (st : State) :
  (forall q, ToNumber (JNum q) = Some q) ->
  top_field (fst (serve env1 req st)) "cached" = Some (JBool false) ->
  price_predictions (snd (serve env1 req st)) <> price_predictions st ->
  client_created env2 = true ->
  now env1 <= now env2 ->
  now env2 - CACHE_DURATION_HOURS * 3600000 <= db_now env1 ->
  let first := fst (serve env1 req st) in
  let second := fst (serve env2 req (snd (serve env1 req st))) in
  top_field second "cached" = Some (JBool true)
  /\ body_field second "adjusted_prices" "min" = body_field first "adjusted_prices" "min"
  /\ body_field second "adjusted_prices" "max" = body_field first "adjusted_prices" "max"
  /\ body_field second "adjusted_prices" "multiplier"
     = body_field first "adjusted_prices" "multiplier"
  /\ (exists lo hi,
        body_field first "adjusted_prices" "min" = Some (of_Z lo)
        /\ body_field first "adjusted_prices" "max" = Some (of_Z hi)
        /\ body_field second "adjusted_prices" "avg"
           = Some (of_Z (Math_round ((inject_Z lo + inject_Z hi) / 2)%Q)))
  /\ (forall q b,
        body_field first "base_city_prices" "min" = Some (JNum q) ->
        (q == inject_Z b)%Q ->
        body_field second "base_city_prices" "min" = Some (of_Z b))
  /\ (forall q b,
        body_field first "base_city_prices" "max" = Some (JNum q) ->
        (q == inject_Z b)%Q ->
        body_field second "base_city_prices" "max" = Some (of_Z b)).
Proof.
  intros Hnum Hfresh Hstored Hclient Hnow Hwindow first second. subst first second.
  revert Hstored.
  destruct (serve_fresh env1 req st Hfresh)
    as (r & p & ai & Hmethod & Hbody & _ & Hmiss & Hp & -> & ->).
  cbn [price_predictions].
  destruct (store_accepts env1 _); [intros _|intro Hstored; now contradiction Hstored].
  set (d := demand_of (city_demand_row env1 r) (req_check_in r)).
  set (row := stored_row env1 r p d ai).
  assert (Hsecond : fst (serve env2 req
                           {| price_predictions := (price_predictions st ++ [row])%list;
                              gemini_calls := S (gemini_calls st) |})
                    = {| http_status := 200; http_body := Some (cached_response row) |}).
  { unfold serve. rewrite Hmethod.
    rewrite (Handler.handle_cached env2 req _ r row Hbody Hclient
               (Handler.lookup_after_insert env1 env2 r st p d ai _ Hmiss Hnow Hwindow)).
    reflexivity. }
  rewrite Hsecond. unfold body_field, top_field. cbn [http_body].
  destruct (cached_response_prices row)
    as (Ccached & Cmin & Cmax & Cavg & Cmult & Cbmin & _ & Cbmax).
  destruct (fresh_response_prices p d ai) as (Fmin & _ & Fmax & Fmult & Fbmin & _ & Fbmax).
  destruct (Handler.stored_fields env1 r p d ai) as (Sm & _).
  fold row in Sm.
  assert (Hm : or_else (get (gemini_response row) "demand_multiplier") (JNum 1%Q)
               = JNum (demandMultiplier d)).
  { rewrite Sm. unfold or_else, d. rewrite Handler.multiplier_truthy. reflexivity. }
  rewrite Hm in Cmult, Cbmin, Cbmax.
  destruct (Handler.prepare_prices env1 r p Hp) as (Pmin & _ & Pmax & _).
  fold d in Pmin, Pmax.
  pose proof (multiplier_at_least_one (city_demand_row env1 r) (req_check_in r)) as Hone.
  fold d in Hone.
  rewrite Ccached, Cmin, Cmax, Cavg, Cmult, Cbmin, Cbmax, Fmin, Fmax, Fmult, Fbmin, Fbmax.
  split; [reflexivity|].
  split; [reflexivity|].
  split; [reflexivity|].
  split; [reflexivity|].
  split.
  { exists (adjustedMin p), (adjustedMax p). repeat split. }
  split.
  - intros q b Hq Hqb. injection Hq as <-.
    cbn [row stored_row calculated_min column].
    rewrite (round_div_multiplier _ _ Hnum Hone). cbn [of_number]. unfold of_Z.
    rewrite Pmin. unfold adjusted.
    rewrite (round_trip_whole _ _ b Hqb Hone). reflexivity.
  - intros q b Hq Hqb. injection Hq as <-.
    cbn [row stored_row calculated_max column].
    rewrite (round_div_multiplier _ _ Hnum Hone). cbn [of_number]. unfold of_Z.
    rewrite Pmax. unfold adjusted.
    rewrite (round_trip_whole _ _ b Hqb Hone). reflexivity.
Qed.

Lemma cached_prices_round_trip_witness :
  let env1 := Sample.env_at 1730700000000 Sample.festival_city
                (Response 200 (Sample.reply_with Sample.object_src)) in
  let env2 := Sample.env_at 1730703600000 Sample.festival_city
                (Response 200 (Sample.reply_with Sample.object_src)) in
  let first := @serve Reference.utc_runtime Reference.messages env1
                 Sample.request Sample.empty_state in
  let second := @serve Reference.utc_runtime Reference.messages env2
                  Sample.request (snd first) in
  (forall q, @ToNumber Reference.utc_runtime (JNum q) = Some q)
  /\ top_field (fst first) "cached" = Some (JBool false)
  /\ price_predictions (snd first) <> price_predictions Sample.empty_state
  /\ client_created env2 = true
  /\ now env1 <= now env2
  /\ now env2 - CACHE_DURATION_HOURS * 3600000 <= db_now env1
  /\ body_field (fst first) "base_city_prices" "min" = Some (JNum 4000%Q)
  /\ body_field (fst second) "base_city_prices" "min" = Some (of_Z 4000).
Proof.
  intros env1 env2 first second.
  assert (Hnum : forall q, @ToNumber Reference.utc_runtime (JNum q) = Some q)
    by (intro q; reflexivity).
  assert (Hfresh : top_field (fst first) "cached" = Some (JBool false))
    by (vm_compute; reflexivity).
  assert (Hstored : price_predictions (snd first)
                    <> price_predictions Sample.empty_state)
    by (vm_compute; discriminate).
  assert (Hclient : client_created env2 = true) by reflexivity.
  assert (Hnow : now env1 <= now env2) by (vm_compute; discriminate).
  assert (Hwindow : now env2 - CACHE_DURATION_HOURS * 3600000 <= db_now env1)
    by (vm_compute; discriminate).
  assert (Hbase : body_field (fst first) "base_city_prices" "min" = Some (JNum 4000%Q))
    by (vm_compute; reflexivity).
  repeat (split; [assumption|]).
  destruct (@cached_prices_round_trip Reference.utc_runtime Reference.messages
              env1 env2 Sample.request Sample.empty_state
              Hnum Hfresh Hstored Hclient Hnow Hwindow) as (_ & _ & _ & _ & _ & Hmin & _).
  apply (Hmin 4000%Q 4000 Hbase). reflexivity.
Defined.

Lemma prepare_statless `{Runtime} (env : Env) (r : PriceRequest) (h : Hotel)
    (p : Prepared) :
  hotel_row env r = Some h -> city_stats_row env r = None -> prepare env r = Ok p ->
  baseCityMin p = times (price_per_night h) (literal 0.8%Q)
  /\ baseCityAvg p = price_per_night h
  /\ baseCityMax p = times (price_per_night h) (literal 1.5%Q).
Proof.
  intros Hhotel Hstats. unfold prepare, stat_or, read_hotel, bind.
  rewrite Hhotel, Hstats. simpl.
  destruct (GEMINI_API_KEY env) as [key|]; [|discriminate].
  destruct (String.eqb key ""); [discriminate|].
  intro Heq. injection Heq as <-. simpl. repeat split.
Qed.

(** X6. A city without a row of price statistics: the price of the hotel
    stands in.  The base prices of a fresh response are then the products
    of the price per night of the hotel with 0.8 and with 1.5, as the
    platform computes them in double precision, and the price itself; and
    for a price that is not negative the adjusted prices of the response
    are ordered: minimum, average, maximum.  The price is a number of the
    platform, that is, a double. *)
Theorem hotel_price_stands_in_for_statistics `{Runtime} `{Messages}
    (env : Env) (req : Request) (st : State) (r : PriceRequest) (h : Hotel) :
  DoubleLaws ->
  body req = Body r -> hotel_row env r = Some h -> city_stats_row env r = None ->
  (to_double (price_per_night h) == price_per_night h)%Q ->
  (0 <= price_per_night h)%Q ->
  let resp := fst (serve env req st) in
  top_field resp "cached" = Some (JBool false) ->
  body_field resp "base_city_prices" "min"
  = Some (JNum (times (price_per_night h) (literal 0.8%Q)))
  /\ body_field resp "base_city_prices" "avg" = Some (JNum (price_per_night h))
  /\ body_field resp "base_city_prices" "max"
     = Some (JNum (times (price_per_night h) (literal 1.5%Q)))
  /\ exists lo avg hi,
       body_field resp "adjusted_prices" "min" = Some (of_Z lo)
       /\ body_field resp "adjusted_prices" "avg" = Some (of_Z avg)
       /\ body_field resp "adjusted_prices" "max" = Some (of_Z hi)
       /\ lo <= avg <= hi.
Proof.
  intros laws Hbody Hhotel Hstats Hdouble Hprice resp Hfresh. subst resp.
  destruct (serve_fresh env req st Hfresh)
    as (r' & p & ai & _ & Hbody' & _ & _ & Hp & -> & _).
  rewrite Hbody in Hbody'. injection Hbody' as <-.
  destruct (prepare_statless env r h p Hhotel Hstats Hp) as (Hmin & Havg & Hmax).
  unfold body_field. cbn [http_body].
  destruct (fresh_response_prices p
              (demand_of (city_demand_row env r) (req_check_in r)) ai)
    as (Fmin & Favg & Fmax & _ & Fbmin & Fbavg & Fbmax).
  rewrite Fmin, Favg, Fmax, Fbmin, Fbavg, Fbmax, Hmin, Havg, Hmax.
  repeat (split; [reflexivity|]).
  exists (adjustedMin p), (adjustedAvg p), (adjustedMax p).
  repeat (split; [reflexivity|]).
  apply (Handler.prepared_range_ordered env r p Hp); rewrite ?Hmin, ?Havg, ?Hmax.
  - apply (Doubles.times_shrinks laws); [exact Hdouble|exact Hprice|lra].
  - apply (Doubles.times_stretches laws); [exact Hdouble|exact Hprice|lra].
Qed.

Lemma hotel_price_stands_in_for_statistics_witness :
  let env := MoreSamples.odd_env 1730700000000
               (Response 200 (Sample.reply_with Sample.object_src)) in
  let resp := fst (@serve Reference.utc_runtime Reference.messages env
                     Sample.request Sample.empty_state) in
  @DoubleLaws Reference.utc_runtime
  /\ (@to_double Reference.utc_runtime 4999 == 4999)%Q
  /\ (0 <= price_per_night MoreSamples.odd_hotel)%Q
  /\ top_field resp "cached" = Some (JBool false)
  /\ body_field resp "base_city_prices" "min"
     = Some (JNum (8794333803603559 # 2199023255552)%Q)
  /\ body_field resp "base_city_prices" "max" = Some (JNum (14997 # 2)%Q).
Proof.
  intros env resp.
  assert (Hdouble : (@to_double Reference.utc_runtime
                       (price_per_night MoreSamples.odd_hotel)
                     == price_per_night MoreSamples.odd_hotel)%Q)
    by (vm_compute; reflexivity).
  assert (Hprice : (0 <= price_per_night MoreSamples.odd_hotel)%Q)
    by (vm_compute; discriminate).
  assert (Hfresh : top_field resp "cached" = Some (JBool false))
    by (vm_compute; reflexivity).
  split; [exact Doubles.reference_doubles|].
  split; [exact Hdouble|]. split; [exact Hprice|]. split; [exact Hfresh|].
  destruct (@hotel_price_stands_in_for_statistics Reference.utc_runtime
              Reference.messages env Sample.request Sample.empty_state
              Sample.stay MoreSamples.odd_hotel Doubles.reference_doubles
              eq_refl eq_refl eq_refl Hdouble Hprice Hfresh)
    as (Hmin & _ & Hmax & _).
  fold resp in Hmin, Hmax. rewrite Hmin, Hmax. split; vm_compute; reflexivity.
Defined.

Lemma scan_events_invalid `{Runtime} (eventParts : list string) :
  scan_events None eventParts = (false, None).
Proof.
  induction eventParts as [|eventStr rest IH]; [reflexivity|].
  cbn [scan_events].
  destruct (match_event eventStr) as [[[name start] end_]|]; [|exact IH].
  unfold date_le. destruct (Date_parse start); cbn [andb]; exact IH.
Qed.

(** X7. A check-in text that is not a date.  No event is active and no
    event is named, whatever the events of the city; the stay counts as
    in a peak month exactly when some entry of the list of peak months
    is not a number (the month of an invalid date is NaN, and the search
    of the list finds NaN); the multiplier is then 1 or 1.2. *)
Theorem invalid_check_in_demand `{Runtime}
    (cityDemand : option CityDemand) (checkIn : string) :
  Date_parse checkIn = None ->
  let d := demand_of cityDemand checkIn in
  eventActive d = false
  /\ eventName d = None
  /\ isPeakMonth d = existsb is_nan (peakMonths cityDemand)
  /\ demandMultiplier d = (if existsb is_nan (peakMonths cityDemand)
                           then (1 + 0.20)%Q else 1%Q).
Proof.
  intros Hdate d. subst d. unfold demand_of. rewrite Hdate. cbn [option_map].
  assert (Hactive : active_event cityDemand None = (false, None)).
  { rewrite BinaryDemand.active_event_parts. apply scan_events_invalid. }
  rewrite Hactive. cbn [eventActive eventName isPeakMonth demandMultiplier].
  assert (Hpeak : includes_num (peakMonths cityDemand) None
                  = existsb is_nan (peakMonths cityDemand)).
  { unfold includes_num.
    induction (peakMonths cityDemand) as [|[m|] rest IH]; cbn [existsb is_nan orb];
      [reflexivity|exact IH|reflexivity]. }
  rewrite Hpeak.
  repeat (split; [reflexivity|]).
  unfold demand_multiplier. destruct (existsb is_nan (peakMonths cityDemand)); reflexivity.
Qed.

Lemma invalid_check_in_demand_witness :
  @Date_parse Reference.utc_runtime "next week" = None
  /\ eventActive (@demand_of Reference.utc_runtime (Some Sample.festival_city) "next week")
     = false
  /\ isPeakMonth (@demand_of Reference.utc_runtime
                    (Some (MoreSamples.named_months_city)) "next week")
     = true.
Proof.
  assert (Hdate : @Date_parse Reference.utc_runtime "next week" = None) by reflexivity.
  split; [exact Hdate|].
  destruct (@invalid_check_in_demand Reference.utc_runtime
              (Some Sample.festival_city) "next week" Hdate) as (Hactive & _).
  split; [exact Hactive|].
  destruct (@invalid_check_in_demand Reference.utc_runtime
              (Some MoreSamples.named_months_city) "next week" Hdate)
    as (_ & _ & Hpeak & _).
  rewrite Hpeak. reflexivity.
Defined.

(** X8. In a response computed afresh the event name is null exactly
    when no event is active: the demand context either has event_active
    true and a string under event_name, or event_active false and null
    under event_name; and the multiplier of the demand context is the
    multiplier of the adjusted prices and one of 1, 1.2, 1.3 and 1.5. *)
Theorem fresh_event_name_follows_flag `{Runtime} `{Messages}
    (env : Env) (req : Request) (st : State) :
  let resp := fst (serve env req st) in
  top_field resp "cached" = Some (JBool false) ->
  ((body_field resp "demand_context" "event_active" = Some (JBool true)
    /\ exists n, body_field resp "demand_context" "event_name" = Some (JStr n))
   \/ (body_field resp "demand_context" "event_active" = Some (JBool false)
       /\ body_field resp "demand_context" "event_name" = Some JNull))
  /\ body_field resp "demand_context" "demand_multiplier"
     = body_field resp "adjusted_prices" "multiplier"
  /\ exists m,
       body_field resp "adjusted_prices" "multiplier" = Some (JNum m)
       /\ In m [1%Q; (1 + 0.20)%Q; (1 + 0.30)%Q; (1 + 0.20 + 0.30)%Q].
Proof.
  intros resp Hfresh. subst resp.
  destruct (serve_fresh env req st Hfresh)
    as (r & p & ai & _ & _ & _ & _ & _ & -> & _).
  set (d := demand_of (city_demand_row env r) (req_check_in r)).
  unfold body_field. cbn [http_body].
  destruct (Handler.fresh_response_fields p d ai)
    as (_ & _ & _ & Factive & Fname & Fmult).
  destruct (fresh_response_prices p d ai) as (_ & _ & _ & Pmult & _).
  rewrite Factive, Fname, Fmult, Pmult.
  destruct (BinaryDemand.demand_of_fields (city_demand_row env r) (req_check_in r))
    as (_ & Hpair & Hm).
  fold d in Hpair, Hm.
  rewrite BinaryDemand.active_event_find in Hpair.
  split.
  - destruct (find _ _) as [[[name start] end_]|]; injection Hpair as -> ->.
    + left. split; [reflexivity|]. now exists (trim name).
    + right. split; reflexivity.
  - split; [reflexivity|].
    exists (demandMultiplier d). split; [reflexivity|].
    rewrite Hm. unfold demand_multiplier.
    destruct (isPeakMonth d), (eventActive d); cbn [In]; auto.
Qed.

Lemma fresh_event_name_follows_flag_witness :
  let resp := fst (@serve Reference.utc_runtime Reference.messages
                     (Sample.env_at 1730700000000 Sample.festival_city
                        (Response 200 (Sample.reply_with Sample.object_src)))
                     Sample.request Sample.empty_state) in
  top_field resp "cached" = Some (JBool false)
  /\ body_field resp "demand_context" "demand_multiplier"
     = body_field resp "adjusted_prices" "multiplier".
Proof.
  intro resp.
  assert (Hfresh : top_field resp "cached" = Some (JBool false))
    by (vm_compute; reflexivity).
  split; [exact Hfresh|].
  destruct (@fresh_event_name_follows_flag Reference.utc_runtime Reference.messages
              (Sample.env_at 1730700000000 Sample.festival_city
                 (Response 200 (Sample.reply_with Sample.object_src)))
              Sample.request Sample.empty_state Hfresh) as (_ & Hsame & _).
  exact Hsame.
Defined.

Lemma failed_response `{Runtime} `{Messages} (env : Env) (e : exn) :
  top_field (error_response env e) "cached" <> Some (JBool true)
  /\ (http_status (error_response env e) = 200 ->
      top_field (error_response env e) "cached" = Some (JBool false)
      /\ False).
Proof.
  split; [rewrite error_response_uncached; discriminate|].
  intro H200. exfalso. revert H200. apply error_response_status.
Qed.

(** X24. The write to the cache is best-effort.  When a request was
    computed afresh and its row did not reach the table (the store refused
    the insertion), the response is still the response of status 200 of a
    fresh computation and one call was made to the provider; the same
    request made later is then not served from the cache: its lookup
    misses again, and when it succeeds it was computed afresh, with a
    second call to the provider. *)
Theorem refused_row_is_not_served `{Runtime} `{Messages}
    (env1 env2 : Env) (req : Request) (st : State) :
  top_field (fst (serve env1 req st)) "cached" = Some (JBool false) ->
  price_predictions (snd (serve env1 req st)) = price_predictions st ->
  now env1 <= now env2 ->
  let first := serve env1 req st in
  let second := serve env2 req (snd first) in
  http_status (fst first) = 200
  /\ gemini_calls (snd first) = S (gemini_calls st)
  /\ top_field (fst second) "cached" <> Some (JBool true)
  /\ (http_status (fst second) = 200 ->
      top_field (fst second) "cached" = Some (JBool false)
      /\ gemini_calls (snd second) = S (S (gemini_calls st))).
Proof.
  intros Hfresh Hsame Hnow first second. subst second first.
  revert Hsame.
  destruct (serve_fresh env1 req st Hfresh)
    as (r & p & ai & Hmethod & Hbody & _ & Hmiss & Hp & -> & ->).
  cbn [price_predictions http_status gemini_calls].
  destruct (store_accepts env1 _).
  { intro Habs. exfalso. apply (f_equal (@List.length _)) in Habs.
    rewrite length_app in Habs. cbn in Habs. lia. }
  intros _.
  set (st1 := {| price_predictions := price_predictions st;
                 gemini_calls := S (gemini_calls st) |}).
  assert (Hmiss2 : cachedPrediction env2 r st1 = None).
  { unfold cachedPrediction in *. cbn [price_predictions st1].
    apply Handler.latest_none in Hmiss.
    rewrite (Handler.window_moves_forward r (cacheExpiryTime env1) (cacheExpiryTime env2));
      [reflexivity | unfold cacheExpiryTime; lia | exact Hmiss]. }
  split; [reflexivity|]. split; [reflexivity|].
  unfold serve. rewrite Hmethod. unfold handle. rewrite Hbody.
  destruct (client_created env2); cbn [negb fst snd].
  2:{ match goal with
      | |- context [error_response env2 ?e] =>
          destruct (failed_response env2 e) as [Hno H200]
      end.
      split; [exact Hno|]. intro Hs. destruct (H200 Hs) as [_ []]. }
  rewrite Hmiss2. unfold fresh.
  destruct (prepare env2 r) as [p2|e]; cbn [fst snd].
  2:{ destruct (failed_response env2 e) as [Hno H200].
      split; [exact Hno|]. intro Hs. destruct (H200 Hs) as [_ []]. }
  pose proof (Handler.getPriceInsight_counts (payload p2) (geminiApiKey p2) (gemini env2)
                (gemini_calls st1)) as Hcount.
  destruct (getPriceInsightFromGemini (payload p2) (geminiApiKey p2) (gemini env2)
              (gemini_calls st1)) as [[ai2|e] calls]; cbn [fst snd] in *; subst calls.
  - split; [discriminate|]. intros _. split; reflexivity.
  - destruct (failed_response env2 e) as [Hno H200].
    split; [exact Hno|]. intro Hs. destruct (H200 Hs) as [_ []].
Qed.

Lemma refused_row_is_not_served_witness :
  let env1 := MoreSamples.refusing_env 1730700000000
                (Response 200 (Sample.reply_with Sample.object_src)) in
  let env2 := MoreSamples.refusing_env 1730703600000
                (Response 200 (Sample.reply_with Sample.object_src)) in
  let first := @serve Reference.utc_runtime Reference.messages env1
                 Sample.request Sample.empty_state in
  let second := @serve Reference.utc_runtime Reference.messages env2
                  Sample.request (snd first) in
  top_field (fst first) "cached" = Some (JBool false)
  /\ price_predictions (snd first) = price_predictions Sample.empty_state
  /\ now env1 <= now env2
  /\ http_status (fst second) = 200
  /\ top_field (fst second) "cached" = Some (JBool false)
  /\ gemini_calls (snd second) = 2%nat.
Proof.
  intros env1 env2 first second.
  assert (Hfresh : top_field (fst first) "cached" = Some (JBool false))
    by (vm_compute; reflexivity).
  assert (Hsame : price_predictions (snd first) = price_predictions Sample.empty_state)
    by (vm_compute; reflexivity).
  assert (Hnow : now env1 <= now env2) by (vm_compute; discriminate).
  assert (Hstatus : http_status (fst second) = 200) by (vm_compute; reflexivity).
  split; [exact Hfresh|]. split; [exact Hsame|]. split; [exact Hnow|].
  split; [exact Hstatus|].
  destruct (@refused_row_is_not_served Reference.utc_runtime Reference.messages
              env1 env2 Sample.request Sample.empty_state Hfresh Hsame Hnow)
    as (_ & _ & _ & Hagain).
  exact (Hagain Hstatus).
Defined.

End Footprint.

(** * Further properties of the weighted demand model *)

Module DemandLabels.

Import JsString Js PredictPrice Utils DemandLib DemandView Spec Notions.
Open Scope string_scope.

Section Scores.

Context `{Runtime}.
Hypothesis laws : DoubleLaws.

Local Open Scope Q_scope.

Lemma literal_nonneg (q : Q) : 0 <= q -> 0 <= literal q.
Proof.
  intro Hq. unfold literal.
  pose proof (double_monotone laws 0 q Hq) as M.
  pose proof (Doubles.double_zero laws). lra.
Qed.

Lemma severity_weight_nonneg (i : Impact) : 0 <= severity_weight i.
Proof. destruct i; apply literal_nonneg; lra. Qed.

(** Adding the weights of events to a double does not go below it. *)
Lemma gain_grows (l : list EventInfo) (score : Q) :
  to_double score == score -> score <= gain score l.
Proof.
  revert score. induction l as [|e r IH]; intros score Hd; cbn [gain]; [lra|].
  pose proof (Doubles.plus_grows laws score (severity_weight (impact e)) Hd
                (severity_weight_nonneg (impact e))) as Hstep.
  pose proof (IH _ (Doubles.plus_is_double laws score (severity_weight (impact e))))
    as Hrest.
  lra.
Qed.

(** The thresholds of the labels, as doubles, are in the order of their
    literals. *)
Lemma thresholds :
  0 < literal 0.3 /\ literal 0.3 < literal 0.5
  /\ literal 0.5 <= literal 0.7 /\ literal 0.7 <= 1.
Proof.
  unfold literal.
  assert (Q1 : to_double 0.25 == 0.25)
    by (apply (Doubles.double_exact laws 0.25 1 (-2)); reflexivity).
  assert (Q2 : to_double 0.375 == 0.375)
    by (apply (Doubles.double_exact laws 0.375 3 (-3)); reflexivity).
  pose proof (Doubles.double_half laws) as Q3.
  pose proof (Doubles.double_one laws) as Q4.
  assert (M1 : to_double 0.25 <= to_double 0.3) by (apply (double_monotone laws); lra).
  assert (M2 : to_double 0.3 <= to_double 0.375) by (apply (double_monotone laws); lra).
  assert (M3 : to_double 0.5 <= to_double 0.7) by (apply (double_monotone laws); lra).
  assert (M4 : to_double 0.7 <= to_double 1) by (apply (double_monotone laws); lra).
  repeat split; lra.
Qed.

Lemma peak_start : plus 0 (literal 0.3) == literal 0.3.
Proof.
  unfold plus. transitivity (to_double (literal 0.3)).
  - apply (double_comp laws). lra.
  - apply (Doubles.literal_is_double laws).
Qed.

Lemma weighted_score_bounds (peak : bool) (l : list EventInfo) :
  0 <= weighted_score peak l <= 1.
Proof.
  unfold weighted_score. cbv zeta.
  set (start := if peak then plus 0 (literal 0.3) else 0).
  assert (Hstart : to_double start == start /\ 0 <= start).
  { unfold start. destruct peak.
    - split; [apply (Doubles.plus_is_double laws)|].
      apply (Doubles.plus_nonneg laws); [lra|apply literal_nonneg; lra].
    - split; [apply (Doubles.double_zero laws)|lra]. }
  destruct Hstart as [Hd Hpos].
  pose proof (gain_grows l start Hd) as Hgain.
  destruct (Qle_bool (gain start l) 1) eqn:Hle; [|lra].
  apply Qle_bool_iff in Hle. lra.
Qed.

Lemma weighted_score_peak (l : list EventInfo) :
  literal 0.3 <= weighted_score true l.
Proof.
  unfold weighted_score. cbv zeta.
  pose proof (gain_grows l (plus 0 (literal 0.3))
                (Doubles.plus_is_double laws 0 (literal 0.3))) as Hgain.
  pose proof peak_start as Hstart.
  destruct thresholds as (_ & T1 & T2 & T3).
  destruct (Qle_bool _ 1); lra.
Qed.

Lemma weighted_score_peak_alone : weighted_score true [] == literal 0.3.
Proof.
  unfold weighted_score. cbv zeta. cbn [gain].
  pose proof peak_start as Hstart.
  destruct thresholds as (_ & T1 & T2 & T3).
  destruct (Qle_bool _ 1) eqn:Hle; [exact Hstart|].
  exfalso. revert Hle. apply not_false_iff_true. apply Qle_bool_iff. lra.
Qed.

Lemma label_of_low (score : Q) :
  score < literal 0.3 -> label (getDemandLabel score) = "Low Demand"%string.
Proof.
  intro Hlt. destruct thresholds as (_ & T1 & T2 & T3). unfold getDemandLabel.
  destruct (Qle_bool (literal 0.7) score) eqn:H7; [apply Qle_bool_iff in H7; lra|].
  destruct (Qle_bool (literal 0.5) score) eqn:H5; [apply Qle_bool_iff in H5; lra|].
  destruct (Qle_bool (literal 0.3) score) eqn:H3; [apply Qle_bool_iff in H3; lra|].
  reflexivity.
Qed.

Lemma label_of_moderate (score : Q) :
  literal 0.3 <= score -> score < literal 0.5 ->
  label (getDemandLabel score) = "Moderate Demand"%string.
Proof.
  intros Hge Hlt. destruct thresholds as (_ & T1 & T2 & T3). unfold getDemandLabel.
  destruct (Qle_bool (literal 0.7) score) eqn:H7; [apply Qle_bool_iff in H7; lra|].
  destruct (Qle_bool (literal 0.5) score) eqn:H5; [apply Qle_bool_iff in H5; lra|].
  destruct (Qle_bool (literal 0.3) score) eqn:H3; [reflexivity|].
  apply Qle_bool_iff in Hge. congruence.
Qed.

(** For a score between 0 and 1 the multiplier is between 1 and 1.5. *)
Lemma score_multiplier_bounds (score : Q) :
  0 <= score <= 1 -> 1 <= score_multiplier score <= 1.5.
Proof.
  intros [Hlo Hhi]. unfold score_multiplier, plus, times, literal.
  pose proof (Doubles.double_zero laws) as D0.
  pose proof (Doubles.double_one laws) as D1.
  pose proof (Doubles.double_half laws) as Dh.
  pose proof (Doubles.double_three_halves laws) as Dt.
  assert (T1 : to_double 0 <= to_double (score * to_double 0.5))
    by (apply (double_monotone laws); nra).
  assert (T2 : to_double (score * to_double 0.5) <= to_double 0.5)
    by (apply (double_monotone laws); nra).
  assert (M1 : to_double 1 <= to_double (1 + to_double (score * to_double 0.5)))
    by (apply (double_monotone laws); lra).
  assert (M2 : to_double (1 + to_double (score * to_double 0.5)) <= to_double 1.5)
    by (apply (double_monotone laws); lra).
  lra.
Qed.

Lemma score_multiplier_zero : score_multiplier 0 == 1.
Proof.
  unfold score_multiplier, plus, times.
  pose proof (Doubles.double_zero laws) as D0.
  pose proof (Doubles.double_one laws) as D1.
  assert (T : to_double (0 * literal 0.5) == 0).
  { rewrite (double_comp laws (0 * literal 0.5) 0) by lra. exact D0. }
  rewrite (double_comp laws (1 + to_double (0 * literal 0.5)) 1) by lra. exact D1.
Qed.

(** The rounded product of a double that is not negative with a
    multiplier between 1 and 1.5 lies between the rounded number and its
    rounded product with 1.5. *)
Lemma rounded_price_bounds (base multiplier : Q) :
  to_double base == base -> 0 <= base -> 1 <= multiplier <= 1.5 ->
  (Math_round base <= rounded_price base multiplier
   <= Math_round (times base (literal 1.5)))%Z.
Proof.
  intros Hd Hpos [Hlo Hhi]. unfold rounded_price, times, literal.
  pose proof (Doubles.double_three_halves laws) as Dt.
  assert (M1 : to_double base <= to_double (base * multiplier))
    by (apply (double_monotone laws); nra).
  assert (M2 : to_double (base * multiplier) <= to_double (base * to_double 1.5))
    by (apply (double_monotone laws); nra).
  split; apply PriceRange.Math_round_monotone; lra.
Qed.

Lemma rounded_price_ordered (lo hi multiplier : Q) :
  lo <= hi -> 0 <= multiplier ->
  (rounded_price lo multiplier <= rounded_price hi multiplier)%Z.
Proof.
  intros Hle Hm. unfold rounded_price, times.
  apply PriceRange.Math_round_monotone. apply (double_monotone laws). nra.
Qed.

Lemma rounded_price_same (base multiplier : Q) :
  to_double base == base -> multiplier == 1 ->
  rounded_price base multiplier = Math_round base.
Proof.
  intros Hd Hm. unfold rounded_price, times, Math_round. apply Qfloor_comp.
  rewrite (double_comp laws (base * multiplier) base) by nra. lra.
Qed.

(** When the product with 1.5 is a double, it is the product the
    platform computes. *)
Lemma times_exact (base : Q) :
  to_double (base * 1.5) == base * 1.5 -> times base (literal 1.5) == base * 1.5.
Proof.
  intro Hd. unfold times, literal.
  pose proof (Doubles.double_three_halves laws) as Dt.
  rewrite (double_comp laws (base * to_double 1.5) (base * 1.5)) by nra. exact Hd.
Qed.

End Scores.

Lemma label_not_low `{Runtime} (score : Q) :
  (literal 0.3 <= score)%Q -> label (getDemandLabel score) <> "Low Demand".
Proof.
  intro Hge. unfold getDemandLabel.
  destruct (Qle_bool (literal 0.7) score); [discriminate|].
  destruct (Qle_bool (literal 0.5) score); [discriminate|].
  destruct (Qle_bool (literal 0.3) score) eqn:H3; [discriminate|].
  apply Qle_bool_iff in Hge. congruence.
Qed.

Lemma label_very_high `{Runtime} (score : Q) :
  label (getDemandLabel score) = "Very High Demand" -> (literal 0.7 <= score)%Q.
Proof.
  unfold getDemandLabel.
  destruct (Qle_bool (literal 0.7) score) eqn:H7; [intros _; now apply Qle_bool_iff|].
  destruct (Qle_bool (literal 0.5) score); [discriminate|].
  destruct (Qle_bool (literal 0.3) score); discriminate.
Qed.

(** X9. The label shown for the demand of a stay.  A stay in a peak
    month is never labelled Low Demand; a stay outside the peak months
    that overlaps no event is labelled Low Demand; a stay in a peak month
    that overlaps no event is labelled Moderate Demand; and a stay
    labelled Very High Demand overlaps at least one event.  The score and
    the thresholds are doubles; the rounding of the platform is taken to
    be monotone and to keep the numbers that are doubles. *)
Theorem label_follows_context `{Runtime}
    (cityDemand : option CityDemand) (checkIn checkOut : string) :
  DoubleLaws ->
  let ctx := calculateDemandContext cityDemand checkIn checkOut in
  let shown := label (getDemandLabel (demand_score ctx)) in
  (is_peak_month ctx = true -> shown <> "Low Demand")
  /\ (is_peak_month ctx = false -> events ctx = [] -> shown = "Low Demand")
  /\ (is_peak_month ctx = true -> events ctx = [] -> shown = "Moderate Demand")
  /\ (shown = "Very High Demand" -> events ctx <> []).
Proof.
  intros laws ctx shown. subst shown.
  pose proof (WeightedDemand.context_score cityDemand checkIn checkOut) as Hscore.
  fold ctx in Hscore. cbv zeta in Hscore.
  destruct (thresholds laws) as (T0 & T1 & T2 & T3).
  pose proof (weighted_score_peak_alone laws) as Halone.
  split; [|split; [|split]].
  - intro Hpeak. rewrite Hscore, Hpeak. apply label_not_low.
    apply (weighted_score_peak laws).
  - intros Hpeak Hnone. rewrite Hscore, Hpeak, Hnone. apply (label_of_low laws).
    change (weighted_score false []) with 0%Q. exact T0.
  - intros Hpeak Hnone. rewrite Hscore, Hpeak, Hnone.
    apply (label_of_moderate laws); lra.
  - intros Hvery Hnone. apply label_very_high in Hvery.
    rewrite Hscore, Hnone in Hvery.
    destruct (is_peak_month ctx); [lra|].
    change (weighted_score false []) with 0%Q in Hvery. lra.
Qed.

Lemma label_follows_context_witness :
  let ctx := @calculateDemandContext Reference.utc_runtime
               (Some Sample.festival_city) "2024-11-20" "2024-11-22" in
  @DoubleLaws Reference.utc_runtime
  /\ is_peak_month ctx = true /\ events ctx = []
  /\ label (@getDemandLabel Reference.utc_runtime (demand_score ctx)) = "Moderate Demand".
Proof.
  intro ctx.
  assert (Hpeak : is_peak_month ctx = true) by (vm_compute; reflexivity).
  assert (Hnone : events ctx = []) by (vm_compute; reflexivity).
  split; [exact Doubles.reference_doubles|].
  split; [exact Hpeak|]. split; [exact Hnone|].
  destruct (@label_follows_context Reference.utc_runtime (Some Sample.festival_city)
              "2024-11-20" "2024-11-22" Doubles.reference_doubles)
    as (_ & _ & Hmoderate & _).
  exact (Hmoderate Hpeak Hnone).
Defined.

Lemma context_score_bounds `{Runtime} (laws : DoubleLaws)
    (cityDemand : option CityDemand) (checkIn checkOut : string) :
  (0 <= demand_score (calculateDemandContext cityDemand checkIn checkOut) <= 1)%Q.
Proof.
  pose proof (WeightedDemand.context_score cityDemand checkIn checkOut) as Hscore.
  cbv zeta in Hscore. rewrite Hscore.
  apply (weighted_score_bounds laws).
Qed.

(** X10. The price range shown for a stay.  For base prices that are not
    negative and in order, each end of the calculated range lies between
    the rounded base price and the rounded product of the base price with
    1.5, and the two ends are in order; for a stay outside the peak months
    that overlaps no event the range is the rounded base range.  The
    products are those of the platform, in double precision, and the base
    prices are doubles; where the exact product with 1.5 is a double, it
    is that product. *)
Theorem displayed_range_bounds `{Runtime}
    (cityDemand : option CityDemand) (checkIn checkOut : string) (baseMin baseMax : Q) :
  DoubleLaws ->
  (to_double baseMin == baseMin)%Q -> (to_double baseMax == baseMax)%Q ->
  (0 <= baseMin)%Q -> (baseMin <= baseMax)%Q ->
  let ctx := calculateDemandContext cityDemand checkIn checkOut in
  let range := calculatePriceRange baseMin baseMax (demand_score ctx) in
  Math_round baseMin <= fst range <= Math_round (times baseMin (literal 1.5%Q))
  /\ Math_round baseMax <= snd range <= Math_round (times baseMax (literal 1.5%Q))
  /\ fst range <= snd range
  /\ (is_peak_month ctx = false -> events ctx = [] ->
      range = (Math_round baseMin, Math_round baseMax))
  /\ ((to_double (baseMin * 1.5) == baseMin * 1.5)%Q ->
      fst range <= Math_round (baseMin * 1.5)%Q)
  /\ ((to_double (baseMax * 1.5) == baseMax * 1.5)%Q ->
      snd range <= Math_round (baseMax * 1.5)%Q).
Proof.
  intros laws Dmin Dmax Hmin Hmax ctx range. subst range.
  pose proof (context_score_bounds laws cityDemand checkIn checkOut) as Hscore.
  fold ctx in Hscore.
  pose proof (score_multiplier_bounds laws (demand_score ctx) Hscore) as Hmult.
  change (calculatePriceRange baseMin baseMax (demand_score ctx))
    with (rounded_price baseMin (score_multiplier (demand_score ctx)),
          rounded_price baseMax (score_multiplier (demand_score ctx))).
  cbn [fst snd].
  pose proof (rounded_price_bounds laws baseMin _ Dmin Hmin Hmult) as Bmin.
  pose proof (rounded_price_bounds laws baseMax _ Dmax ltac:(lra) Hmult) as Bmax.
  split; [exact Bmin|]. split; [exact Bmax|].
  split; [apply (rounded_price_ordered laws); lra|].
  split; [|split].
  - intros Hpeak Hnone.
    pose proof (WeightedDemand.context_score cityDemand checkIn checkOut) as Heq.
    fold ctx in Heq. cbv zeta in Heq. rewrite Hpeak, Hnone in Heq.
    change (weighted_score false []) with 0%Q in Heq. rewrite Heq.
    rewrite !(rounded_price_same laws) by
      (exact Dmin || exact Dmax || apply (score_multiplier_zero laws)).
    reflexivity.
  - intro Hexact. destruct Bmin as [_ Bmin].
    etransitivity; [exact Bmin|]. apply PriceRange.Math_round_monotone.
    rewrite (times_exact laws baseMin Hexact). apply Qle_refl.
  - intro Hexact. destruct Bmax as [_ Bmax].
    etransitivity; [exact Bmax|]. apply PriceRange.Math_round_monotone.
    rewrite (times_exact laws baseMax Hexact). apply Qle_refl.
Qed.

Lemma displayed_range_bounds_witness :
  @DoubleLaws Reference.utc_runtime
  /\ (@to_double Reference.utc_runtime 4000 == 4000)%Q
  /\ (@to_double Reference.utc_runtime 7500 == 7500)%Q
  /\ (0 <= 4000)%Q /\ (4000 <= 7500)%Q
  /\ (@to_double Reference.utc_runtime (4000 * 1.5) == 4000 * 1.5)%Q
  /\ fst (@calculatePriceRange Reference.utc_runtime 4000%Q 7500%Q
            (demand_score (@calculateDemandContext Reference.utc_runtime
                             (Some Sample.festival_city) "2024-11-04" "2024-11-08")))
     <= Math_round (4000 * 1.5)%Q.
Proof.
  assert (Dmin : (@to_double Reference.utc_runtime 4000 == 4000)%Q)
    by (vm_compute; reflexivity).
  assert (Dmax : (@to_double Reference.utc_runtime 7500 == 7500)%Q)
    by (vm_compute; reflexivity).
  assert (Hmin : (0 <= 4000)%Q) by lra.
  assert (Hmax : (4000 <= 7500)%Q) by lra.
  assert (Hexact : (@to_double Reference.utc_runtime (4000 * 1.5) == 4000 * 1.5)%Q)
    by (vm_compute; reflexivity).
  split; [exact Doubles.reference_doubles|].
  repeat (split; [assumption|]).
  destruct (@displayed_range_bounds Reference.utc_runtime (Some Sample.festival_city)
              "2024-11-04" "2024-11-08" 4000%Q 7500%Q Doubles.reference_doubles
              Dmin Dmax Hmin Hmax) as (_ & _ & _ & _ & Hle & _).
  exact (Hle Hexact).
Defined.

(** The upper bound is the product as the platform computes it: for the
    base price (2^54 - 1) / (3 * 2^54), which is a double, and a score of
    1 the product with 1.5 is rounded to the double 0.5 and the price
    shown is 1, while the exact product is below 0.5. *)
Example displayed_bound_is_the_double_product :
  let base := (6004799503160661 # 18014398509481984)%Q in
  @to_double Reference.utc_runtime base = base
  /\ fst (@calculatePriceRange Reference.utc_runtime base base 1%Q) = 1
  /\ Math_round (@times Reference.utc_runtime base (@literal Reference.utc_runtime 1.5%Q))
     = 1
  /\ Math_round (base * 1.5)%Q = 0.
Proof. vm_compute. repeat split. Qed.

(** X12. For a stay and an event whose four dates parse, with the
    check-in date not after the check-out date and the start of the event
    not after its end, the three-way test of the overlap filter is the
    intersection of the two closed intervals: the event starts by the
    check-out date and the stay starts by the end of the event. *)
Theorem overlap_is_intersection `{Runtime}
    (checkIn checkOut : string) (ev : EventInfo) (ci co s e : Z) :
  Date_parse checkIn = Some ci -> Date_parse checkOut = Some co ->
  Date_parse (start ev) = Some s -> Date_parse (end_ ev) = Some e ->
  ci <= co -> s <= e ->
  (overlaps checkIn checkOut ev = true <-> s <= co /\ ci <= e).
Proof.
  intros Hci Hco Hs He Hstay Hevent.
  unfold overlaps, isDateInRange, date_le. rewrite Hci, Hco, Hs, He.
  rewrite !orb_true_iff, !andb_true_iff, !Z.leb_le. lia.
Qed.

Lemma overlap_is_intersection_witness :
  let ev := {| name := "Diwali"; start := "2024-11-01"; end_ := "2024-11-05";
               impact := very_high |} in
  @Date_parse Reference.utc_runtime "2024-10-30" = Some 1730246400000
  /\ @Date_parse Reference.utc_runtime "2024-11-08" = Some 1731024000000
  /\ @Date_parse Reference.utc_runtime (start ev) = Some 1730419200000
  /\ @Date_parse Reference.utc_runtime (end_ ev) = Some 1730764800000
  /\ 1730246400000 <= 1731024000000
  /\ 1730419200000 <= 1730764800000
  /\ @overlaps Reference.utc_runtime "2024-10-30" "2024-11-08" ev = true.
Proof.
  intro ev.
  assert (Hci : @Date_parse Reference.utc_runtime "2024-10-30" = Some 1730246400000)
    by (vm_compute; reflexivity).
  assert (Hco : @Date_parse Reference.utc_runtime "2024-11-08" = Some 1731024000000)
    by (vm_compute; reflexivity).
  assert (Hs : @Date_parse Reference.utc_runtime (start ev) = Some 1730419200000)
    by (vm_compute; reflexivity).
  assert (He : @Date_parse Reference.utc_runtime (end_ ev) = Some 1730764800000)
    by (vm_compute; reflexivity).
  assert (Hstay : 1730246400000 <= 1731024000000) by lia.
  assert (Hevent : 1730419200000 <= 1730764800000) by lia.
  repeat (split; [assumption|]).
  apply (@overlap_is_intersection Reference.utc_runtime "2024-10-30" "2024-11-08" ev
           _ _ _ _ Hci Hco Hs He Hstay Hevent).
  lia.
Defined.

(** X13. The number of nights between two texts that are dates: the
    least whole number of days that covers the time between them.  It is
    at least one exactly when the check-out is after the check-in, it is
    the number of days when the two are whole days apart, and a check-out
    on or before the check-in gives zero or a negative number, not an
    error. *)
Theorem nights_cover_the_stay `{Runtime} (checkIn checkOut : string) (a b : Z) :
  Date_parse checkIn = Some a -> Date_parse checkOut = Some b ->
  exists n,
    calculateNights checkIn checkOut = Some n
    /\ 86400000 * (n - 1) < b - a <= 86400000 * n
    /\ (1 <= n <-> a < b)
    /\ (forall d, b - a = 86400000 * d -> n = d).
Proof.
  intros Ha Hb. unfold calculateNights. rewrite Ha, Hb.
  eexists. split; [reflexivity|].
  unfold Math_ceil. change (1000 * 60 * 60 * 24) with 86400000.
  set (x := (inject_Z (b - a) / inject_Z 86400000)%Q).
  assert (Hx : (x * inject_Z 86400000 == inject_Z (b - a))%Q).
  { unfold x. field. }
  pose proof (Qle_ceiling x) as Hup.
  pose proof (Qceiling_lt x) as Hdown.
  assert (Hday : (0 < inject_Z 86400000)%Q) by reflexivity.
  assert (Hbracket : 86400000 * (Qceiling x - 1) < b - a <= 86400000 * Qceiling x).
  { split.
    - rewrite Zlt_Qlt, inject_Z_mult, <- Hx.
      rewrite (Qmult_comm (inject_Z 86400000)).
      apply Qmult_lt_compat_r; assumption.
    - rewrite Zle_Qle, inject_Z_mult, <- Hx.
      rewrite (Qmult_comm (inject_Z 86400000)).
      apply Qmult_le_compat_r; [assumption|now apply Qlt_le_weak]. }
  split; [exact Hbracket|].
  split; [lia|].
  intros d Hd. lia.
Qed.

Lemma nights_cover_the_stay_witness :
  @Date_parse Reference.utc_runtime "2024-11-04" = Some 1730678400000
  /\ @Date_parse Reference.utc_runtime "2024-11-08" = Some 1731024000000
  /\ @calculateNights Reference.utc_runtime "2024-11-04" "2024-11-08" = Some 4.
Proof.
  assert (Ha : @Date_parse Reference.utc_runtime "2024-11-04" = Some 1730678400000)
    by (vm_compute; reflexivity).
  assert (Hb : @Date_parse Reference.utc_runtime "2024-11-08" = Some 1731024000000)
    by (vm_compute; reflexivity).
  split; [exact Ha|]. split; [exact Hb|].
  destruct (@nights_cover_the_stay Reference.utc_runtime "2024-11-04" "2024-11-08"
              _ _ Ha Hb) as (n & -> & _ & _ & Hdays).
  f_equal. apply Hdays. reflexivity.
Defined.

Lemma date10_shape (s d r : string) :
  date10 s = Some (d, r) -> date_shape d = true.
Proof.
  destruct s as [|y1 [|y2 [|y3 [|y4 [|c1 [|m1 [|m2 [|c2 [|d1 [|d2 r0]]]]]]]]]];
    try (cbn; discriminate).
  all: destruct c1 as [[] [] [] [] [] [] [] []]; try (cbn; discriminate).
  all: destruct c2 as [[] [] [] [] [] [] [] []]; try (cbn; discriminate).
  unfold date_shape, date10.
  destruct (forallb is_digit [y1; y2; y3; y4; m1; m2; d1; d2]) eqn:Hdigits;
    [|discriminate].
  intro Heq. injection Heq as <- _.
  cbn [String.substring]. rewrite Hdigits. destruct r0; reflexivity.
Qed.

Lemma event_tail_shape (s start0 end0 : string) :
  event_tail s = Some (start0, end0) ->
  date_shape start0 = true /\ date_shape end0 = true.
Proof.
  unfold event_tail.
  destruct (trimStart s) as [|c r1]; [discriminate|].
  destruct (Ascii.eqb_spec c "("%char) as [->|Hne].
  - destruct (date10 r1) as [[d1 r2]|] eqn:Hd1; [|discriminate].
    destruct (strip_bytes _ r2) as [r3|]; [|discriminate].
    destruct (date10 r3) as [[d2 r4]|] eqn:Hd2; [|discriminate].
    destruct r4 as [|c4 r5]; [discriminate|].
    destruct (Ascii.eqb_spec c4 ")"%char) as [->|Hne4].
    + intro Heq. injection Heq as <- <-.
      split; [exact (date10_shape _ _ _ Hd1)|exact (date10_shape _ _ _ Hd2)].
    + destruct c4 as [[] [] [] [] [] [] [] []]; try discriminate.
      now contradiction Hne4.
  - destruct c as [[] [] [] [] [] [] [] []]; try discriminate.
    now contradiction Hne.
Qed.

Lemma event_name_from_shape (s : string) (acc : list ascii) (n start0 end0 : string) :
  event_name_from acc s = Some (n, start0, end0) ->
  date_shape start0 = true /\ date_shape end0 = true.
Proof.
  revert acc. induction s as [|c r IH]; intro acc; cbn [event_name_from].
  - destruct (event_tail "") as [[a b]|] eqn:Htail; [|discriminate].
    intro Heq. injection Heq as _ <- <-. exact (event_tail_shape _ _ _ Htail).
  - destruct (event_tail (String c r)) as [[a b]|] eqn:Htail.
    + intro Heq. injection Heq as _ <- <-. exact (event_tail_shape _ _ _ Htail).
    + destruct (lt_len (String c r)); [apply IH|discriminate].
Qed.

Lemma match_event_shape (s n start0 end0 : string) :
  match_event s = Some (n, start0, end0) ->
  date_shape start0 = true /\ date_shape end0 = true.
Proof.
  remember (String.length s) as len eqn:Hlen.
  revert s Hlen. induction len as [len IH] using lt_wf_ind. intros s Hlen.
  destruct s as [|c r]; [discriminate|]. cbn [match_event].
  destruct (lt_len (String c r)) as [|[|k]].
  - destruct (event_name_from [c] r) as [[[n1 s1] e1]|] eqn:Hname.
    + intro Heq. injection Heq as _ <- <-. exact (event_name_from_shape _ _ _ _ _ Hname).
    + apply (IH (String.length r)); [subst len; cbn; lia|reflexivity].
  - apply (IH (String.length r)); [subst len; cbn; lia|reflexivity].
  - destruct r as [|c1 [|c2 r2]]; try discriminate.
    apply (IH (String.length r2)); [subst len; cbn; lia|reflexivity].
Qed.

Lemma parse_parts_shape (eventParts : list string) :
  Forall (fun ev => date_shape (start ev) = true /\ date_shape (end_ ev) = true)
         (parse_parts eventParts)
  /\ (List.length (parse_parts eventParts) <= List.length eventParts)%nat.
Proof.
  induction eventParts as [|eventStr rest [IHshape IHlen]]; cbn [parse_parts].
  - split; [constructor|apply Nat.le_refl].
  - destruct (match_event eventStr) as [[[n s] e]|] eqn:Hmatch.
    + split.
      * constructor; [exact (match_event_shape _ _ _ _ Hmatch)|exact IHshape].
      * cbn [List.length]. lia.
    + split; [exact IHshape|cbn [List.length]; lia].
Qed.

(** X11. What the parser of the events text gives.  Every event it
    returns has a start and an end that are ten characters of the shape
    dddd-dd-dd (whether or not they are dates of the calendar), and an
    impact that is the impact of its name; entries that do not match the
    format are dropped, so the events are at most as many as the parts
    between the semicolons; and without a text, or with the empty text,
    there are no events. *)
Theorem parsed_events_are_date_shaped (eventsStr : option string) :
  Forall (fun ev => date_shape (start ev) = true /\ date_shape (end_ ev) = true
                    /\ impact ev = getEventImpact (name ev))
         (parseEvents eventsStr)
  /\ (List.length (parseEvents eventsStr)
      <= match eventsStr with
         | Some s => List.length (split ";" s)
         | None => 0
         end)%nat
  /\ parseEvents None = []
  /\ parseEvents (Some "") = [].
Proof.
  split; [|split; [|split; reflexivity]].
  - pose proof (WeightedDemand.parseEvents_impact eventsStr) as Himpact.
    assert (Hshape : Forall (fun ev => date_shape (start ev) = true
                                       /\ date_shape (end_ ev) = true)
                            (parseEvents eventsStr)).
    { unfold parseEvents. destruct eventsStr as [s|]; [|constructor].
      destruct (String.eqb s ""); [constructor|apply parse_parts_shape]. }
    rewrite Forall_forall in *. intros ev Hin.
    destruct (Hshape ev Hin) as [Hs He]. auto using Himpact.
  - unfold parseEvents. destruct eventsStr as [s|]; [|apply Nat.le_refl].
    destruct (String.eqb s ""); [cbn; lia|].
    destruct (parse_parts_shape (map trim (split ";" s))) as [_ Hlen].
    rewrite length_map in Hlen. exact Hlen.
Qed.

End DemandLabels.

(** * Properties of the client *)

Module PanelProps.

Import JsString Js Exn PredictPrice Spec Client.
Open Scope string_scope.

Lemma nonempty_eqb (x : string) : x <> "" -> String.eqb x "" = false.
Proof. intro Hne. now apply String.eqb_neq. Qed.

(** A request that the provider answered with status 429 ends with
    status 429. *)
Lemma rate_limited_status `{Runtime} `{Messages} (env : Env) (req : Request) (st : State) :
  rate_limited env st (snd (serve env req st)) ->
  http_status (fst (serve env req st)) = 429.
Proof.
  unfold serve.
  destruct (String.eqb (method req) "OPTIONS"); cbn [fst snd].
  { intros [Hcalls _]. exfalso. revert Hcalls. apply n_Sn. }
  pose proof (Handler.handle_outcome env req st) as Hout.
  destruct (handle env req st) as [[answer|e] st1]; cbn [fst snd] in *.
  - intro Hlimited. now contradiction Hout.
  - intro Hlimited. destruct Hout as [[-> _] | [_ Hnot]]; [|now contradiction Hnot].
    rewrite Handler.rate_limit_response. reflexivity.
Qed.

(** With status 429 and a text that could be read, the panel throws its
    own message about the busy service, whatever the text. *)
Lemma thrown_when_429 `{Runtime} (m text : string) :
  thrown m (Some 429) (Text text) = Error AI_BUSY_MESSAGE.
Proof.
  unfold thrown, read_error.
  destruct (JSON_parse text) as [[| | | | |]|]; reflexivity.
Qed.

Lemma accepted_click `{Runtime} `{Messages} (hotel : Hotel) (filters : SearchFilters)
    (now : Z) (invoke : json -> FunctionsResponse) (panel : Panel)
    (m : string) (status : option Z) (text : TextResult) :
  checkIn filters <> "" -> checkOut filters <> "" ->
  DEBOUNCE_MS <= now - lastRequestTime panel ->
  invoke (request_body hotel filters) = HttpError m status text ->
  handleGetPrediction hotel filters now invoke panel
  = {| prediction := prediction panel;
       lastRequestTime := now;
       toasts := (toasts panel ++ [failure_toast (message (thrown m status text))])%list;
       invocations := (invocations panel ++ [request_body hotel filters])%list |}.
Proof.
  intros Hin Hout Hwait Hcall. unfold handleGetPrediction.
  rewrite (nonempty_eqb _ Hin), (nonempty_eqb _ Hout). cbn [orb].
  destruct (Z.ltb (now - lastRequestTime panel) DEBOUNCE_MS) eqn:Hlt;
    [apply Z.ltb_lt in Hlt; lia|].
  rewrite Hcall. reflexivity.
Qed.

(** X14. From the provider to the user.  When the provider answered the
    edge function with status 429 and the call of the panel got the
    response of the edge function (its status, and a text that could be
    read), the panel shows the toast of the busy service with its own
    text, keeps the prediction it had, and has made one call. *)
Theorem busy_provider_reaches_the_user `{Runtime} `{Messages}
    (env : Env) (req : Request) (st : State)
    (hotel : Hotel) (filters : SearchFilters) (now : Z)
    (invoke : json -> FunctionsResponse) (panel : Panel) (m text : string) :
  rate_limited env st (snd (serve env req st)) ->
  checkIn filters <> "" -> checkOut filters <> "" ->
  DEBOUNCE_MS <= now - lastRequestTime panel ->
  invoke (request_body hotel filters)
  = HttpError m (Some (http_status (fst (serve env req st)))) (Text text) ->
  let panel' := handleGetPrediction hotel filters now invoke panel in
  toasts panel'
  = (toasts panel
     ++ [ {| title := "⏳ AI Service Busy";
             description :=
               "Our AI service is currently busy. Please try again in 1-2 minutes.";
             variant := destructive |} ])%list
  /\ prediction panel' = prediction panel
  /\ invocations panel' = (invocations panel ++ [request_body hotel filters])%list.
Proof.
  intros Hlimited Hin Hout Hwait Hcall panel'. subst panel'.
  rewrite (rate_limited_status env req st Hlimited) in Hcall.
  rewrite (accepted_click hotel filters now invoke panel m _ _ Hin Hout Hwait Hcall).
  rewrite thrown_when_429. cbn [toasts prediction invocations]. repeat split.
Qed.

Lemma busy_provider_reaches_the_user_witness :
  let env := Sample.env_at 1730700000000 Sample.festival_city (Response 429 "quota") in
  let resp := fst (@serve Reference.utc_runtime Reference.messages env
                     Sample.request Sample.empty_state) in
  let panel' := @handleGetPrediction Reference.utc_runtime Reference.messages
                  Sample.hotel ClientSamples.filters 1730700001000
                  (ClientSamples.refused (http_status resp) "busy")
                  ClientSamples.new_panel in
  rate_limited env Sample.empty_state
    (snd (@serve Reference.utc_runtime Reference.messages env
            Sample.request Sample.empty_state))
  /\ checkIn ClientSamples.filters <> ""
  /\ checkOut ClientSamples.filters <> ""
  /\ DEBOUNCE_MS <= 1730700001000 - lastRequestTime ClientSamples.new_panel
  /\ prediction panel' = JNull
  /\ List.length (toasts panel') = 1%nat.
Proof.
  intros env resp panel'.
  assert (Hlimited : rate_limited env Sample.empty_state
                       (snd (@serve Reference.utc_runtime Reference.messages env
                               Sample.request Sample.empty_state))).
  { split; [reflexivity|]. exists "quota". reflexivity. }
  assert (Hin : checkIn ClientSamples.filters <> "") by discriminate.
  assert (Hout : checkOut ClientSamples.filters <> "") by discriminate.
  assert (Hwait : DEBOUNCE_MS <= 1730700001000 - lastRequestTime ClientSamples.new_panel)
    by (vm_compute; discriminate).
  repeat (split; [assumption|]).
  destruct (@busy_provider_reaches_the_user Reference.utc_runtime Reference.messages
              env Sample.request Sample.empty_state Sample.hotel ClientSamples.filters
              1730700001000 (ClientSamples.refused (http_status resp) "busy")
              ClientSamples.new_panel _ "busy" Hlimited Hin Hout Hwait eq_refl)
    as (Htoasts & Hprediction & _).
  split; [exact Hprediction|].
  unfold panel'. rewrite Htoasts. reflexivity.
Defined.

(** X15. The calls of the panel.  One run of the handler makes at most
    one call; it makes none, and keeps the prediction and the time of the
    last call, when a date is missing or when less than 2000 ms have
    passed since the last call that was made; otherwise it makes exactly
    one call, whose body carries the identifier and the city of the hotel
    and the two dates of the filters, and records its time.  Two runs
    less than 2000 ms apart make at most one call between them, whatever
    the answers. *)
Theorem one_call_per_window `{Runtime} `{Messages}
    (hotel : Hotel) (filters1 filters2 : SearchFilters) (t1 t2 : Z)
    (invoke1 invoke2 : json -> FunctionsResponse) (panel : Panel) :
  t2 - t1 < DEBOUNCE_MS ->
  let first := handleGetPrediction hotel filters1 t1 invoke1 panel in
  let second := handleGetPrediction hotel filters2 t2 invoke2 first in
  (invocations first = invocations panel
   \/ invocations first = (invocations panel ++ [request_body hotel filters1])%list)
  /\ (checkIn filters1 = "" \/ checkOut filters1 = ""
      \/ t1 - lastRequestTime panel < DEBOUNCE_MS ->
      invocations first = invocations panel
      /\ prediction first = prediction panel
      /\ lastRequestTime first = lastRequestTime panel)
  /\ (checkIn filters1 <> "" -> checkOut filters1 <> "" ->
      DEBOUNCE_MS <= t1 - lastRequestTime panel ->
      invocations first = (invocations panel ++ [request_body hotel filters1])%list
      /\ lastRequestTime first = t1
      /\ get (request_body hotel filters1) "hotel_id" = Some (JNum (inject_Z (id hotel)))
      /\ get (request_body hotel filters1) "city" = Some (JStr (hotel_city hotel))
      /\ get (request_body hotel filters1) "check_in" = Some (JStr (checkIn filters1))
      /\ get (request_body hotel filters1) "check_out" = Some (JStr (checkOut filters1)))
  /\ (List.length (invocations second) <= List.length (invocations panel) + 1)%nat.
Proof.
  intros Hclose first second.
  assert (Hrun : forall f t inv (p : Panel),
             let q := handleGetPrediction hotel f t inv p in
             (invocations q = invocations p /\ prediction q = prediction p
              /\ lastRequestTime q = lastRequestTime p
              /\ (checkIn f = "" \/ checkOut f = "" \/ t - lastRequestTime p < DEBOUNCE_MS))
             \/ (invocations q = (invocations p ++ [request_body hotel f])%list
                 /\ lastRequestTime q = t
                 /\ checkIn f <> "" /\ checkOut f <> ""
                 /\ DEBOUNCE_MS <= t - lastRequestTime p)).
  { intros f t inv p q. subst q. unfold handleGetPrediction.
    destruct (String.eqb_spec (checkIn f) "") as [Hin|Hin]; cbn [orb].
    { left. cbn [show invocations prediction lastRequestTime]. repeat split; auto. }
    destruct (String.eqb_spec (checkOut f) "") as [Hout|Hout].
    { left. cbn [show invocations prediction lastRequestTime]. repeat split; auto. }
    destruct (Z.ltb (t - lastRequestTime p) DEBOUNCE_MS) eqn:Hlt.
    { apply Z.ltb_lt in Hlt. left.
      cbn [show invocations prediction lastRequestTime]. repeat split; auto. }
    apply Z.ltb_ge in Hlt. right.
    destruct (inv (request_body hotel f)) as [[| | | | |]| |];
      cbn [show invocations lastRequestTime]; repeat split; auto. }
  pose proof (Hrun filters1 t1 invoke1 panel) as H1.
  pose proof (Hrun filters2 t2 invoke2 first) as H2.
  fold first in H1. fold second in H2. cbv zeta in H1, H2.
  split; [|split; [|split]].
  - destruct H1 as [(-> & _) | (-> & _)]; auto.
  - intro Hcase. destruct H1 as [(Hi & Hp & Hl & _) | (_ & _ & Hin & Hout & Hwait)].
    + auto.
    + exfalso. destruct Hcase as [Hc | [Hc | Hc]]; [now apply Hin|now apply Hout|lia].
  - intros Hin Hout Hwait.
    destruct H1 as [(_ & _ & _ & Hcase) | (Hi & Hl & _)].
    + exfalso. destruct Hcase as [Hc | [Hc | Hc]]; [now apply Hin|now apply Hout|lia].
    + repeat split; assumption.
  - destruct H1 as [(Hi1 & _ & Hl1 & _) | (Hi1 & Hl1 & _)];
      destruct H2 as [(Hi2 & _) | (Hi2 & _ & _ & _ & Hwait2)];
      rewrite Hi2, Hi1, ?length_app; cbn [List.length]; lia.
Qed.

Lemma one_call_per_window_witness :
  let first := @handleGetPrediction Reference.utc_runtime Reference.messages
                 Sample.hotel ClientSamples.filters 1730700001000
                 (ClientSamples.refused 500 "down") ClientSamples.new_panel in
  let second := @handleGetPrediction Reference.utc_runtime Reference.messages
                  Sample.hotel ClientSamples.filters 1730700002500
                  (ClientSamples.refused 500 "down") first in
  1730700002500 - 1730700001000 < DEBOUNCE_MS
  /\ (List.length (invocations second)
      <= List.length (invocations ClientSamples.new_panel) + 1)%nat.
Proof.
  intros first second.
  assert (Hclose : 1730700002500 - 1730700001000 < DEBOUNCE_MS) by reflexivity.
  split; [exact Hclose|].
  destruct (@one_call_per_window Reference.utc_runtime Reference.messages
              Sample.hotel ClientSamples.filters ClientSamples.filters
              1730700001000 1730700002500
              (ClientSamples.refused 500 "down") (ClientSamples.refused 500 "down")
              ClientSamples.new_panel Hclose) as (_ & _ & _ & Hcount).
  exact Hcount.
Defined.

(** An error response of the edge function: status 429 or 500, and a
    body of error, code and timestamp. *)
Lemma serve_error_shape `{Runtime} `{Messages} (env : Env) (req : Request) (st : State) :
  let resp := fst (serve env req st) in
  http_status resp = 500 ->
  exists m, http_body resp = Some (error_body env m 500).
Proof.
  unfold serve.
  destruct (String.eqb (method req) "OPTIONS"); cbn [fst snd].
  { discriminate. }
  destruct (handle env req st) as [[answer|e] st1]; cbn [fst snd].
  { discriminate. }
  unfold error_response.
  destruct (startsWith (message e) "RATE_LIMIT:"); cbn [http_status http_body].
  - discriminate.
  - intros _. now exists (message e).
Qed.

(** X16. From an error of the edge function to the user.  When the edge
    function answered with status 500 and the call of the panel got that
    response (its status, and a text that parses to its body), the toast
    of the panel has the title of a failed prediction and, as its
    description, the error text of the edge function, provided that text
    is not empty and does not start with the marker of the busy service;
    the panel keeps the prediction it had. *)
Theorem server_error_reaches_the_user `{Runtime} `{Messages}
    (env : Env) (req : Request) (st : State)
    (hotel : Hotel) (filters : SearchFilters) (now : Z)
    (invoke : json -> FunctionsResponse) (panel : Panel) (m text : string) :
  let resp := fst (serve env req st) in
  http_status resp = 500 ->
  JSON_parse text = http_body resp ->
  checkIn filters <> "" -> checkOut filters <> "" ->
  DEBOUNCE_MS <= now - lastRequestTime panel ->
  invoke (request_body hotel filters) = HttpError m (Some (http_status resp)) (Text text) ->
  let panel' := handleGetPrediction hotel filters now invoke panel in
  exists error,
    top_field resp "error" = Some (JStr error)
    /\ prediction panel' = prediction panel
    /\ (error <> "" -> startsWith error "AI_BUSY:" = false ->
        toasts panel'
        = (toasts panel
           ++ [ {| title := "Prediction Failed";
                   description := error;
                   variant := destructive |} ])%list).
Proof.
  intros resp Hstatus Hparse Hin Hout Hwait Hcall panel'. subst panel'.
  destruct (serve_error_shape env req st Hstatus) as (error & Hbody).
  fold resp in Hbody. rewrite Hstatus in Hcall. rewrite Hbody in Hparse.
  exists error.
  split; [unfold top_field; rewrite Hbody; reflexivity|].
  rewrite (accepted_click hotel filters now invoke panel m _ _ Hin Hout Hwait Hcall).
  split; [reflexivity|].
  intros Hne Hmark. cbn [toasts]. do 2 f_equal.
  unfold thrown, read_error. rewrite Hparse.
  unfold error_body. cbn [get assoc String.eqb Ascii.eqb Bool.eqb or_else truthy].
  rewrite (nonempty_eqb _ Hne). cbn [negb Z.eqb orb is_429 of_Z].
  change (Qeq_bool (inject_Z 500) 429) with false.
  change ((500 =? 429)%positive || false) with false. cbn [error_text message].
  unfold failure_toast. rewrite Hmark. unfold or_text.
  rewrite (nonempty_eqb _ Hne). reflexivity.
Qed.

Lemma server_error_reaches_the_user_witness :
  let env := MoreSamples.keyless_env 1730700000000 in
  let resp := fst (@serve Reference.utc_runtime Reference.messages env
                     Sample.request Sample.empty_state) in
  let panel' := @handleGetPrediction Reference.utc_runtime Reference.messages
                  Sample.hotel ClientSamples.filters 1730700001000
                  (ClientSamples.refused (http_status resp) ClientSamples.keyless_text)
                  ClientSamples.new_panel in
  http_status resp = 500
  /\ @JSON_parse Reference.utc_runtime ClientSamples.keyless_text = http_body resp
  /\ checkIn ClientSamples.filters <> ""
  /\ checkOut ClientSamples.filters <> ""
  /\ DEBOUNCE_MS <= 1730700001000 - lastRequestTime ClientSamples.new_panel
  /\ exists error,
       top_field resp "error" = Some (JStr error)
       /\ prediction panel' = prediction ClientSamples.new_panel
       /\ (error <> "" -> startsWith error "AI_BUSY:" = false ->
           toasts panel'
           = (toasts ClientSamples.new_panel
              ++ [ {| title := "Prediction Failed";
                      description := error;
                      variant := destructive |} ])%list).
Proof.
  intros env resp panel'.
  assert (Hstatus : http_status resp = 500) by (vm_compute; reflexivity).
  assert (Hparse : @JSON_parse Reference.utc_runtime ClientSamples.keyless_text
                   = http_body resp) by (vm_compute; reflexivity).
  assert (Hin : checkIn ClientSamples.filters <> "") by discriminate.
  assert (Hout : checkOut ClientSamples.filters <> "") by discriminate.
  assert (Hwait : DEBOUNCE_MS <= 1730700001000 - lastRequestTime ClientSamples.new_panel)
    by (vm_compute; discriminate).
  repeat (split; [assumption|]).
  exact (@server_error_reaches_the_user Reference.utc_runtime Reference.messages
           env Sample.request Sample.empty_state Sample.hotel ClientSamples.filters
           1730700001000
           (ClientSamples.refused (http_status resp) ClientSamples.keyless_text)
           ClientSamples.new_panel _ ClientSamples.keyless_text
           Hstatus Hparse Hin Hout Hwait eq_refl).
Defined.

End PanelProps.

Module BookingProps.

Import JsString Js Exn PredictPrice Utils Client.
Open Scope string_scope.

Lemma nights_of_dates `{Runtime} (filters : SearchFilters) (a b : Z) :
  Date_parse (checkIn filters) = Some a -> Date_parse (checkOut filters) = Some b ->
  checkIn filters <> "" -> checkOut filters <> "" ->
  nights filters = Some (Qceiling (inject_Z (b - a) / inject_Z 86400000)%Q).
Proof.
  intros Ha Hb Hin Hout. unfold nights, calculateNights.
  rewrite (PanelProps.nonempty_eqb _ Hin), (PanelProps.nonempty_eqb _ Hout), Ha, Hb.
  reflexivity.
Qed.

Lemma ceiling_bracket (d : Z) :
  let n := Qceiling (inject_Z d / inject_Z 86400000)%Q in
  86400000 * (n - 1) < d <= 86400000 * n.
Proof.
  intro n. subst n.
  set (x := (inject_Z d / inject_Z 86400000)%Q).
  assert (Hx : (x * inject_Z 86400000 == inject_Z d)%Q) by (unfold x; field).
  pose proof (Qle_ceiling x) as Hup.
  pose proof (Qceiling_lt x) as Hdown.
  assert (Hday : (0 < inject_Z 86400000)%Q) by reflexivity.
  split.
  - rewrite Zlt_Qlt, inject_Z_mult, <- Hx.
    rewrite (Qmult_comm (inject_Z 86400000)).
    apply Qmult_lt_compat_r; assumption.
  - rewrite Zle_Qle, inject_Z_mult, <- Hx.
    rewrite (Qmult_comm (inject_Z 86400000)).
    apply Qmult_le_compat_r; [assumption|now apply Qlt_le_weak].
Qed.

(** X17. What the booking form lets through.  For a signed-in user and
    two texts that are dates: when the check-out is on the day of the
    check-in or less than a day before it, the number of nights is zero
    and the button is disabled; when the check-out is a day or more
    before the check-in, the button is enabled, and the handler submits a
    confirmed booking whose total price is the price per night times a
    negative number of nights, so negative for a positive price.  The
    handler itself never looks at the number of nights. *)
Theorem reversed_stay_is_bookable `{Runtime}
    (user : string) (hotel : Hotel) (filters : SearchFilters)
    (insert : Booking -> option string) (a b : Z) :
  Date_parse (checkIn filters) = Some a -> Date_parse (checkOut filters) = Some b ->
  checkIn filters <> "" -> checkOut filters <> "" ->
  (0 < price_per_night hotel)%Q ->
  (a - 86400000 < b <= a -> booking_disabled false filters = true)
  /\ (b <= a - 86400000 ->
      booking_disabled false filters = false
      /\ exists row total,
           submitted (handleBooking (Some user) hotel filters insert) = Some row
           /\ status row = confirmed
           /\ check_in row = checkIn filters
           /\ check_out row = checkOut filters
           /\ total_price row = Some total
           /\ (total < 0)%Q).
Proof.
  intros Ha Hb Hin Hout Hprice.
  pose proof (nights_of_dates filters a b Ha Hb Hin Hout) as Hnights.
  pose proof (ceiling_bracket (b - a)) as Hbracket. cbv zeta in Hbracket.
  set (n := Qceiling (inject_Z (b - a) / inject_Z 86400000)%Q) in *.
  split.
  - intro Hsame. unfold booking_disabled.
    rewrite (PanelProps.nonempty_eqb _ Hin), (PanelProps.nonempty_eqb _ Hout), Hnights.
    cbn [orb]. apply Z.eqb_eq. lia.
  - intro Hreversed.
    assert (Hneg : n < 0) by lia.
    split.
    + unfold booking_disabled.
      rewrite (PanelProps.nonempty_eqb _ Hin), (PanelProps.nonempty_eqb _ Hout), Hnights.
      cbn [orb]. apply Z.eqb_neq. lia.
    + unfold handleBooking.
      rewrite (PanelProps.nonempty_eqb _ Hin), (PanelProps.nonempty_eqb _ Hout).
      cbn [orb].
      exists {| user_id := user;
                hotel_id := id hotel;
                check_in := checkIn filters;
                check_out := checkOut filters;
                booked_guests := guests filters;
                final_price_per_night := price_per_night hotel;
                total_price := totalPrice hotel filters;
                status := confirmed |},
             (price_per_night hotel * inject_Z n)%Q.
      split; [destruct (insert _); reflexivity|].
      cbn [status check_in check_out total_price].
      repeat (split; [reflexivity|]).
      split; [unfold totalPrice; rewrite Hnights; reflexivity|].
      assert (Hn : (inject_Z n < 0)%Q).
      { change 0%Q with (inject_Z 0). now rewrite <- Zlt_Qlt. }
      nra.
Qed.

Lemma reversed_stay_is_bookable_witness :
  @Date_parse Reference.utc_runtime (checkIn ClientSamples.reversed_filters)
  = Some 1731024000000
  /\ @Date_parse Reference.utc_runtime (checkOut ClientSamples.reversed_filters)
     = Some 1730678400000
  /\ checkIn ClientSamples.reversed_filters <> ""
  /\ checkOut ClientSamples.reversed_filters <> ""
  /\ (0 < price_per_night Sample.hotel)%Q
  /\ 1730678400000 <= 1731024000000 - 86400000
  /\ @booking_disabled Reference.utc_runtime false ClientSamples.reversed_filters = false.
Proof.
  assert (Ha : @Date_parse Reference.utc_runtime (checkIn ClientSamples.reversed_filters)
               = Some 1731024000000) by (vm_compute; reflexivity).
  assert (Hb : @Date_parse Reference.utc_runtime (checkOut ClientSamples.reversed_filters)
               = Some 1730678400000) by (vm_compute; reflexivity).
  assert (Hin : checkIn ClientSamples.reversed_filters <> "") by discriminate.
  assert (Hout : checkOut ClientSamples.reversed_filters <> "") by discriminate.
  assert (Hprice : (0 < price_per_night Sample.hotel)%Q) by reflexivity.
  assert (Hreversed : 1730678400000 <= 1731024000000 - 86400000) by lia.
  repeat (split; [assumption|]).
  destruct (@reversed_stay_is_bookable Reference.utc_runtime "u1" Sample.hotel
              ClientSamples.reversed_filters (fun _ => None) _ _
              Ha Hb Hin Hout Hprice) as [_ Hopen].
  exact (proj1 (Hopen Hreversed)).
Defined.

End BookingProps.

Module DashboardProps.

Import JsString Js PredictPrice Client.
Open Scope string_scope.

Lemma not_confirmed (s : Status) : s <> confirmed -> Status_eqb s confirmed = false.
Proof. destruct s; [intro Hne; now contradiction Hne|reflexivity|reflexivity]. Qed.

(** X18. The two lists of the dashboard, both read at the time [now].
    A booking that is not confirmed is always in the past list and never
    in the upcoming list.  For a confirmed booking whose two dates parse:
    if the check-in is not after the check-out, it is never in both
    lists; while the stay is in progress (check-in before now, check-out
    not before now) it is in neither list; and if the check-out is before
    now and the check-in is not, as for a stay stored with its dates
    exchanged, it is in both lists. *)
Theorem dashboard_lists `{Runtime} (now : Z) (bookings : list Booking) (b : Booking) :
  (status b <> confirmed ->
   In b bookings ->
   In b (pastBookings now bookings) /\ ~ In b (upcomingBookings now bookings))
  /\ (forall ci co,
        Date_parse (check_in b) = Some ci -> Date_parse (check_out b) = Some co ->
        status b = confirmed ->
        (ci <= co ->
         ~ (In b (upcomingBookings now bookings) /\ In b (pastBookings now bookings)))
        /\ (ci < now <= co ->
            ~ In b (upcomingBookings now bookings) /\ ~ In b (pastBookings now bookings))
        /\ (co < now <= ci ->
            In b bookings ->
            In b (upcomingBookings now bookings) /\ In b (pastBookings now bookings))).
Proof.
  unfold upcomingBookings, pastBookings. split.
  - intros Hstatus Hin. rewrite !filter_In. unfold is_past, is_upcoming.
    rewrite (not_confirmed _ Hstatus), orb_true_r, andb_false_r.
    split; [now split|]. intros [_ Hfalse]. discriminate.
  - intros ci co Hci Hco Hstatus.
    rewrite !filter_In. unfold is_past, is_upcoming, date_le, date_lt.
    rewrite Hci, Hco, Hstatus. cbn [Status_eqb negb].
    rewrite andb_true_r, orb_false_r.
    split; [|split].
    + intros Horder [[_ Hup] [_ Hpast]].
      apply Z.leb_le in Hup. apply Z.ltb_lt in Hpast. lia.
    + intros Hprogress. split.
      * intros [_ Hup]. apply Z.leb_le in Hup. lia.
      * intros [_ Hpast]. apply Z.ltb_lt in Hpast. lia.
    + intros Hreversed Hin. split; (split; [exact Hin|]).
      * apply Z.leb_le. lia.
      * apply Z.ltb_lt. lia.
Qed.

End DashboardProps.

Module SearchProps.

Import JsString Js PredictPrice Client.
Open Scope string_scope.

Lemma Qlt_bool_true (x y : Q) : Qlt_bool x y = true <-> (x < y)%Q.
Proof.
  unfold Qlt_bool. rewrite negb_true_iff. split.
  - intro Hle. apply Qnot_le_lt. intro Hyx. apply Qle_bool_iff in Hyx. congruence.
  - intro Hlt. destruct (Qle_bool y x) eqn:Hle; [|reflexivity].
    apply Qle_bool_iff in Hle. lra.
Qed.

(** X19. What a search returns.  With a city chosen and a query that
    does not fail, a hotel is among the results exactly when it is in the
    table, is in the city of the filters, costs at least the minimum
    budget when that is above zero, costs at most the maximum budget when
    that is below 50000, and is in the band of the segment: at most 3000
    for budget, from 3000 to 10000 for mid, at least 10000 for luxury,
    both ends included.  So a maximum budget of 50000 is no limit at all.
    A failing query empties the results, and without a city nothing is
    searched and the results stay as they were. *)
Theorem search_results (filters : SearchFilters) (table results : list Hotel) (h : Hotel) :
  (city filters <> "" ->
   (In h (handleSearch filters false table results) <->
    In h table
    /\ hotel_city h = city filters
    /\ ((0 < budgetMin filters)%Q -> (budgetMin filters <= price_per_night h)%Q)
    /\ ((budgetMax filters < 50000)%Q -> (price_per_night h <= budgetMax filters)%Q)
    /\ match segment filters with
       | all => True
       | budget => (price_per_night h <= 3000)%Q
       | mid => (3000 <= price_per_night h)%Q /\ (price_per_night h <= 10000)%Q
       | luxury => (10000 <= price_per_night h)%Q
       end)
   /\ handleSearch filters true table results = [])
  /\ (city filters = "" -> forall failing,
        handleSearch filters failing table results = results).
Proof.
  split.
  - intro Hcity. unfold handleSearch.
    rewrite (proj2 (String.eqb_neq _ _) Hcity). split; [|reflexivity].
    rewrite filter_In. unfold search_query.
    rewrite !forallb_app. cbn [forallb passes]. rewrite andb_true_r, !andb_true_iff.
    rewrite String.eqb_eq.
    assert (Hmin : forallb (passes h)
                     (if Qlt_bool 0 (budgetMin filters)
                      then [gte_price (budgetMin filters)] else []) = true
                   <-> ((0 < budgetMin filters)%Q ->
                        (budgetMin filters <= price_per_night h)%Q)).
    { destruct (Qlt_bool 0 (budgetMin filters)) eqn:Hlt; cbn [forallb passes].
      - apply Qlt_bool_true in Hlt. rewrite andb_true_r, Qle_bool_iff. tauto.
      - split; [|reflexivity]. intros _ Hpos. apply Qlt_bool_true in Hpos. congruence. }
    assert (Hmax : forallb (passes h)
                     (if Qlt_bool (budgetMax filters) 50000
                      then [lte_price (budgetMax filters)] else []) = true
                   <-> ((budgetMax filters < 50000)%Q ->
                        (price_per_night h <= budgetMax filters)%Q)).
    { destruct (Qlt_bool (budgetMax filters) 50000) eqn:Hlt; cbn [forallb passes].
      - apply Qlt_bool_true in Hlt. rewrite andb_true_r, Qle_bool_iff. tauto.
      - split; [|reflexivity]. intros _ Hpos. apply Qlt_bool_true in Hpos. congruence. }
    rewrite Hmin, Hmax.
    destruct (segment filters); cbn [forallb passes];
      rewrite ?andb_true_iff, ?andb_true_r, ?Qle_bool_iff; tauto.
  - intros Hcity failing. unfold handleSearch. rewrite Hcity. reflexivity.
Qed.

End SearchProps.

Module ShuffleProps.

Import Js Client.

Section Lists.

Context {T : Type}.

Lemma length_update (i : nat) (x : T) (l : list T) :
  List.length (update i x l) = List.length l.
Proof.
  revert i. induction l as [|y r IH]; intros [|i]; cbn; auto.
Qed.

Lemma nth_error_update_same (i : nat) (x : T) (l : list T) :
  (i < List.length l)%nat -> nth_error (update i x l) i = Some x.
Proof.
  revert i. induction l as [|y r IH]; intros [|i] Hlt; cbn in *;
    try lia; [reflexivity|].
  apply IH. lia.
Qed.

Lemma nth_error_update_other (i j : nat) (x : T) (l : list T) :
  i <> j -> nth_error (update i x l) j = nth_error l j.
Proof.
  revert i j. induction l as [|y r IH]; intros [|i] [|j] Hne; cbn;
    try reflexivity; try (now contradiction Hne).
  apply IH. intro Heq. apply Hne. now f_equal.
Qed.

(** Writing [b] where [a] was exchanges one for the other. *)
Lemma update_exchanges (i : nat) (a b : T) (l : list T) :
  nth_error l i = Some a -> Permutation (b :: l) (a :: update i b l).
Proof.
  revert i. induction l as [|y r IH]; intros [|i] Hnth; cbn in *; try discriminate.
  - injection Hnth as ->. apply perm_swap.
  - eapply perm_trans; [apply perm_swap|].
    eapply perm_trans; [apply perm_skip, (IH i Hnth)|]. apply perm_swap.
Qed.

Lemma swap_permutes (i j : nat) (l : list T) :
  (i < List.length l)%nat -> (j < List.length l)%nat ->
  exists l', swap i j l = Some l' /\ Permutation l l'
             /\ List.length l' = List.length l.
Proof.
  intros Hi Hj. unfold swap.
  destruct (nth_error l i) as [a|] eqn:Ha;
    [|apply nth_error_None in Ha; lia].
  destruct (nth_error l j) as [b|] eqn:Hb;
    [|apply nth_error_None in Hb; lia].
  eexists. split; [reflexivity|]. split; [|now rewrite !length_update].
  assert (Hb' : nth_error (update i b l) j = Some b).
  { destruct (Nat.eq_dec i j) as [<-|Hne].
    - now apply nth_error_update_same.
    - now rewrite nth_error_update_other. }
  apply (Permutation_cons_inv (a := b)).
  eapply perm_trans; [apply (update_exchanges i a b l Ha)|].
  eapply perm_trans; [apply (update_exchanges j b a _ Hb')|].
  apply Permutation_refl.
Qed.

Lemma pick_in_range (r : Q) (i : nat) :
  (0 <= r)%Q -> (r < 1)%Q -> exists j, pick r i = Some j /\ (j <= i)%nat.
Proof.
  intros Hlo Hhi. unfold pick.
  set (n := inject_Z (Z.of_nat (i + 1))).
  assert (Hn : (1 <= n)%Q).
  { unfold n. change 1%Q with (inject_Z 1). rewrite <- Zle_Qle. lia. }
  assert (Hfloor0 : (0 <= Qfloor (r * n))%Z).
  { rewrite <- (Qfloor_Z 0). apply Qfloor_resp_le. change (inject_Z 0) with 0%Q. nra. }
  assert (Hfloor1 : (Qfloor (r * n) < Z.of_nat (i + 1))%Z).
  { rewrite Zlt_Qlt. eapply Qle_lt_trans; [apply Qfloor_le|]. fold n. nra. }
  destruct (Z.leb 0 (Qfloor (r * n))) eqn:Hle; [|apply Z.leb_gt in Hle; lia].
  eexists. split; [reflexivity|]. lia.
Qed.

Lemma shuffle_from_permutes (random : nat -> Q) (i k : nat) (l : list T) :
  (forall n, (0 <= random n)%Q /\ (random n < 1)%Q) ->
  (i <= List.length l - 1)%nat ->
  exists l', shuffle_from i random k l = Some l' /\ Permutation l l'.
Proof.
  intro Hrandom. revert k l. induction i as [|i IH]; intros k l Hi; cbn [shuffle_from].
  - exists l. split; [reflexivity|apply Permutation_refl].
  - destruct (Hrandom k) as [Hlo Hhi].
    destruct (pick_in_range (random k) (S i) Hlo Hhi) as (j & -> & Hj).
    destruct (swap_permutes (S i) j l) as (next & -> & Hperm & Hlen); try lia.
    destruct (IH (S k) next) as (l' & Hrest & Hperm'); [lia|].
    exists l'. split; [exact Hrest|]. eapply perm_trans; eassumption.
Qed.

(** X20. The shuffle returns a rearrangement.  With random numbers that
    are at least 0 and below 1, every index the loop computes is inside
    the array, the loop ends with a list, and this list is a permutation
    of the array: the same elements, each as many times. *)
Theorem shuffle_permutes (random : nat -> Q) (array : list T) :
  (forall n, (0 <= random n)%Q /\ (random n < 1)%Q) ->
  exists shuffled,
    shuffle random array = Some shuffled
    /\ Permutation array shuffled
    /\ List.length shuffled = List.length array.
Proof.
  intro Hrandom.
  destruct (shuffle_from_permutes random (List.length array - 1) 0 array Hrandom)
    as (l' & Hrun & Hperm); [apply Nat.le_refl|].
  exists l'. split; [exact Hrun|]. split; [exact Hperm|].
  symmetry. now apply Permutation_length.
Qed.

End Lists.

Lemma sample_random_in_range (n : nat) :
  (0 <= ClientSamples.random n)%Q /\ (ClientSamples.random n < 1)%Q.
Proof.
  destruct n as [|[|[|n]]]; cbn; split; lra.
Qed.

Lemma shuffle_permutes_witness :
  (forall n, (0 <= ClientSamples.random n)%Q /\ (ClientSamples.random n < 1)%Q)
  /\ exists shuffled,
       shuffle ClientSamples.random [10; 20; 30; 40] = Some shuffled
       /\ Permutation [10; 20; 30; 40] shuffled
       /\ List.length shuffled = 4%nat.
Proof.
  split; [exact sample_random_in_range|].
  exact (shuffle_permutes ClientSamples.random [10; 20; 30; 40] sample_random_in_range).
Defined.

End ShuffleProps.

(** * Invariants of the table of predictions *)

Module Invariants.

Import JsString Js Exn PredictPrice Spec Notions.
Open Scope string_scope.

(** One request: the state is as it was, or one call was made and
    nothing stored (the call failed, or the store refused the row), or one
    call was made and the row of a fresh computation was stored. *)
Lemma serve_step `{Runtime} `{Messages} (env : Env) (req : Request) (st : State) :
  snd (serve env req st) = st
  \/ snd (serve env req st)
     = {| price_predictions := price_predictions st;
          gemini_calls := S (gemini_calls st) |}
  \/ exists r p ai,
       snd (serve env req st)
       = {| price_predictions :=
              (price_predictions st
               ++ [stored_row env r p
                     (demand_of (city_demand_row env r) (req_check_in r)) ai])%list;
            gemini_calls := S (gemini_calls st) |}.
Proof.
  unfold serve.
  destruct (String.eqb (method req) "OPTIONS"); [now left|].
  unfold handle.
  destruct (body req) as [|r]; [now left|].
  destruct (negb (client_created env)); [now left|].
  destruct (cachedPrediction env r st) as [c|]; [now left|].
  unfold fresh.
  destruct (prepare env r) as [p|e]; [|now left].
  pose proof (Handler.getPriceInsight_counts (payload p) (geminiApiKey p) (gemini env)
                (gemini_calls st)) as Hcount.
  destruct (getPriceInsightFromGemini (payload p) (geminiApiKey p) (gemini env)
              (gemini_calls st)) as [[ai|e] calls]; cbn [fst snd] in *; subst calls.
  - cbn [price_predictions].
    destruct (store_accepts env _); [right; right; now exists r, p, ai|right; now left].
  - right. now left.
Qed.

Lemma stored_row_well `{Runtime} (env : Env) (r : PriceRequest) (p : Prepared)
    (ai : json) :
  stored_well (stored_row env r p (demand_of (city_demand_row env r) (req_check_in r)) ai).
Proof.
  split; [now exists (req_hotel_id r)|].
  split; [now exists (adjustedMin p), (adjustedMax p)|].
  exists (demandMultiplier (demand_of (city_demand_row env r) (req_check_in r))).
  split.
  - apply (Handler.stored_fields env r p).
  - apply Footprint.multiplier_at_least_one.
Qed.

(** X21. The table of predictions over any sequence of requests.  Rows
    are only ever added at the end, never changed or removed, and no more
    rows are added than calls were made to the provider, which are no
    more than the requests.  If every row of the table is as the handler
    stores rows (a hotel, two whole prices, a stored multiplier of at
    least one), then so is every row afterwards; and a response served
    from such a row has numbers, not null, as its base prices, the
    coercion of a number to a number being the number itself. *)
Theorem table_invariant `{Runtime} `{Messages}
    (trace : list (Env * Request)) (st : State) :
  Forall stored_well (price_predictions st) ->
  let st' := run trace st in
  Forall stored_well (price_predictions st')
  /\ (exists added,
        price_predictions st' = (price_predictions st ++ added)%list
        /\ (List.length added + gemini_calls st <= gemini_calls st')%nat)
  /\ (gemini_calls st' <= gemini_calls st + List.length trace)%nat
  /\ ((forall q, ToNumber (JNum q) = Some q) ->
      forall env r c,
        cachedPrediction env r st' = Some c ->
        exists lo hi,
          chain (get (cached_response c) "base_city_prices") "min" = Some (of_Z lo)
          /\ chain (get (cached_response c) "base_city_prices") "max" = Some (of_Z hi)).
Proof.
  intros Hwell st'.
  assert (Hinv : Forall stored_well (price_predictions st')
                 /\ (exists added,
                       price_predictions st' = (price_predictions st ++ added)%list
                       /\ (List.length added + gemini_calls st <= gemini_calls st')%nat)
                 /\ (gemini_calls st' <= gemini_calls st + List.length trace)%nat).
  { subst st'. revert st Hwell.
    induction trace as [|[env req] rest IH]; intros st Hwell; cbn [run].
    - split; [exact Hwell|]. split; [|cbn; lia].
      exists []. rewrite app_nil_r. split; [reflexivity|cbn; lia].
    - destruct (serve_step env req st) as [-> | [Hst | (r & p & ai & Hst)]].
      + destruct (IH st Hwell) as (Hw & (added & Hrows & Hcount) & Hcalls).
        split; [exact Hw|]. split; [now exists added|]. cbn [List.length]. lia.
      + rewrite Hst.
        destruct (IH {| price_predictions := price_predictions st;
                        gemini_calls := S (gemini_calls st) |} Hwell)
          as (Hw & (added & Hrows & Hcount) & Hcalls).
        cbn [price_predictions gemini_calls] in *.
        split; [exact Hw|]. split; [exists added; split; [exact Hrows|lia]|].
        cbn [List.length]. lia.
      + rewrite Hst.
        set (row := stored_row env r p
                      (demand_of (city_demand_row env r) (req_check_in r)) ai) in *.
        assert (Hwell' : Forall stored_well (price_predictions st ++ [row])%list).
        { apply Forall_app. split; [exact Hwell|].
          constructor; [apply stored_row_well|constructor]. }
        destruct (IH {| price_predictions := (price_predictions st ++ [row])%list;
                        gemini_calls := S (gemini_calls st) |} Hwell')
          as (Hw & (added & Hrows & Hcount) & Hcalls).
        cbn [price_predictions gemini_calls] in *.
        split; [exact Hw|]. split.
        * exists (row :: added). rewrite Hrows, <- app_assoc. split; [reflexivity|].
          cbn [List.length]. lia.
        * cbn [List.length]. lia. }
  destruct Hinv as (Hw & Hadded & Hcalls).
  repeat (split; [assumption|]).
  intros Hnum env r c Hhit.
  destruct (Handler.cachedPrediction_latest env r st' c Hhit) as (Hin & _).
  rewrite Forall_forall in Hw.
  destruct (Hw c Hin) as (_ & (lo & hi & Hlo & Hhi) & (m & Hm & Hone)).
  destruct (Footprint.cached_response_prices c) as (_ & _ & _ & _ & _ & Cmin & _ & Cmax).
  assert (Hmult : or_else (get (gemini_response c) "demand_multiplier") (JNum 1%Q)
                  = JNum m).
  { rewrite Hm. unfold or_else, truthy.
    destruct (Qeq_bool m 0) eqn:Hz; [|reflexivity].
    apply Qeq_bool_iff in Hz. lra. }
  rewrite Hmult, Hlo in Cmin. rewrite Hmult, Hhi in Cmax. cbn [column] in Cmin, Cmax.
  rewrite (Footprint.round_div_multiplier _ _ Hnum Hone) in Cmin.
  rewrite (Footprint.round_div_multiplier _ _ Hnum Hone) in Cmax.
  eexists. eexists. split; [exact Cmin|exact Cmax].
Qed.

Lemma table_invariant_witness :
  let env1 := Sample.env_at 1730700000000 Sample.festival_city
                (Response 200 (Sample.reply_with Sample.object_src)) in
  let env2 := Sample.env_at 1730703600000 Sample.festival_city
                (Response 200 (Sample.reply_with Sample.object_src)) in
  let st' := @run Reference.utc_runtime Reference.messages
               [(env1, Sample.request); (env2, Sample.request)] Sample.empty_state in
  Forall stored_well (price_predictions Sample.empty_state)
  /\ Forall stored_well (price_predictions st')
  /\ (gemini_calls st' <= 2)%nat.
Proof.
  intros env1 env2 st'.
  assert (Hwell : Forall stored_well (price_predictions Sample.empty_state))
    by constructor.
  split; [exact Hwell|].
  destruct (@table_invariant Reference.utc_runtime Reference.messages
              [(env1, Sample.request); (env2, Sample.request)] Sample.empty_state Hwell)
    as (Hw & _ & Hcalls & _).
  split; [exact Hw|exact Hcalls].
Defined.

End Invariants.

(** * From the cache to the user *)

Module EndToEnd.

Import JsString Js Exn PredictPrice Spec Client.
Open Scope string_scope.

(** X22. The toast after a successful call tells where the answer came
    from.  When the edge function answered a request with status 200 and
    the call of the panel got the body of that response as its data, the
    panel keeps the body as its prediction and shows one toast: the toast
    of cached insights exactly when the lookup of the edge function had
    found a row, the toast of fresh insights exactly when it had found
    none. *)
Theorem cached_flag_reaches_the_user `{Runtime} `{Messages}
    (env : Env) (req : Request) (st : State) (r : PriceRequest) (answer : json)
    (hotel : Hotel) (filters : SearchFilters) (now : Z)
    (invoke : json -> FunctionsResponse) (panel : Panel) :
  method req <> "OPTIONS" -> body req = Body r ->
  fst (serve env req st) = {| http_status := 200; http_body := Some answer |} ->
  checkIn filters <> "" -> checkOut filters <> "" ->
  DEBOUNCE_MS <= now - lastRequestTime panel ->
  invoke (request_body hotel filters) = Data answer ->
  let panel' := handleGetPrediction hotel filters now invoke panel in
  prediction panel' = answer
  /\ exists t,
       toasts panel' = (toasts panel ++ [t])%list
       /\ variant t = default
       /\ (title t = "Cached Insights Retrieved ⚡"
           <-> exists c, cachedPrediction env r st = Some c)
       /\ (title t = "Smart Insights Generated ✨"
           <-> cachedPrediction env r st = None).
Proof.
  intros Hmethod Hbody Hresp Hin Hout Hwait Hcall panel'. subst panel'.
  assert (Hanswer : (exists c, cachedPrediction env r st = Some c
                               /\ answer = cached_response c)
                    \/ (cachedPrediction env r st = None
                        /\ exists p d ai, answer = fresh_response p d ai)).
  { revert Hresp. unfold serve, handle, fresh.
    rewrite (Footprint.not_options req Hmethod), Hbody.
    destruct (negb (client_created env)); cbn [fst snd].
    { intro Hresp. pose proof (Footprint.error_response_status env
                                 (Fault CreateClientFailed)) as Hne.
      rewrite Hresp in Hne. now contradiction Hne. }
    destruct (cachedPrediction env r st) as [c|]; cbn [fst snd].
    { intro Hresp. injection Hresp as <-. left. now exists c. }
    destruct (prepare env r) as [p|e]; cbn [fst snd].
    2:{ intro Hresp. pose proof (Footprint.error_response_status env e) as Hne.
        rewrite Hresp in Hne. now contradiction Hne. }
    destruct (getPriceInsightFromGemini (payload p) (geminiApiKey p) (gemini env)
                (gemini_calls st)) as [[ai|e] calls]; cbn [fst snd].
    - intro Hresp. injection Hresp as <-. right. split; [reflexivity|].
      now exists p, (demand_of (city_demand_row env r) (req_check_in r)), ai.
    - intro Hresp. pose proof (Footprint.error_response_status env e) as Hne.
      rewrite Hresp in Hne. now contradiction Hne. }
  unfold handleGetPrediction.
  rewrite (PanelProps.nonempty_eqb _ Hin), (PanelProps.nonempty_eqb _ Hout). cbn [orb].
  destruct (Z.ltb (now - lastRequestTime panel) DEBOUNCE_MS) eqn:Hlt;
    [apply Z.ltb_lt in Hlt; lia|].
  rewrite Hcall.
  destruct Hanswer as [(c & Hhit & ->) | (Hmiss & p & d & ai & ->)].
  - split; [reflexivity|]. eexists. split; [reflexivity|]. split; [reflexivity|].
    rewrite Hhit. split.
    + split; [intros _; now exists c|reflexivity].
    + split; discriminate.
  - split; [reflexivity|]. eexists. split; [reflexivity|]. split; [reflexivity|].
    rewrite Hmiss. split.
    + split; [discriminate|]. intros [c Hc]. discriminate.
    + split; reflexivity.
Qed.

Lemma cached_flag_reaches_the_user_witness :
  let env := Sample.env_at 1730700000000 Sample.festival_city
               (Response 200 (Sample.reply_with Sample.object_src)) in
  let resp := fst (@serve Reference.utc_runtime Reference.messages env
                     Sample.request Sample.empty_state) in
  let answer := match http_body resp with Some b => b | None => JNull end in
  let panel' := @handleGetPrediction Reference.utc_runtime Reference.messages
                  Sample.hotel ClientSamples.filters 1730700001000
                  (fun _ => Data answer) ClientSamples.new_panel in
  method Sample.request <> "OPTIONS"
  /\ resp = {| http_status := 200; http_body := Some answer |}
  /\ checkIn ClientSamples.filters <> ""
  /\ checkOut ClientSamples.filters <> ""
  /\ DEBOUNCE_MS <= 1730700001000 - lastRequestTime ClientSamples.new_panel
  /\ prediction panel' = answer.
Proof.
  intros env resp answer panel'.
  assert (Hmethod : method Sample.request <> "OPTIONS") by discriminate.
  assert (Hresp : resp = {| http_status := 200; http_body := Some answer |})
    by (vm_compute; reflexivity).
  assert (Hin : checkIn ClientSamples.filters <> "") by discriminate.
  assert (Hout : checkOut ClientSamples.filters <> "") by discriminate.
  assert (Hwait : DEBOUNCE_MS <= 1730700001000 - lastRequestTime ClientSamples.new_panel)
    by (vm_compute; discriminate).
  repeat (split; [assumption|]).
  exact (proj1 (@cached_flag_reaches_the_user Reference.utc_runtime Reference.messages
                  env Sample.request Sample.empty_state Sample.stay answer
                  Sample.hotel ClientSamples.filters 1730700001000
                  (fun _ => Data answer) ClientSamples.new_panel
                  Hmethod eq_refl Hresp Hin Hout Hwait eq_refl)).
Defined.

End EndToEnd.

(** * Entries of the events text that do not match the format *)

Module Robustness.

Import JsString Js Exn PredictPrice Spec Notions.
Open Scope string_scope.

Lemma split_nonempty (sep : ascii) (s : string) : split sep s <> [].
Proof.
  destruct s as [|c r]; cbn; [discriminate|].
  destruct (Ascii.eqb c sep); [discriminate|].
  destruct (split sep r); discriminate.
Qed.

(** Splitting a text that has the separator in a given place. *)
Lemma split_at (sep : ascii) (a b : string) :
  split sep (a ++ String sep b) = (split sep a ++ split sep b)%list.
Proof.
  induction a as [|c a IH]; cbn [append split].
  - rewrite Ascii.eqb_refl. reflexivity.
  - destruct (Ascii.eqb c sep); [rewrite IH; reflexivity|].
    rewrite IH. pose proof (split_nonempty sep a) as Hne.
    destruct (split sep a) as [|p ps]; [now contradiction Hne|reflexivity].
Qed.

Lemma split_whole (sep : ascii) (s : string) :
  has_char sep s = false -> split sep s = [s].
Proof.
  induction s as [|c r IH]; cbn [has_char split]; [reflexivity|].
  rewrite orb_false_iff. intros [Hc Hr]. rewrite Hc, (IH Hr). reflexivity.
Qed.

Lemma scan_events_skip `{Runtime} (date : option Z) (before after : list string)
    (junk : string) :
  match_event junk = None ->
  scan_events date (before ++ junk :: after) = scan_events date (before ++ after).
Proof.
  intro Hjunk. induction before as [|e rest IH]; cbn [app scan_events].
  - rewrite Hjunk. reflexivity.
  - destruct (match_event e) as [[[n s0] e0]|]; [|exact IH].
    destruct (_ && _); [reflexivity|exact IH].
Qed.

Lemma append_nonempty (a b : string) (c : ascii) :
  String.eqb (a ++ String c b) "" = false.
Proof. destruct a; reflexivity. Qed.

(** X23. An entry of the events text that does not match the format of
    an event changes nothing.  Put before the text of a city, or between
    two parts of it, an entry without a semicolon that the pattern does
    not match leaves the whole demand of a stay as it was: the peak
    month, the active event and its name, the multiplier. *)
Theorem unmatched_entry_is_skipped `{Runtime}
    (cd : CityDemand) (junk : string) (checkIn : string) :
  has_char ";" junk = false -> match_event junk = None ->
  (forall text,
     events cd = Some text ->
     demand_of (Some (with_events cd (junk ++ ";" ++ text))) checkIn
     = demand_of (Some cd) checkIn)
  /\ (forall left right,
        events cd = Some (left ++ ";" ++ right) ->
        demand_of (Some (with_events cd (left ++ ";" ++ junk ++ ";" ++ right))) checkIn
        = demand_of (Some cd) checkIn).
Proof.
  intros Hsep Hjunk.
  assert (Hdemand : forall text,
             active_event (Some (with_events cd text)) (Date_parse checkIn)
             = active_event (Some cd) (Date_parse checkIn) ->
             demand_of (Some (with_events cd text)) checkIn = demand_of (Some cd) checkIn).
  { intros text Hactive. unfold demand_of. rewrite Hactive. reflexivity. }
  split.
  - intros text Htext. apply Hdemand.
    unfold active_event, with_events. cbn [events]. rewrite Htext.
    change (junk ++ ";" ++ text) with (junk ++ String ";" text).
    rewrite append_nonempty, split_at, (split_whole _ _ Hsep).
    cbn [app scan_events]. rewrite Hjunk.
    destruct (String.eqb_spec text "") as [->|Hne]; reflexivity.
  - intros left right Htext. apply Hdemand.
    unfold active_event, with_events. cbn [events]. rewrite Htext.
    change (left ++ ";" ++ junk ++ ";" ++ right)
      with (left ++ String ";" (junk ++ String ";" right)).
    change (left ++ ";" ++ right) with (left ++ String ";" right).
    rewrite !append_nonempty, !split_at, (split_whole _ _ Hsep).
    cbn [app]. apply (scan_events_skip _ _ _ _ Hjunk).
Qed.

Lemma unmatched_entry_is_skipped_witness :
  has_char ";" "Monsoon (July)" = false
  /\ match_event "Monsoon (July)" = None
  /\ eventName (@demand_of Reference.utc_runtime
                  (Some (with_events Sample.festival_city
                           ("Monsoon (July)" ++ ";"
                            ++ match events Sample.festival_city with
                               | Some text => text
                               | None => ""
                               end)))
                  "2024-11-04")
     = Some "Diwali".
Proof.
  assert (Hsep : has_char ";" "Monsoon (July)" = false) by reflexivity.
  assert (Hjunk : match_event "Monsoon (July)" = None) by (vm_compute; reflexivity).
  split; [exact Hsep|]. split; [exact Hjunk|].
  destruct (@unmatched_entry_is_skipped Reference.utc_runtime Sample.festival_city
              "Monsoon (July)" "2024-11-04" Hsep Hjunk) as [Hfront _].
  cbn [events Sample.festival_city].
  rewrite (Hfront _ eq_refl). vm_compute. reflexivity.
Defined.

End Robustness.
